(** * Mood & Insight analytics: the Mongoose models and Express routes

    A shallow embedding of
      - server/models/MoodLog.js   (schema, [moodScore] virtual, statics),
      - server/models/Insight.js   (schema, statics, methods),
      - the mood routes   (POST /, GET /, GET /trends, GET /summary,
                           PUT /:id, DELETE /:id),
      - the insight routes (GET /, /actionable, /summary, /:id,
                            PUT /:id/read, PUT /:id/action-taken,
                            DELETE /:id),
      - the authentication middleware,
      - the client's mood context (reducer, actions, score).

    Conventions.
      - A JavaScript Number is an IEEE-754 binary64 value: [float].
      - A JavaScript string is held as its UTF-8 encoding; its length is
        counted in UTF-16 code units.
      - A Date is its time value, milliseconds since the epoch, in [Z];
        [new Date()] is the [now] argument of the operation that calls it.
      - A collection is the list of its documents in natural order; a
        document holds its ObjectId as the 24 hexadecimal digits that
        print it.
      - A route handler returns a [response]; a handler that writes also
        returns the new collection. *)

From Stdlib Require Import ZArith String Ascii List Bool Lia.
From Stdlib Require Import DecimalString.
From Stdlib Require Import Permutation Sorted.
From Stdlib Require Import Floats Uint63.
Import ListNotations.

Open Scope string_scope.
Open Scope list_scope.
Open Scope Z_scope.

Set Implicit Arguments.
Set Warnings "-inexact-float,-register-all".

(* ===================================================================== *)
(** ** JavaScript values, as far as the handlers use them                 *)
(* ===================================================================== *)

Module JS.

(** What a property read on an object literal can produce here. *)
Inductive jsval :=
| JUndefined
| JNum (x : float)
| JFunction            (* a built-in function object *)
| JObject.             (* a plain object *)

(** Names that every object literal inherits from [Object.prototype]. *)
Definition Object_prototype : list string :=
  [ "constructor"; "__defineGetter__"; "__defineSetter__"; "hasOwnProperty";
    "__lookupGetter__"; "__lookupSetter__"; "isPrototypeOf";
    "propertyIsEnumerable"; "toString"; "valueOf"; "__proto__";
    "toLocaleString" ].

Fixpoint own_property (o : list (string * float)) (k : string) : option float :=
  match o with
  | [] => None
  | (k', v) :: o' => if String.eqb k' k then Some v else own_property o' k
  end.

Definition inherited (k : string) : bool :=
  existsb (String.eqb k) Object_prototype.

(** [o[k]] for an object literal [o] with numeric own properties: the own
    property if there is one, else what the prototype chain gives. *)
Definition get (o : list (string * float)) (k : string) : jsval :=
  match own_property o k with
  | Some v => JNum v
  | None =>
      if inherited k
      then (if String.eqb k "__proto__" then JObject else JFunction)
      else JUndefined
  end.

Definition ToBoolean (v : jsval) : bool :=
  match v with
  | JUndefined => false
  | JNum x => negb (PrimFloat.is_zero x || PrimFloat.is_nan x)
  | JFunction | JObject => true
  end.

(** [a || b] *)
Definition or (a b : jsval) : jsval := if ToBoolean a then a else b.

Definition ToNumber (v : jsval) : float :=
  match v with
  | JNum x => x
  | JUndefined | JFunction | JObject => PrimFloat.nan
  end.

(** [a * b] *)
Definition mul (a b : jsval) : float := PrimFloat.mul (ToNumber a) (ToNumber b).

(** The Number of an integer (exact up to 2^53 in magnitude). *)
Definition Z2float (z : Z) : float :=
  match z with
  | Z0 => PrimFloat.zero
  | Zpos _ => PrimFloat.of_uint63 (Uint63.of_Z z)
  | Zneg _ => PrimFloat.opp (PrimFloat.of_uint63 (Uint63.of_Z (- z)))
  end.

(** [Math.round]: the nearest integer, ties towards +infinity.  The
    integer is computed exactly from mantissa and exponent; the sign of
    a zero result is not tracked. *)
Definition Math_round (x : float) : float :=
  match Prim2SF x with
  | S754_finite s m e =>
      if 0 <=? e then x
      else
        let sm := if s then Zneg m else Zpos m in
        Z2float ((2 * sm + 2 ^ (- e)) / 2 ^ (- e + 1))
  | _ => x
  end.

End JS.

(* ===================================================================== *)
(** ** JavaScript strings, ObjectIds and Dates                            *)
(* ===================================================================== *)

Module JSString.

(** A JavaScript string is held as its UTF-8 encoding (a string with a
    lone surrogate has none and is left out).  Equality of strings and
    the binary order of MongoDB are those of the encodings. *)

(** A byte [10xxxxxx] continues a character. *)
Definition continues (c : ascii) : bool :=
  Nat.leb 128 (nat_of_ascii c) && Nat.ltb (nat_of_ascii c) 192.

Definition continued (ch : string) : bool :=
  match ch with
  | String c _ => continues c
  | EmptyString => false
  end.

(** The characters (code points) of a string, each as its encoding. *)
Fixpoint chars (s : string) : list string :=
  match s with
  | EmptyString => []
  | String c s' =>
      match chars s' with
      | ch :: rest =>
          if continued ch then String c ch :: rest
          else String c EmptyString :: ch :: rest
      | [] => [String c EmptyString]
      end
  end.

(** The UTF-16 code units of a character: two beyond the basic plane
    (an encoding of four bytes), else one. *)
Definition units (ch : string) : nat :=
  match ch with
  | String c _ => if Nat.leb 240 (nat_of_ascii c) then 2%nat else 1%nat
  | EmptyString => 0%nat
  end.

Definition char1 (a : nat) : string := String (ascii_of_nat a) EmptyString.
Definition char2 (a b : nat) : string := String (ascii_of_nat a) (char1 b).
Definition char3 (a b c : nat) : string := String (ascii_of_nat a) (char2 b c).

(** The class [\s] of a regular expression: U+0009 to U+000D, U+0020,
    U+00A0, U+1680, U+2000 to U+200A, U+2028, U+2029, U+202F, U+205F,
    U+3000 and U+FEFF. *)
Definition WhiteSpace : list string :=
  [ char1 9; char1 10; char1 11; char1 12; char1 13; char1 32;
    char2 194 160; char3 225 154 128;
    char3 226 128 128; char3 226 128 129; char3 226 128 130;
    char3 226 128 131; char3 226 128 132; char3 226 128 133;
    char3 226 128 134; char3 226 128 135; char3 226 128 136;
    char3 226 128 137; char3 226 128 138;
    char3 226 128 168; char3 226 128 169; char3 226 128 175;
    char3 226 129 159; char3 227 128 128; char3 239 187 191 ].

Definition is_space (ch : string) : bool := existsb (String.eqb ch) WhiteSpace.

Fixpoint drop_space (chs : list string) : list string :=
  match chs with
  | [] => []
  | ch :: chs' => if is_space ch then drop_space chs' else chs
  end.

(** [s.length]: the number of UTF-16 code units. *)
Definition length (s : string) : nat := list_sum (map units (chars s)).

End JSString.

(** validator.js, as the chains of express-validator call it. *)
Module Validator.

(** [trim(str)]: white space of the class [\s] is taken from both
    ends. *)
Definition trim (s : string) : string :=
  String.concat ""
    (rev (JSString.drop_space (rev (JSString.drop_space (JSString.chars s))))).

(** The variation selectors U+FE0E and U+FE0F. *)
Definition variation_selector (ch : string) : bool :=
  String.eqb ch (JSString.char3 239 184 142)
  || String.eqb ch (JSString.char3 239 184 143).

(** The length that [isLength] compares: [str.length] less one for
    every surrogate pair and for every variation selector, which is the
    number of the characters that are no variation selectors. *)
Definition measured_length (s : string) : nat :=
  List.length (filter (fun ch => negb (variation_selector ch)) (JSString.chars s)).

(** [isLength(str, { max })] *)
Definition isLength_max (max : nat) (s : string) : bool :=
  Nat.leb (measured_length s) max.

Definition is_hex (c : ascii) : bool :=
  let n := nat_of_ascii c in
  (Nat.leb 48 n && Nat.leb n 57) || (Nat.leb 65 n && Nat.leb n 70)
  || (Nat.leb 97 n && Nat.leb n 102).

Fixpoint all_chars (p : ascii -> bool) (s : string) : bool :=
  match s with
  | EmptyString => true
  | String c s' => p c && all_chars p s'
  end.

(** [isHexadecimal(str)]: [/^(0x|0h)?[0-9A-F]+$/i]. *)
Definition isHexadecimal (s : string) : bool :=
  let digits :=
    match s with
    | String a (String b r) =>
        if Ascii.eqb a "0"
           && existsb (Ascii.eqb b) ["x"; "X"; "h"; "H"]%char
        then r else s
    | _ => s
    end in
  negb (String.eqb digits "") && all_chars is_hex digits.

(** [isMongoId(str)]: [isHexadecimal(str) && str.length === 24]. *)
Definition isMongoId (s : string) : bool :=
  isHexadecimal s && Nat.eqb (JSString.length s) 24.

End Validator.

Module ObjectId.

Definition lower (c : ascii) : ascii :=
  let n := nat_of_ascii c in
  if Nat.leb 65 n && Nat.leb n 70 then ascii_of_nat (n + 32) else c.

Fixpoint lowercase (s : string) : string :=
  match s with
  | EmptyString => EmptyString
  | String c s' => String (lower c) (lowercase s')
  end.

(** The cast of a string that stands at [_id] in a filter: a string of
    24 hexadecimal digits is an ObjectId, which prints in lower case;
    any other string fails the cast (CastError).  A document holds its
    ObjectId in the printed form.  (Versions of the BSON library before
    6 also take a string of 12 bytes; that is not modelled.) *)
Definition cast (s : string) : option string :=
  if Nat.eqb (String.length s) 24 && Validator.all_chars Validator.is_hex s
  then Some (lowercase s)
  else None.

End ObjectId.

Module JSDate.

(** The time values of a Date: at most 8.64e15 ms from the epoch; any
    other time value is that of an Invalid Date, which Mongoose does not
    cast (CastError). *)
Definition valid (t : Z) : bool :=
  (-8640000000000000 <=? t) && (t <=? 8640000000000000).

End JSDate.

(* ===================================================================== *)
(** ** server/models/MoodLog.js                                           *)
(* ===================================================================== *)

Module MoodLog.

(** A stored mood log.  [location], [deviceInfo] and [metadata] are
    carried by the schema as well; no handler below reads them. *)
Record t := {
  _id : string;
  userId : string;
  mood : string;
  intensity : float;
  context : option string;
  transactionId : option string;
  notes : option string;
  triggers : list string;
  createdAt : Z;
  updatedAt : Z
}.

Definition mood_enum : list string :=
  [ "happy"; "neutral"; "stressed"; "anxious"; "excited"; "sad"; "angry";
    "calm"; "worried"; "content" ].

Definition context_enum : list string :=
  [ "before_transaction"; "after_transaction"; "general"; "budget_review";
    "goal_check" ].

Definition triggers_enum : list string :=
  [ "spending"; "saving"; "budget_alert"; "goal_progress"; "insight";
    "reminder" ].

(** The lookup table of the [moodScore] virtual. *)
Definition moodScores : list (string * float) :=
  [ ("happy", 9); ("excited", 8); ("content", 7); ("calm", 6);
    ("neutral", 5); ("worried", 4); ("sad", 3); ("anxious", 2);
    ("stressed", 2); ("angry", 1) ]%float.

(** [(moodScores[this.mood] || 5) * (this.intensity / 10)] *)
Definition moodScore (this : t) : float :=
  JS.mul (JS.or (JS.get moodScores (mood this)) (JS.JNum 5%float))
         (JS.JNum (PrimFloat.div (intensity this) 10%float)).

End MoodLog.


(* ===================================================================== *)
(** ** MongoDB: values, cursors, aggregation operators                    *)
(* ===================================================================== *)

Module Mongo.

(** BSON values that occur in the pipelines below. *)
Inductive value :=
| VNull
| VBool (b : bool)
| VNum (x : float)
| VStr (s : string)
| VDate (t : Z)
| VArr (l : list value)
| VObj (o : list (string * value)).

(** An operation of the driver either yields a result or rejects. *)
Inductive result (A : Type) :=
| Done (a : A)
| Raise (msg : string).
Arguments Done {A} a.
Arguments Raise {A} msg.

Definition bind {A B} (r : result A) (k : A -> result B) : result B :=
  match r with
  | Done a => k a
  | Raise m => Raise m
  end.

Notation "x <- r ;; k" := (bind r (fun x => k))
  (at level 61, r at next level, right associativity).

Fixpoint mapM {A B} (f : A -> result B) (l : list A) : result (list B) :=
  match l with
  | [] => Done []
  | a :: l' => b <- f a ;; bs <- mapM f l' ;; Done (b :: bs)
  end.

(** *** Cursors *)

(** [.sort(...)] and [$sort], as a stable insertion sort: [le a b] says
    that [a] may stand before [b]; documents that the order does not
    tell apart keep their natural order. *)
Fixpoint insert_sorted {A} (le : A -> A -> bool) (a : A) (l : list A) : list A :=
  match l with
  | [] => [a]
  | b :: l' => if le a b then a :: l else b :: insert_sorted le a l'
  end.

Definition sort {A} (le : A -> A -> bool) (l : list A) : list A :=
  fold_right (insert_sorted le) [] l.

(** [.limit(n)]: zero means no limit, a negative [n] counts as [|n|]. *)
Definition limit {A} (n : Z) (l : list A) : list A :=
  if n =? 0 then l else firstn (Z.to_nat (Z.abs n)) l.

(** [.skip(n)]: the server rejects a negative [n]. *)
Definition skip {A} (n : Z) (l : list A) : result (list A) :=
  if n <? 0 then Raise "Skip value must be non-negative"
  else Done (skipn (Z.to_nat n) l).

(** [findOneAndUpdate(filter, update, { new: true })]: the first
    document that matches is replaced by its update, which is returned. *)
Fixpoint findOneAndUpdate {A} (filter : A -> bool) (update : A -> A)
    (coll : list A) : option A * list A :=
  match coll with
  | [] => (None, [])
  | d :: coll' =>
      if filter d then (Some (update d), update d :: coll')
      else let (r, c) := findOneAndUpdate filter update coll' in (r, d :: c)
  end.

(** [findOne(filter)] *)
Definition findOne {A} (filter : A -> bool) (coll : list A) : option A :=
  find filter coll.

(** *** Order of BSON values in a sort: null, numbers, strings, objects,
    arrays, booleans, dates; a missing field sorts as null. *)
Definition type_rank (v : value) : Z :=
  match v with
  | VNull => 0 | VNum _ => 1 | VStr _ => 2 | VObj _ => 3 | VArr _ => 4
  | VBool _ => 5 | VDate _ => 6
  end.

(** Numbers: NaN stands below every other number. *)
Definition num_compare (x y : float) : comparison :=
  match PrimFloat.compare x y with
  | FEq => Eq
  | FLt => Lt
  | FGt => Gt
  | FNotComparable =>
      if PrimFloat.is_nan x
      then (if PrimFloat.is_nan y then Eq else Lt)
      else Gt
  end.

Definition value_compare (a b : value) : comparison :=
  match a, b with
  | VNum x, VNum y => num_compare x y
  | VStr s, VStr s' => String.compare s s'
  | VBool x, VBool y => Bool.compare x y
  | VDate t, VDate t' => Z.compare t t'
  | _, _ => Z.compare (type_rank a) (type_rank b)
  end.

Definition key_compare (a b : option value) : comparison :=
  value_compare (match a with Some v => v | None => VNull end)
                (match b with Some v => v | None => VNull end).

(** One key of a sort specification: direction [1] ascending, [-1]
    descending. *)
Definition directed (dir : Z) (c : comparison) : comparison :=
  if dir <? 0 then CompOpp c else c.

(** A sort specification [{ k1: d1, k2: d2, ... }] over documents whose
    stored fields are read by [field]. *)
Fixpoint spec_compare {A} (field : A -> string -> option value)
    (spec : list (string * Z)) (a b : A) : comparison :=
  match spec with
  | [] => Eq
  | (k, dir) :: spec' =>
      match directed dir (key_compare (field a k) (field b k)) with
      | Eq => spec_compare field spec' a b
      | c => c
      end
  end.

Definition spec_le {A} (field : A -> string -> option value)
    (spec : list (string * Z)) (a b : A) : bool :=
  match spec_compare field spec a b with
  | Gt => false
  | _ => true
  end.

(** *** Aggregation expression operators *)

Fixpoint reduce_list (step : value -> value -> result value) (acc : value)
    (l : list value) : result value :=
  match l with
  | [] => Done acc
  | x :: l' => acc' <- step acc x ;; reduce_list step acc' l'
  end.

(** [$reduce]: null for a null or missing input; an input that is not an
    array is an error. *)
Definition op_reduce (input : option value) (initialValue : value)
    (step : value -> value -> result value) : result value :=
  match input with
  | None | Some VNull => Done VNull
  | Some (VArr l) => reduce_list step initialValue l
  | Some _ => Raise "$reduce requires that 'input' be an array"
  end.

Fixpoint obj_get (o : list (string * value)) (k : string) : option value :=
  match o with
  | [] => None
  | (k', v) :: o' => if String.eqb k' k then Some v else obj_get o' k
  end.

Fixpoint obj_set (o : list (string * value)) (k : string) (v : value)
    : list (string * value) :=
  match o with
  | [] => [(k, v)]
  | (k', v') :: o' =>
      if String.eqb k' k then (k, v) :: o' else (k', v') :: obj_set o' k v
  end.

(** [$mergeObjects]: later fields override earlier ones; null is skipped. *)
Definition op_mergeObjects (args : list value) : result value :=
  o <- fold_left
         (fun acc a =>
            o <- acc ;;
            match a with
            | VNull => Done o
            | VObj o' => Done (fold_left (fun m kv => obj_set m (fst kv) (snd kv)) o' o)
            | _ => Raise "$mergeObjects requires object inputs"
            end)
         args (Done []) ;;
  Done (VObj o).

(** [$arrayToObject]: an array of [{ k, v }] documents or [[k, v]] pairs. *)
Definition key_value (e : value) : result (string * value) :=
  match e with
  | VArr [VStr k; v] => Done (k, v)
  | VObj o =>
      match obj_get o "k", obj_get o "v", o with
      | Some (VStr k), Some v, [_; _] => Done (k, v)
      | _, _, _ => Raise "$arrayToObject requires an object with keys 'k' and 'v'"
      end
  | _ => Raise "$arrayToObject requires an array of key-value pairs"
  end.

Definition op_arrayToObject (arg : value) : result value :=
  match arg with
  | VNull => Done VNull
  | VArr l =>
      kvs <- mapM key_value l ;;
      Done (VObj (fold_left (fun m kv => obj_set m (fst kv) (snd kv)) kvs []))
  | _ => Raise "$arrayToObject requires an array input"
  end.

(** [$objectToArray] *)
Definition op_objectToArray (arg : value) : result value :=
  match arg with
  | VNull => Done VNull
  | VObj o => Done (VArr (map (fun kv => VObj [("k", VStr (fst kv)); ("v", snd kv)]) o))
  | _ => Raise "$objectToArray requires a document input"
  end.

(** [$map] *)
Definition op_map (input : value) (f : value -> result value) : result value :=
  match input with
  | VNull => Done VNull
  | VArr l => l' <- mapM f l ;; Done (VArr l')
  | _ => Raise "input to $map must be an array"
  end.

(** [$arrayElemAt]: no value when the index is out of range. *)
Definition op_arrayElemAt (arr : value) (idx : Z) : result (option value) :=
  match arr with
  | VNull => Done (Some VNull)
  | VArr l =>
      if idx <? 0
      then (if Z.of_nat (length l) + idx <? 0 then Done None
            else Done (nth_error l (Z.to_nat (Z.of_nat (length l) + idx))))
      else Done (nth_error l (Z.to_nat idx))
  | _ => Raise "$arrayElemAt's first argument must be an array"
  end.

(** *** Accumulators of [$group] *)

Definition numeric (v : option value) : option float :=
  match v with
  | Some (VNum x) => Some x
  | _ => None
  end.

Fixpoint numerics (vs : list (option value)) : list float :=
  match vs with
  | [] => []
  | v :: vs' =>
      match numeric v with
      | Some x => x :: numerics vs'
      | None => numerics vs'
      end
  end.

(** The sum of doubles, taken from left to right. *)
Definition fsum (xs : list float) : float :=
  fold_left PrimFloat.add xs 0%float.

(** [$avg]: the mean of the numeric values; values that are missing or
    not numeric are ignored, and with no numeric value the result is
    null. *)
Definition acc_avg (vs : list (option value)) : value :=
  match numerics vs with
  | [] => VNull
  | xs => VNum (PrimFloat.div (fsum xs) (JS.Z2float (Z.of_nat (length xs))))
  end.

(** [$first]: the value for the first document of the group. *)
Definition acc_first (vs : list (option value)) : value :=
  match vs with
  | Some v :: _ => v
  | _ => VNull
  end.

(** Groups of a [$group] stage, in the order in which their keys first
    occur. *)
Fixpoint add_to_group {K A} (eqb : K -> K -> bool) (k : K) (a : A)
    (gs : list (K * list A)) : list (K * list A) :=
  match gs with
  | [] => [(k, [a])]
  | (k', l) :: gs' =>
      if eqb k' k then (k', l ++ [a]) :: gs'
      else (k', l) :: add_to_group eqb k a gs'
  end.

Definition group_by {K A} (eqb : K -> K -> bool) (key : A -> K) (l : list A)
    : list (K * list A) :=
  fold_left (fun gs a => add_to_group eqb (key a) a gs) l [].

(** *** Date operators (UTC) *)

Definition ms_per_day : Z := 24 * 60 * 60 * 1000.

Definition days_of (t : Z) : Z := t / ms_per_day.

(** Days since the epoch of a proleptic Gregorian date. *)
Definition days_from_civil (y m d : Z) : Z :=
  let y' := if m <=? 2 then y - 1 else y in
  let era := y' / 400 in
  let yoe := y' - era * 400 in
  let doy := (153 * (if 2 <? m then m - 3 else m + 9) + 2) / 5 + d - 1 in
  let doe := yoe * 365 + yoe / 4 - yoe / 100 + doy in
  era * 146097 + doe - 719468.

(** [$year] *)
Definition op_year (t : Z) : Z :=
  let z := days_of t + 719468 in
  let era := z / 146097 in
  let doe := z - era * 146097 in
  let yoe := (doe - doe / 1460 + doe / 36524 - doe / 146096) / 365 in
  let doy := doe - (365 * yoe + yoe / 4 - yoe / 100) in
  let mp := (5 * doy + 2) / 153 in
  let m := if mp <? 10 then mp + 3 else mp - 9 in
  yoe + era * 400 + (if m <=? 2 then 1 else 0).

(** Day of the year, 0 for 1 January. *)
Definition day_of_year (t : Z) : Z :=
  days_of t - days_from_civil (op_year t) 1 1.

(** Day of the week, 0 for Sunday. *)
Definition day_of_week (t : Z) : Z := (days_of t + 4) mod 7.

(** [$week]: 0 to 53; weeks begin on Sunday, week 1 begins with the first
    Sunday of the year, the days before it are in week 0. *)
Definition op_week (t : Z) : Z := (day_of_year t + 7 - day_of_week t) / 7.

(** [$isoWeek] (ISO 8601): 1 to 53; weeks begin on Monday, week 1 is the
    week with the year's first Thursday.  No handler uses it. *)
Definition iso_weeks_in_year (y : Z) : Z :=
  let jan1 := (days_from_civil y 1 1 + 4) mod 7 in
  let leap := (y mod 4 =? 0) && (negb (y mod 100 =? 0) || (y mod 400 =? 0)) in
  if (jan1 =? 4) || (leap && (jan1 =? 3)) then 53 else 52.

Definition op_isoWeek (t : Z) : Z :=
  let wd := (day_of_week t + 6) mod 7 + 1 in
  let w := (day_of_year t + 1 - wd + 10) / 7 in
  if w <? 1 then iso_weeks_in_year (op_year t - 1)
  else if iso_weeks_in_year (op_year t) <? w then 1
  else w.

End Mongo.

(* ===================================================================== *)
(** ** HTTP responses                                                     *)
(* ===================================================================== *)

(** [res.json(...)] with status 200, or [res.status(code).json(...)] with
    [success: false] and a message. *)
Inductive response (A : Type) :=
| Ok (data : A)
| Fail (status : Z) (message : string).
Arguments Ok {A} data.
Arguments Fail {A} status message.

(* ===================================================================== *)
(** ** The mood routes: GET /api/moods/trends, GET /api/moods/summary,
       PUT /api/moods/:id                                                 *)
(* ===================================================================== *)

Module MoodRoutes.

Import Mongo.

(** What MongoDB holds of a mood log.  [moodScore] is a virtual of the
    Mongoose document: it is not a stored field. *)
Definition stored (d : MoodLog.t) (path : string) : option value :=
  if String.eqb path "_id" then Some (VStr (MoodLog._id d))
  else if String.eqb path "userId" then Some (VStr (MoodLog.userId d))
  else if String.eqb path "mood" then Some (VStr (MoodLog.mood d))
  else if String.eqb path "intensity" then Some (VNum (MoodLog.intensity d))
  else if String.eqb path "context" then option_map VStr (MoodLog.context d)
  else if String.eqb path "transactionId" then option_map VStr (MoodLog.transactionId d)
  else if String.eqb path "notes" then option_map VStr (MoodLog.notes d)
  else if String.eqb path "triggers" then Some (VArr (map VStr (MoodLog.triggers d)))
  else if String.eqb path "createdAt" then Some (VDate (MoodLog.createdAt d))
  else if String.eqb path "updatedAt" then Some (VDate (MoodLog.updatedAt d))
  else None.

(** *** GET /trends: the weekly mood scores *)

Record WeekRow := {
  year : Z;
  week : Z;
  avgMoodScore : value;
  count : Z
}.

Definition week_key_eqb (a b : Z * Z) : bool :=
  (fst a =? fst b) && (snd a =? snd b).

(** [$sort: { '_id.year': 1, '_id.week': 1 }] *)
Definition week_le (a b : WeekRow) : bool :=
  (year a <? year b) || ((year a =? year b) && (week a <=? week b)).

Definition weeklyScores (moodlogs : list MoodLog.t) (user : string)
    (days now : Z) : list WeekRow :=
  let since := now - days * 24 * 60 * 60 * 1000 in
  let matched :=
    filter (fun d => String.eqb (MoodLog.userId d) user
                     && (since <=? MoodLog.createdAt d)) moodlogs in
  let groups :=
    group_by week_key_eqb
      (fun d => (op_year (MoodLog.createdAt d), op_week (MoodLog.createdAt d)))
      matched in
  sort week_le
    (map (fun g =>
            {| year := fst (fst g);
               week := snd (fst g);
               avgMoodScore := acc_avg (map (fun d => stored d "moodScore") (snd g));
               count := Z.of_nat (length (snd g)) |})
         groups).

(** *** GET /summary *)

Record SummaryRow := {
  totalLogs : Z;
  summary_avgMoodScore : value;
  dominantMood : value;
  moodDistribution : option (list value)
}.

(** The expression under [dominantMood: { $first: ... }], for one
    document. *)
Definition dominantMood_expr (d : MoodLog.t) : result (option value) :=
  merged <- op_reduce (stored d "mood") (VObj [])
              (fun value this =>
                 o <- op_arrayToObject (VArr [VObj [("k", this); ("v", VNum 1%float)]]) ;;
                 op_mergeObjects [value; o]) ;;
  pairs <- op_objectToArray merged ;;
  keys <- op_map pairs
            (fun mood =>
               match mood with
               | VObj o => Done (match obj_get o "k" with Some k => k | None => VNull end)
               | _ => Done VNull
               end) ;;
  op_arrayElemAt keys 0.

(** One document of [$push: { mood, intensity, moodScore }]; a field that
    is missing in the source document is left out. *)
Definition pushed (d : MoodLog.t) : value :=
  VObj (flat_map
          (fun k => match stored d k with Some v => [(k, v)] | None => [] end)
          ["mood"; "intensity"; "moodScore"]).

(** The [$match] and [$group] (with [_id: null]) stages: no document for
    no input, else one document. *)
Definition summary_aggregate (moodlogs : list MoodLog.t) (user : string)
    (startDate : Z) : result (list SummaryRow) :=
  let matched :=
    filter (fun d => String.eqb (MoodLog.userId d) user
                     && (startDate <=? MoodLog.createdAt d)) moodlogs in
  match matched with
  | [] => Done []
  | _ =>
      dominant <- mapM dominantMood_expr matched ;;
      Done [ {| totalLogs := Z.of_nat (length matched);
                summary_avgMoodScore :=
                  acc_avg (map (fun d => stored d "moodScore") matched);
                dominantMood := acc_first dominant;
                moodDistribution := Some (map pushed matched) |} ]
  end.

(** The [summary] member of the response: [summary[0]] or the default
    object.  [startDate] is [days] calendar days before [now] (taken as
    days of 24 hours).  A rejected aggregation is caught: status 500.
    When [startDate] is no valid Date, the query for the recent moods,
    which follows the aggregation, fails the cast of its filter: status
    500 as well. *)
Definition get_summary (moodlogs : list MoodLog.t) (user : string)
    (days now : Z) : response SummaryRow :=
  let startDate := now - days * ms_per_day in
  if negb (JSDate.valid startDate) then Fail 500 "Server error"
  else
    match summary_aggregate moodlogs user startDate with
    | Raise _ => Fail 500 "Server error"
    | Done summary =>
        Ok (match summary with
            | s :: _ => s
            | [] => {| totalLogs := 0;
                       summary_avgMoodScore := VNum 0%float;
                       dominantMood := VStr "neutral";
                       moodDistribution := None |}
            end)
    end.

(** *** PUT /:id *)

(** The request body, read at the schema paths that the model of the
    document carries; [None] is an absent key, and [intensity] is the
    number that the key holds.  A body with other keys is not
    modelled. *)
Module Body.
Record t := {
  userId : option string;
  mood : option string;
  intensity : option float;
  context : option string;
  transactionId : option string;
  notes : option string;
  triggers : option (list string)
}.
End Body.

(** [body(f).optional().isIn(values)] *)
Definition isIn (values : list string) (v : option string) : bool :=
  match v with
  | None => true
  | Some s => existsb (String.eqb s) values
  end.

(** [body('intensity').optional().isInt({ min: 1, max: 10 })] *)
Definition isInt_1_10 (v : option float) : bool :=
  match v with
  | None => true
  | Some x => existsb (PrimFloat.eqb x) [1; 2; 3; 4; 5; 6; 7; 8; 9; 10]%float
  end.

(** [body('notes').optional().trim().isLength({ max: 500 })]: the
    sanitizer rewrites the body. *)
Definition sanitize (b : Body.t) : Body.t :=
  {| Body.userId := Body.userId b;
     Body.mood := Body.mood b;
     Body.intensity := Body.intensity b;
     Body.context := Body.context b;
     Body.transactionId := Body.transactionId b;
     Body.notes := option_map Validator.trim (Body.notes b);
     Body.triggers := Body.triggers b |}.

Definition validationResult_isEmpty (b : Body.t) : bool :=
  isIn MoodLog.mood_enum (Body.mood b)
  && isInt_1_10 (Body.intensity b)
  && isIn MoodLog.context_enum (Body.context b)
  && match Body.notes b with
     | None => true
     | Some n => Validator.isLength_max 500 n
     end.

(** [runValidators: true]: the schema validators of the paths under
    [$set] ([required], [enum], [min]/[max], [maxlength], the last on
    the length of the string in UTF-16 code units). *)
Definition runValidators (b : Body.t) : bool :=
  match Body.userId b with
  | None => true
  | Some u => negb (String.eqb u "")
  end
  && match Body.mood b with
     | None => true
     | Some m => negb (String.eqb m "") && existsb (String.eqb m) MoodLog.mood_enum
     end
  && match Body.intensity b with
     | None => true
     | Some x => PrimFloat.leb 1 x && PrimFloat.leb x 10
     end
  && isIn MoodLog.context_enum (Body.context b)
  && match Body.notes b with
     | None => true
     | Some n => Nat.leb (JSString.length n) 500
     end
  && match Body.triggers b with
     | None => true
     | Some ts => forallb (fun t => existsb (String.eqb t) MoodLog.triggers_enum) ts
     end.

Definition or_else {A} (o : option A) (a : A) : A :=
  match o with
  | Some x => x
  | None => a
  end.

(** [{ $set: updateData }] with [updateData = req.body], and the
    [updatedAt] stamp of [timestamps: true]. *)
Definition set (b : Body.t) (now : Z) (d : MoodLog.t) : MoodLog.t :=
  {| MoodLog._id := MoodLog._id d;
     MoodLog.userId := or_else (Body.userId b) (MoodLog.userId d);
     MoodLog.mood := or_else (Body.mood b) (MoodLog.mood d);
     MoodLog.intensity := or_else (Body.intensity b) (MoodLog.intensity d);
     MoodLog.context :=
       match Body.context b with Some c => Some c | None => MoodLog.context d end;
     MoodLog.transactionId :=
       match Body.transactionId b with
       | Some x => Some x
       | None => MoodLog.transactionId d
       end;
     MoodLog.notes :=
       match Body.notes b with Some n => Some n | None => MoodLog.notes d end;
     MoodLog.triggers := or_else (Body.triggers b) (MoodLog.triggers d);
     MoodLog.createdAt := MoodLog.createdAt d;
     MoodLog.updatedAt := now |}.

(** [data.moodLog] of the response. *)
Record View := {
  id : string;
  mood : string;
  intensity : float;
  context : option string;
  moodScore : float;
  updatedAt : Z
}.

Definition view (d : MoodLog.t) : View :=
  {| id := MoodLog._id d;
     mood := MoodLog.mood d;
     intensity := MoodLog.intensity d;
     context := MoodLog.context d;
     moodScore := MoodLog.moodScore d;
     updatedAt := MoodLog.updatedAt d |}.

(** [id] is [req.params.id].  The chain is looked at first; then
    [findOneAndUpdate] casts the [_id] of its filter and runs the
    validators, and either failure is caught: status 500. *)
Definition put (moodlogs : list MoodLog.t) (user id : string) (body : Body.t)
    (now : Z) : response View * list MoodLog.t :=
  let updateData := sanitize body in
  if negb (validationResult_isEmpty updateData)
  then (Fail 400 "Validation failed", moodlogs)
  else
    match ObjectId.cast id with
    | None => (Fail 500 "Server error", moodlogs)
    | Some oid =>
        if negb (runValidators updateData)
        then (Fail 500 "Server error", moodlogs)
        else
          match findOneAndUpdate
                  (fun d => String.eqb (MoodLog._id d) oid
                            && String.eqb (MoodLog.userId d) user)
                  (set updateData now) moodlogs with
          | (None, _) => (Fail 404 "Mood log not found", moodlogs)
          | (Some moodLog, moodlogs') => (Ok (view moodLog), moodlogs')
          end
    end.

End MoodRoutes.

(* ===================================================================== *)
(** ** server/models/Insight.js                                           *)
(* ===================================================================== *)

Module Insight.

Import Mongo.

(** A stored insight.  The schema also carries [data], [visualizations],
    [source], [tags] and [metadata]; no operation below reads them, and
    the record leaves them out. *)
Record t := {
  _id : string;
  userId : string;
  type : string;
  title : string;
  description : string;
  confidence : float;
  priority : string;
  category : string;
  isRead : bool;
  isActionable : bool;
  actionTaken : bool;
  actionTakenAt : option Z;
  expiresAt : option Z;
  createdAt : Z;
  updatedAt : Z
}.

Definition type_enum : list string :=
  [ "spending_pattern"; "mood_correlation"; "budget_insight"; "goal_progress";
    "behavioral_trigger"; "recommendation"; "forecast" ].

Definition priority_enum : list string := [ "low"; "medium"; "high"; "urgent" ].

Definition category_enum : list string :=
  [ "financial"; "emotional"; "behavioral"; "predictive"; "actionable" ].

Definition visualization_type_enum : list string :=
  [ "chart"; "graph"; "metric"; "trend" ].

Definition source_enum : list string :=
  [ "ml_analysis"; "rule_based"; "user_behavior"; "external_data" ].

(** What MongoDB holds of an insight. *)
Definition stored (d : t) (path : string) : option value :=
  if String.eqb path "_id" then Some (VStr (_id d))
  else if String.eqb path "userId" then Some (VStr (userId d))
  else if String.eqb path "type" then Some (VStr (type d))
  else if String.eqb path "title" then Some (VStr (title d))
  else if String.eqb path "description" then Some (VStr (description d))
  else if String.eqb path "confidence" then Some (VNum (confidence d))
  else if String.eqb path "priority" then Some (VStr (priority d))
  else if String.eqb path "category" then Some (VStr (category d))
  else if String.eqb path "isRead" then Some (VBool (isRead d))
  else if String.eqb path "isActionable" then Some (VBool (isActionable d))
  else if String.eqb path "actionTaken" then Some (VBool (actionTaken d))
  else if String.eqb path "actionTakenAt" then option_map VDate (actionTakenAt d)
  else if String.eqb path "expiresAt" then option_map VDate (expiresAt d)
  else if String.eqb path "createdAt" then Some (VDate (createdAt d))
  else if String.eqb path "updatedAt" then Some (VDate (updatedAt d))
  else None.

(** [expiresAt: { $gt: now }]; a document without [expiresAt] does not
    match. *)
Definition expires_after (now : Z) (d : t) : bool :=
  match expiresAt d with
  | Some e => now <? e
  | None => false
  end.

(** *** Schema validation: [new Insight(input).save()] *)

(** The object handed to the constructor, at the paths that have a
    validator or that the operations read; [None] is an absent key.  A
    value has the type of its path: a string, a number, a boolean, or
    the time value of a Date (one outside the range of Date stands for
    an Invalid Date).  [visualizations] lists the [type] of each
    element.  Values under [data], [tags] and [metadata], which have no
    validator, are not modelled. *)
Module Input.
Record t := {
  userId : option string;
  type : option string;
  title : option string;
  description : option string;
  confidence : option float;
  priority : option string;
  category : option string;
  visualizations : list (option string);
  source : option string;
  isRead : option bool;
  isActionable : option bool;
  actionTaken : option bool;
  actionTakenAt : option Z;
  expiresAt : option Z
}.
End Input.

(** [required: true] on a String path: present and not empty. *)
Definition required_string (v : option string) : bool :=
  match v with
  | Some s => negb (String.eqb s "")
  | None => false
  end.

(** [enum: values]: checked when the value is present. *)
Definition enum (values : list string) (v : option string) : bool :=
  match v with
  | Some s => existsb (String.eqb s) values
  | None => true
  end.

(** [maxlength: n], on the length in UTF-16 code units. *)
Definition maxlength (n : nat) (v : option string) : bool :=
  match v with
  | Some s => Nat.leb (JSString.length s) n
  | None => true
  end.

(** The cast of a Date path: an Invalid Date fails it. *)
Definition date_ok (v : option Z) : bool :=
  match v with
  | Some t => JSDate.valid t
  | None => true
  end.

(** [required: true, min: 0, max: 1] on a Number path. *)
Definition confidence_ok (v : option float) : bool :=
  match v with
  | Some c => PrimFloat.leb 0 c && PrimFloat.leb c 1
  | None => false
  end.

(** The failing paths of the elements of [visualizations] from index
    [n] on: an element fails at its [type]. *)
Fixpoint visualization_paths (n : nat) (types : list (option string))
    : list string :=
  match types with
  | [] => []
  | ty :: types' =>
      (if enum visualization_type_enum ty then []
       else [String.append "visualizations."
               (String.append (NilEmpty.string_of_uint (Nat.to_uint n)) ".type")])
      ++ visualization_paths (S n) types'
  end.

(** The paths that fail validation, in schema order.  [expiresAt] has a
    type and an index, and no validator: only its cast can fail. *)
Definition validate (i : Input.t) : list string :=
  (if required_string (Input.userId i) then [] else ["userId"])
  ++ (if required_string (Input.type i) && enum type_enum (Input.type i)
      then [] else ["type"])
  ++ (if required_string (Input.title i) && maxlength 200 (Input.title i)
      then [] else ["title"])
  ++ (if required_string (Input.description i)
         && maxlength 1000 (Input.description i)
      then [] else ["description"])
  ++ (if confidence_ok (Input.confidence i) then [] else ["confidence"])
  ++ (if enum priority_enum (Input.priority i) then [] else ["priority"])
  ++ (if required_string (Input.category i)
         && enum category_enum (Input.category i)
      then [] else ["category"])
  ++ visualization_paths 0 (Input.visualizations i)
  ++ (if enum source_enum (Input.source i) then [] else ["source"])
  ++ (if date_ok (Input.actionTakenAt i) then [] else ["actionTakenAt"])
  ++ (if date_ok (Input.expiresAt i) then [] else ["expiresAt"]).

Definition or_else {A} (o : option A) (a : A) : A :=
  match o with
  | Some x => x
  | None => a
  end.

(** The document that [save] writes: schema defaults applied, timestamps
    set; [id] is the fresh ObjectId.  The required paths are present when
    validation has passed. *)
Definition document (id : string) (now : Z) (i : Input.t) : t :=
  {| _id := id;
     userId := or_else (Input.userId i) "";
     type := or_else (Input.type i) "";
     title := or_else (Input.title i) "";
     description := or_else (Input.description i) "";
     confidence := or_else (Input.confidence i) PrimFloat.nan;
     priority := or_else (Input.priority i) "medium";
     category := or_else (Input.category i) "";
     isRead := or_else (Input.isRead i) false;
     isActionable := or_else (Input.isActionable i) false;
     actionTaken := or_else (Input.actionTaken i) false;
     actionTakenAt := Input.actionTakenAt i;
     expiresAt := Input.expiresAt i;
     createdAt := now;
     updatedAt := now |}.

(** [save]: rejects with a ValidationError that names the failing paths,
    or inserts the document. *)
Definition save (insights : list t) (id : string) (now : Z) (i : Input.t)
    : result t * list t :=
  match validate i with
  | [] => (Done (document id now i), insights ++ [document id now i])
  | _ :: _ => (Raise "ValidationError", insights)
  end.

(** *** Statics *)

Definition getActionableInsights (insights : list t) (user : string)
    (limit now : Z) : list t :=
  Mongo.limit limit
    (sort (spec_le stored [("priority", -1); ("confidence", -1); ("createdAt", -1)])
       (filter (fun d => String.eqb (userId d) user
                         && Bool.eqb (isActionable d) true
                         && Bool.eqb (actionTaken d) false
                         && expires_after now d)
               insights)).

(** One document of the [$group] stage of [getInsightsSummary]. *)
Record Group := {
  group_type : string;
  group_category : string;
  count : Z;
  avgConfidence : value;
  highPriorityCount : Z;
  actionableCount : Z
}.

Definition group_key_eqb (a b : string * string) : bool :=
  String.eqb (fst a) (fst b) && String.eqb (snd a) (snd b).

Definition count_if {A} (p : A -> bool) (l : list A) : Z :=
  Z.of_nat (length (filter p l)).

(** [startDate] is [days] calendar days before [now] (taken as days of 24
    hours). *)
Definition getInsightsSummary (insights : list t) (user : string)
    (days now : Z) : list Group :=
  let startDate := now - days * ms_per_day in
  let matched :=
    filter (fun d => String.eqb (userId d) user && (startDate <=? createdAt d))
           insights in
  let groups := group_by group_key_eqb (fun d => (type d, category d)) matched in
  sort (fun a b => count b <=? count a)
    (map (fun g =>
            {| group_type := fst (fst g);
               group_category := snd (fst g);
               count := Z.of_nat (length (snd g));
               avgConfidence :=
                 acc_avg (map (fun d => stored d "confidence") (snd g));
               highPriorityCount :=
                 count_if (fun d => existsb (String.eqb (priority d)) ["high"; "urgent"])
                          (snd g);
               actionableCount := count_if isActionable (snd g) |})
         groups).

(** *** Methods *)

(** [save] of a loaded document writes, and stamps [updatedAt], only
    when an assignment has changed a value. *)
Definition markAsRead (this : t) (now : Z) : t :=
  if isRead this then this
  else
  {| _id := _id this; userId := userId this; type := type this;
     title := title this; description := description this;
     confidence := confidence this; priority := priority this;
     category := category this;
     isRead := true;
     isActionable := isActionable this; actionTaken := actionTaken this;
     actionTakenAt := actionTakenAt this; expiresAt := expiresAt this;
     createdAt := createdAt this; updatedAt := now |}.

Definition markActionTaken (this : t) (now : Z) : t :=
  if actionTaken this
     && match actionTakenAt this with Some t => t =? now | None => false end
  then this
  else
  {| _id := _id this; userId := userId this; type := type this;
     title := title this; description := description this;
     confidence := confidence this; priority := priority this;
     category := category this;
     isRead := isRead this;
     isActionable := isActionable this;
     actionTaken := true;
     actionTakenAt := Some now;
     expiresAt := expiresAt this;
     createdAt := createdAt this; updatedAt := now |}.

End Insight.

(* ===================================================================== *)
(** ** The insight routes: GET /api/insights, /actionable, /summary,
       /:id, PUT /:id/read, PUT /:id/action-taken                         *)
(* ===================================================================== *)

Module InsightRoutes.

Import Mongo.

(** *** GET / *)

(** [req.query], after [parseInt] of [page] and [limit]; [None] is an
    absent parameter. *)
Record Query := {
  page : Z;
  limit : Z;
  type : option string;
  category : option string;
  priority : option string;
  isRead : option string;
  isActionable : option string;
  sort : string;
  order : string
}.

(** The query of a request without parameters. *)
Definition default_query : Query :=
  {| page := 1; limit := 10; type := None; category := None; priority := None;
     isRead := None; isActionable := None; sort := "createdAt"; order := "desc" |}.

(** [if (x) filter.x = x]: an absent or empty parameter adds no
    condition. *)
Definition string_filter (q : option string) (v : string) : bool :=
  match q with
  | None => true
  | Some s => if String.eqb s "" then true else String.eqb v s
  end.

(** [if (x !== undefined) filter.x = x === 'true'] *)
Definition bool_filter (q : option string) (v : bool) : bool :=
  match q with
  | None => true
  | Some s => Bool.eqb v (String.eqb s "true")
  end.

(** The [filter] object of the handler: the owner and the query's
    conditions. *)
Definition list_filter (user : string) (q : Query) (d : Insight.t) : bool :=
  String.eqb (Insight.userId d) user
  && string_filter (type q) (Insight.type d)
  && string_filter (category q) (Insight.category d)
  && string_filter (priority q) (Insight.priority d)
  && bool_filter (isRead q) (Insight.isRead d)
  && bool_filter (isActionable q) (Insight.isActionable d).

(** [data.insights] and [data.pagination.total_items]. *)
Record Listing := {
  insights : list Insight.t;
  total_items : Z
}.

(** The default of [sort] stands for an absent parameter only: an
    empty [sort] gives the sort specification an empty field name, which
    is rejected, and the [catch] answers 500.  (Other strings that are
    no field path are not modelled.) *)
Definition get_list (coll : list Insight.t) (user : string) (q : Query)
    : response Listing :=
  let sortOrder := if String.eqb (order q) "asc" then 1 else -1 in
  let found := filter (list_filter user q) coll in
  if String.eqb (sort q) "" then Fail 500 "Server error"
  else
    match skip ((page q - 1) * limit q)
               (Mongo.sort (spec_le Insight.stored [(sort q, sortOrder)]) found) with
    | Raise _ => Fail 500 "Server error"
    | Done rest =>
        Ok {| insights := Mongo.limit (limit q) rest;
              total_items := Z.of_nat (length found) |}
    end.

(** *** GET /actionable *)

Definition actionable (coll : list Insight.t) (user : string) (limit now : Z)
    : response (list Insight.t) :=
  Ok (Insight.getActionableInsights coll user limit now).

(** *** GET /summary *)

Record Summary := {
  totalInsights : Z;
  highPriorityCount : Z;
  actionableCount : Z;
  avgConfidence : float
}.

Record SummaryData := {
  summary : Summary;
  breakdown : list Insight.Group;
  recentInsights : list Insight.t
}.

(** [acc + item.avgConfidence] for the accumulated number [acc]; the
    average of a group is a number, or null. *)
Definition add_value (acc : float) (v : value) : float :=
  match v with
  | VNum x => PrimFloat.add acc x
  | VNull => PrimFloat.add acc 0
  | _ => PrimFloat.nan
  end.

Definition get_summary (coll : list Insight.t) (user : string) (days now : Z)
    : response SummaryData :=
  let groups := Insight.getInsightsSummary coll user days now in
  let recent :=
    Mongo.limit 5
      (Mongo.sort (spec_le Insight.stored [("createdAt", -1)])
         (filter (fun d => String.eqb (Insight.userId d) user
                           && Insight.expires_after now d) coll)) in
  let totalInsights := fold_left (fun acc item => acc + Insight.count item) groups 0 in
  let highPriorityCount :=
    fold_left (fun acc item => acc + Insight.highPriorityCount item) groups 0 in
  let actionableCount :=
    fold_left (fun acc item => acc + Insight.actionableCount item) groups 0 in
  let avgConfidence :=
    if 0 <? Z.of_nat (length groups)
    then PrimFloat.div
           (fold_left (fun acc item => add_value acc (Insight.avgConfidence item))
                      groups 0%float)
           (JS.Z2float (Z.of_nat (length groups)))
    else 0%float in
  Ok {| summary :=
          {| totalInsights := totalInsights;
             highPriorityCount := highPriorityCount;
             actionableCount := actionableCount;
             avgConfidence :=
               PrimFloat.div (JS.Math_round (PrimFloat.mul avgConfidence 100)) 100 |};
        breakdown := groups;
        recentInsights := recent |}.

(** *** GET /:id *)

Definition owned (user id : string) (d : Insight.t) : bool :=
  String.eqb (Insight._id d) id && String.eqb (Insight.userId d) user.

(** The query of the handler and the answer made of its result, for
    the ObjectId [id] that the filter holds after its cast. *)
Definition getById (coll : list Insight.t) (user id : string)
    : response Insight.t :=
  match findOne (owned user id) coll with
  | None => Fail 404 "Insight not found"
  | Some insight => Ok insight
  end.

(** The handler on [req.params.id]: a string that is no ObjectId fails
    the cast of the filter, and the [catch] answers 500. *)
Definition get_id (coll : list Insight.t) (user param : string)
    : response Insight.t :=
  match ObjectId.cast param with
  | None => Fail 500 "Server error"
  | Some id => getById coll user id
  end.

(** *** PUT /:id/read *)

(** [{ $set: { isRead: true } }], with the [updatedAt] stamp of
    [timestamps: true]. *)
Definition set_isRead (now : Z) (d : Insight.t) : Insight.t :=
  {| Insight._id := Insight._id d; Insight.userId := Insight.userId d;
     Insight.type := Insight.type d; Insight.title := Insight.title d;
     Insight.description := Insight.description d;
     Insight.confidence := Insight.confidence d;
     Insight.priority := Insight.priority d;
     Insight.category := Insight.category d;
     Insight.isRead := true;
     Insight.isActionable := Insight.isActionable d;
     Insight.actionTaken := Insight.actionTaken d;
     Insight.actionTakenAt := Insight.actionTakenAt d;
     Insight.expiresAt := Insight.expiresAt d;
     Insight.createdAt := Insight.createdAt d;
     Insight.updatedAt := now |}.

(** The update of the handler and the answer made of its result, for
    the ObjectId [id] that the filter holds after its cast. *)
Definition markRead (coll : list Insight.t) (user id : string) (now : Z)
    : response string * list Insight.t :=
  match findOneAndUpdate (owned user id) (set_isRead now) coll with
  | (None, _) => (Fail 404 "Insight not found", coll)
  | (Some _, coll') => (Ok "Insight marked as read", coll')
  end.

(** The handler on [req.params.id]: a string that is no ObjectId fails
    the cast of the filter, and the [catch] answers 500. *)
Definition put_read (coll : list Insight.t) (user param : string) (now : Z)
    : response string * list Insight.t :=
  match ObjectId.cast param with
  | None => (Fail 500 "Server error", coll)
  | Some id => markRead coll user id now
  end.

(** *** PUT /:id/action-taken *)

(** [{ $set: { actionTaken: true, actionTakenAt: new Date() } }], with
    the [updatedAt] stamp. *)
Definition set_actionTaken (now : Z) (d : Insight.t) : Insight.t :=
  {| Insight._id := Insight._id d; Insight.userId := Insight.userId d;
     Insight.type := Insight.type d; Insight.title := Insight.title d;
     Insight.description := Insight.description d;
     Insight.confidence := Insight.confidence d;
     Insight.priority := Insight.priority d;
     Insight.category := Insight.category d;
     Insight.isRead := Insight.isRead d;
     Insight.isActionable := Insight.isActionable d;
     Insight.actionTaken := true;
     Insight.actionTakenAt := Some now;
     Insight.expiresAt := Insight.expiresAt d;
     Insight.createdAt := Insight.createdAt d;
     Insight.updatedAt := now |}.

(** The update of the handler and the answer made of its result, for
    the ObjectId [id] that the filter holds after its cast. *)
Definition markActionTaken (coll : list Insight.t) (user id : string) (now : Z)
    : response string * list Insight.t :=
  match findOneAndUpdate (owned user id) (set_actionTaken now) coll with
  | (None, _) => (Fail 404 "Insight not found", coll)
  | (Some _, coll') => (Ok "Action marked as taken", coll')
  end.

(** The handler on [req.params.id]: a string that is no ObjectId fails
    the cast of the filter, and the [catch] answers 500. *)
Definition put_action_taken (coll : list Insight.t) (user param : string)
    (now : Z) : response string * list Insight.t :=
  match ObjectId.cast param with
  | None => (Fail 500 "Server error", coll)
  | Some id => markActionTaken coll user id now
  end.

End InsightRoutes.

(* ===================================================================== *)
(** ** The specification's summary statistic                              *)
(* ===================================================================== *)

Module Spec.

(** From the specification's words, for comparison with
    [InsightRoutes.get_summary]: the unweighted mean of [confidence]
    over the user's non-expired insights created within the window,
    rounded to two decimal places; 0 when there is none. *)
Definition avgConfidence (insights : list Insight.t) (user : string)
    (days now : Z) : float :=
  let window :=
    filter (fun d => String.eqb (Insight.userId d) user
                     && (now - days * Mongo.ms_per_day <=? Insight.createdAt d)
                     && Insight.expires_after now d)
           insights in
  match window with
  | [] => 0%float
  | _ =>
      let mean :=
        PrimFloat.div (Mongo.fsum (map Insight.confidence window))
                      (JS.Z2float (Z.of_nat (length window))) in
      PrimFloat.div (JS.Math_round (PrimFloat.mul mean 100)) 100
  end.

End Spec.

(* ===================================================================== *)
(** ** MongoDB: deletion and date formatting                              *)
(* ===================================================================== *)

Module MongoOps.

(** [findOneAndDelete(filter)]: the first document that matches is
    removed and returned. *)
Fixpoint findOneAndDelete {A} (filter : A -> bool) (coll : list A)
    : option A * list A :=
  match coll with
  | [] => (None, [])
  | d :: coll' =>
      if filter d then (Some d, coll')
      else let (r, c) := findOneAndDelete filter coll' in (r, d :: c)
  end.

(** Year, month (1 to 12) and day of the month (1 to 31) of a day count
    since the epoch, in the proleptic Gregorian calendar. *)
Definition civil_from_days (z0 : Z) : Z * Z * Z :=
  let z := z0 + 719468 in
  let era := z / 146097 in
  let doe := z - era * 146097 in
  let yoe := (doe - doe / 1460 + doe / 36524 - doe / 146096) / 365 in
  let doy := doe - (365 * yoe + yoe / 4 - yoe / 100) in
  let mp := (5 * doy + 2) / 153 in
  let d := doy - (153 * mp + 2) / 5 + 1 in
  let m := if mp <? 10 then mp + 3 else mp - 9 in
  (yoe + era * 400 + (if m <=? 2 then 1 else 0), m, d).

Definition digit (n : Z) : ascii := ascii_of_nat (48 + Z.to_nat (n mod 10)).

Definition two_digits (n : Z) : string :=
  String (digit (n / 10)) (String (digit n) EmptyString).

Definition four_digits (n : Z) : string :=
  String (digit (n / 1000)) (String (digit (n / 100)) (two_digits n)).

(** [$dateToString] with the format ["%Y-%m-%d"] (UTC), for the years 0
    to 9999. *)
Definition op_dateToString (t : Z) : string :=
  let '(y, m, d) := civil_from_days (Mongo.days_of t) in
  String.append (four_digits y)
    (String.append "-" (String.append (two_digits m)
       (String.append "-" (two_digits d)))).

End MongoOps.

(* ===================================================================== *)
(** ** server/models/MoodLog.js: the statics                              *)
(* ===================================================================== *)

Module MoodLogStatics.

Import Mongo.

(** One document of [getMoodTrends]. *)
Record Trend := {
  date : string;
  mood : string;
  avgIntensity : value;
  count : Z
}.

Definition trend_key_eqb (a b : string * string) : bool :=
  String.eqb (fst a) (fst b) && String.eqb (snd a) (snd b).

(** [$match] of both statics: the user's logs created on or after
    [startDate], which is [days] calendar days before [now] (taken as
    days of 24 hours). *)
Definition in_window (user : string) (days now : Z) (d : MoodLog.t) : bool :=
  String.eqb (MoodLog.userId d) user
  && (now - days * ms_per_day <=? MoodLog.createdAt d).

Definition getMoodTrends (moodlogs : list MoodLog.t) (userId : string)
    (days now : Z) : list Trend :=
  let groups :=
    group_by trend_key_eqb
      (fun d => (MongoOps.op_dateToString (MoodLog.createdAt d), MoodLog.mood d))
      (filter (in_window userId days now) moodlogs) in
  sort (fun a b => match String.compare (date a) (date b) with
                   | Gt => false
                   | _ => true
                   end)
    (map (fun g =>
            {| date := fst (fst g);
               mood := snd (fst g);
               avgIntensity :=
                 acc_avg (map (fun d => MoodRoutes.stored d "intensity") (snd g));
               count := Z.of_nat (length (snd g)) |})
         groups).

(** One document of [getMoodPatterns]; a log without [context] groups
    under a null context. *)
Record Pattern := {
  pattern_context : option string;
  pattern_mood : string;
  pattern_count : Z;
  pattern_avgIntensity : value
}.

Definition option_string_eqb (a b : option string) : bool :=
  match a, b with
  | Some x, Some y => String.eqb x y
  | None, None => true
  | _, _ => false
  end.



End MoodLogStatics.

(* ===================================================================== *)
(** ** The mood routes: POST /api/moods, GET /api/moods,
       GET /api/moods/trends, DELETE /api/moods/:id                       *)
(* ===================================================================== *)

Module MoodLogRoutes.

Import Mongo.

(** *** POST / *)

(** [body(f).isIn(values)]: an absent value fails. *)
Definition isIn_required (values : list string) (v : option string) : bool :=
  match v with
  | None => false
  | Some s => existsb (String.eqb s) values
  end.

(** [body('intensity').isInt({ min: 1, max: 10 })]: an absent value
    fails. *)
Definition isInt_1_10_required (v : option float) : bool :=
  match v with
  | None => false
  | Some _ => MoodRoutes.isInt_1_10 v
  end.

(** [body('transactionId').optional().isMongoId()] *)
Definition isMongoId (v : option string) : bool :=
  match v with
  | None => true
  | Some s => Validator.isMongoId s
  end.

(** The validation chain of POST, on the body after its sanitizers.  The
    chain also asks [location] and [metadata] to be objects; the body
    model does not carry them. *)
Definition validationResult_isEmpty (b : MoodRoutes.Body.t) : bool :=
  isIn_required MoodLog.mood_enum (MoodRoutes.Body.mood b)
  && isInt_1_10_required (MoodRoutes.Body.intensity b)
  && MoodRoutes.isIn MoodLog.context_enum (MoodRoutes.Body.context b)
  && isMongoId (MoodRoutes.Body.transactionId b)
  && match MoodRoutes.Body.notes b with
     | None => true
     | Some n => Validator.isLength_max 500 n
     end.

(** [new MoodLog({ userId: req.user.id.toString(), mood, intensity,
    context, transactionId, notes, triggers, ... })] with the defaults of
    the destructuring ([context = 'general'], [triggers = []]); the
    [userId] key of the body is not read. *)
Definition new_MoodLog (id user : string) (b : MoodRoutes.Body.t) (now : Z)
    : MoodLog.t :=
  {| MoodLog._id := id;
     MoodLog.userId := user;
     MoodLog.mood := MoodRoutes.or_else (MoodRoutes.Body.mood b) "";
     MoodLog.intensity := MoodRoutes.or_else (MoodRoutes.Body.intensity b) PrimFloat.nan;
     MoodLog.context :=
       Some (MoodRoutes.or_else (MoodRoutes.Body.context b) "general");
     MoodLog.transactionId := MoodRoutes.Body.transactionId b;
     MoodLog.notes := MoodRoutes.Body.notes b;
     MoodLog.triggers := MoodRoutes.or_else (MoodRoutes.Body.triggers b) [];
     MoodLog.createdAt := now;
     MoodLog.updatedAt := now |}.

(** The schema validators that [save] runs on the new document;
    [maxlength] is on the length in UTF-16 code units. *)
Definition schema_valid (d : MoodLog.t) : bool :=
  negb (String.eqb (MoodLog.userId d) "")
  && existsb (String.eqb (MoodLog.mood d)) MoodLog.mood_enum
  && PrimFloat.leb 1 (MoodLog.intensity d) && PrimFloat.leb (MoodLog.intensity d) 10
  && MoodRoutes.isIn MoodLog.context_enum (MoodLog.context d)
  && match MoodLog.notes d with
     | None => true
     | Some n => Nat.leb (JSString.length n) 500
     end
  && forallb (fun t => existsb (String.eqb t) MoodLog.triggers_enum)
             (MoodLog.triggers d).

(** [data.moodLog] of the answer. *)
Record Created := {
  id : string;
  mood : string;
  intensity : float;
  context : option string;
  moodScore : float;
  createdAt : Z
}.

(** The answer of POST: status 201 with the created log, or a failure
    status with its message. *)
Inductive post_response :=
| Status201 (moodLog : Created)
| Failed (status : Z) (message : string).

(** [id] is the fresh ObjectId of the new document. *)
Definition post (moodlogs : list MoodLog.t) (user id : string)
    (body : MoodRoutes.Body.t) (now : Z) : post_response * list MoodLog.t :=
  let b := MoodRoutes.sanitize body in
  if negb (validationResult_isEmpty b)
  then (Failed 400 "Validation failed", moodlogs)
  else
    let moodLog := new_MoodLog id user b now in
    if negb (schema_valid moodLog)
    then (Failed 500 "Server error", moodlogs)
    else
      (Status201 {| id := MoodLog._id moodLog;
                    mood := MoodLog.mood moodLog;
                    intensity := MoodLog.intensity moodLog;
                    context := MoodLog.context moodLog;
                    moodScore := MoodLog.moodScore moodLog;
                    createdAt := MoodLog.createdAt moodLog |},
       moodlogs ++ [moodLog]).

(** *** GET / *)

(** [req.query], after [parseInt] of [page] and [limit] and [new Date]
    of the two dates; [None] is an absent parameter, an absent or empty
    one for the dates.  A time value outside the range of Date stands
    for an Invalid Date.  (A [page] or [limit] that is no number is not
    modelled.) *)
Record Query := {
  page : Z;
  limit : Z;
  q_mood : option string;
  q_context : option string;
  startDate : option Z;
  endDate : option Z;
  sort : string;
  order : string
}.

Definition default_query : Query :=
  {| page := 1; limit := 20; q_mood := None; q_context := None;
     startDate := None; endDate := None; sort := "createdAt"; order := "desc" |}.

(** [if (x) filter.x = x]: an absent or empty parameter adds no
    condition. *)
Definition equals_if_given (q : option string) (v : option string) : bool :=
  match q with
  | None => true
  | Some s =>
      if String.eqb s "" then true
      else MoodLogStatics.option_string_eqb (Some s) v
  end.

(** The [filter] object of the handler. *)
Definition list_filter (user : string) (q : Query) (d : MoodLog.t) : bool :=
  String.eqb (MoodLog.userId d) user
  && equals_if_given (q_mood q) (Some (MoodLog.mood d))
  && equals_if_given (q_context q) (MoodLog.context d)
  && match startDate q with
     | None => true
     | Some s => s <=? MoodLog.createdAt d
     end
  && match endDate q with
     | None => true
     | Some e => MoodLog.createdAt d <=? e
     end.

(** [data.moodLogs] and [data.pagination.total_items]. *)
Record Listing := {
  moodLogs : list MoodLog.t;
  total_items : Z
}.

(** The cast of a date of the filter: an Invalid Date fails it. *)
Definition date_ok (v : option Z) : bool :=
  match v with
  | Some t => JSDate.valid t
  | None => true
  end.

(** The default of [sort] stands for an absent parameter only: an
    empty [sort] gives the sort specification an empty field name, which
    is rejected; so is a filter with an Invalid Date.  The [catch]
    answers 500.  (Other strings that are no field path are not
    modelled.) *)
Definition get_list (moodlogs : list MoodLog.t) (user : string) (q : Query)
    : response Listing :=
  let sortOrder := if String.eqb (order q) "asc" then 1 else -1 in
  let found := filter (list_filter user q) moodlogs in
  if String.eqb (sort q) "" || negb (date_ok (startDate q) && date_ok (endDate q))
  then Fail 500 "Server error"
  else
    match skip ((page q - 1) * limit q)
               (Mongo.sort (spec_le MoodRoutes.stored [(sort q, sortOrder)]) found) with
    | Raise _ => Fail 500 "Server error"
    | Done rest =>
        Ok {| moodLogs := Mongo.limit (limit q) rest;
              total_items := Z.of_nat (length found) |}
    end.

(** *** GET /trends *)

(** One document of the [moodStats] aggregation. *)
Record MoodStat := {
  stat_mood : string;
  stat_count : Z;
  stat_avgIntensity : value;
  stat_avgMoodScore : value
}.

Definition moodStats (moodlogs : list MoodLog.t) (user : string) (days now : Z)
    : list MoodStat :=
  let since := now - days * 24 * 60 * 60 * 1000 in
  let matched :=
    filter (fun d => String.eqb (MoodLog.userId d) user
                     && (since <=? MoodLog.createdAt d)) moodlogs in
  Mongo.sort (fun a b => stat_count b <=? stat_count a)
    (map (fun g =>
            {| stat_mood := fst g;
               stat_count := Z.of_nat (length (snd g));
               stat_avgIntensity :=
                 acc_avg (map (fun d => MoodRoutes.stored d "intensity") (snd g));
               stat_avgMoodScore :=
                 acc_avg (map (fun d => MoodRoutes.stored d "moodScore") (snd g)) |})
         (group_by String.eqb MoodLog.mood matched)).

(** [data] of the answer. *)
Record Trends := {
  trends : list MoodLogStatics.Trend;
  patterns : list MoodLogStatics.Pattern;
  trends_moodStats : list MoodStat;
  trends_weeklyScores : list MoodRoutes.WeekRow
}.


(** *** DELETE /:id *)

Definition owned (user id : string) (d : MoodLog.t) : bool :=
  String.eqb (MoodLog._id d) id && String.eqb (MoodLog.userId d) user.

(** [id] is [req.params.id]: a string that is no ObjectId fails the
    cast of the filter, and the [catch] answers 500. *)
Definition delete (moodlogs : list MoodLog.t) (user id : string)
    : response string * list MoodLog.t :=
  match ObjectId.cast id with
  | None => (Fail 500 "Server error", moodlogs)
  | Some oid =>
      match MongoOps.findOneAndDelete (owned user oid) moodlogs with
      | (None, _) => (Fail 404 "Mood log not found", moodlogs)
      | (Some _, moodlogs') => (Ok "Mood log deleted successfully", moodlogs')
      end
  end.

End MoodLogRoutes.

(* ===================================================================== *)
(** ** Insights: [getInsightsByType], DELETE /api/insights/:id           *)
(* ===================================================================== *)

Module InsightMore.

Import Mongo.

(** The static [getInsightsByType] of the model. *)
Definition getInsightsByType (insights : list Insight.t) (userId type : string)
    (limit now : Z) : list Insight.t :=
  Mongo.limit limit
    (sort (spec_le Insight.stored [("createdAt", -1)])
       (filter (fun d => String.eqb (Insight.userId d) userId
                         && String.eqb (Insight.type d) type
                         && Insight.expires_after now d)
               insights)).

(** DELETE /:id; [id] is [req.params.id]: a string that is no ObjectId
    fails the cast of the filter, and the [catch] answers 500. *)
Definition delete (insights : list Insight.t) (user id : string)
    : response string * list Insight.t :=
  match ObjectId.cast id with
  | None => (Fail 500 "Server error", insights)
  | Some oid =>
      match MongoOps.findOneAndDelete (InsightRoutes.owned user oid) insights with
      | (None, _) => (Fail 404 "Insight not found", insights)
      | (Some _, insights') => (Ok "Insight deleted successfully", insights')
      end
  end.

End InsightMore.

(* ===================================================================== *)
(** ** The authentication middleware                                      *)
(* ===================================================================== *)

Module Auth.

(** What passport hands to the callback of [authenticate]: [err] and
    [user] (the user's id, or nothing). *)
Record Passport := {
  err : bool;
  user : option string
}.

(** A row of the [users] table, at the two columns the middleware reads;
    [None] is SQL NULL. *)
Record Row := {
  onboarding_completed : option Z;
  role : option string
}.

(** A middleware either answers the request or calls [next]. *)
Inductive step (A U : Type) :=
| Respond (r : response A)
| Next (req_user : U).
Arguments Respond {A U} r.
Arguments Next {A U} req_user.

Definition authenticateJWT {A} (p : Passport) : step A string :=
  if err p then Respond (Fail 500 "Authentication error")
  else
    match user p with
    | None =>
        Respond (Fail 401 "Access denied. No token provided or token is invalid.")
    | Some u => Next u
    end.

(** [optionalJWT]: never answers; [req.user] is set when there is a
    user. *)
Definition optionalJWT (p : Passport) : option string := user p.

(** Truthiness of a numeric column. *)
Definition truthy (v : option Z) : bool :=
  match v with
  | Some n => negb (n =? 0)
  | None => false
  end.

(** [query] is the result of the SELECT for the user's id: the rows, or
    a rejection. *)
Definition requireOnboarding {A} (req_user : option string)
    (query : string -> Mongo.result (list Row)) : step A string :=
  match req_user with
  | None => Respond (Fail 401 "Authentication required")
  | Some u =>
      match query u with
      | Mongo.Raise _ => Respond (Fail 500 "Server error")
      | Mongo.Done [] => Respond (Fail 404 "User not found")
      | Mongo.Done (row :: _) =>
          if negb (truthy (onboarding_completed row))
          then Respond (Fail 403 "Onboarding not completed")
          else Next u
      end
  end.

(** [user[0].role || 'user'] *)
Definition userRole (row : Row) : string :=
  match role row with
  | Some r => if String.eqb r "" then "user" else r
  | None => "user"
  end.

Definition requireRole {A} (roles : list string) (req_user : option string)
    (query : string -> Mongo.result (list Row)) : step A string :=
  match req_user with
  | None => Respond (Fail 401 "Authentication required")
  | Some u =>
      match query u with
      | Mongo.Raise _ => Respond (Fail 500 "Server error")
      | Mongo.Done [] => Respond (Fail 404 "User not found")
      | Mongo.Done (row :: _) =>
          if negb (existsb (String.eqb (userRole row)) roles)
          then Respond (Fail 403 "Insufficient permissions")
          else Next u
      end
  end.

(** A route [authenticateJWT, requireOnboarding, handler] over a
    collection: the handler is given [req.user.id]. *)
Definition route {A S} (handler : string -> S -> response A * S)
    (p : Passport) (query : string -> Mongo.result (list Row)) (s : S)
    : response A * S :=
  match authenticateJWT p with
  | Respond r => (r, s)
  | Next u =>
      match requireOnboarding (Some u) query with
      | Respond r => (r, s)
      | Next u' => handler u' s
      end
  end.

End Auth.

(* ===================================================================== *)
(** ** The client: MoodContext (reducer, actions, score)                  *)
(* ===================================================================== *)

Module MoodContext.

(** A mood log as the client holds it: an object of a server answer.
    The answers of POST and PUT carry [id]; a document of GET /api/moods
    carries [_id] and no virtual. *)
Record Log := {
  id : option string;
  _id : option string;
  mood : string;
  intensity : float;
  context : option string;
  moodScore : option float
}.

Definition of_created (c : MoodLogRoutes.Created) : Log :=
  {| id := Some (MoodLogRoutes.id c); _id := None;
     mood := MoodLogRoutes.mood c; intensity := MoodLogRoutes.intensity c;
     context := MoodLogRoutes.context c;
     moodScore := Some (MoodLogRoutes.moodScore c) |}.

Definition of_view (v : MoodRoutes.View) : Log :=
  {| id := Some (MoodRoutes.id v); _id := None;
     mood := MoodRoutes.mood v; intensity := MoodRoutes.intensity v;
     context := MoodRoutes.context v;
     moodScore := Some (MoodRoutes.moodScore v) |}.

Definition of_document (d : MoodLog.t) : Log :=
  {| id := None; _id := Some (MoodLog._id d);
     mood := MoodLog.mood d; intensity := MoodLog.intensity d;
     context := MoodLog.context d; moodScore := None |}.

(** What [await axios...] gives: the body of a 2xx answer with its
    [success] flag and [message], or a thrown error with the message of
    the answer it carries, if any, and its own message. *)
Inductive reply (A : Type) :=
| Answered (success : bool) (data : A) (message : option string)
| Thrown (response_message : option string) (error_message : option string).
Arguments Answered {A} success data message.
Arguments Thrown {A} response_message error_message.

(** [a || b] on strings: an absent or empty [a] gives [b]. *)
Definition or_string (a : option string) (b : string) : string :=
  match a with
  | Some s => if String.eqb s "" then b else s
  | None => b
  end.

(** The message of the [catch] block: of a thrown error, or of the
    error the [else] branch throws for an answer without [success]. *)
Definition errorMessage {A} (r : reply A) (fallback : string) : string :=
  match r with
  | Answered _ _ message => or_string (Some (or_string message fallback)) fallback
  | Thrown response_message error_message =>
      or_string response_message (or_string error_message fallback)
  end.

Section Reducer.

(** The payloads of SET_MOOD_STATS and SET_MOOD_TRENDS. *)
Variables Stats Trends : Type.

Record State := {
  currentMood : option string;
  moodHistory : list Log;
  moodStats : option Stats;
  loading : bool;
  error : option string;
  lastMoodLog : option Log;
  weeklyMoodScore : option Mongo.value;
  moodTrends : option Trends
}.

Definition initialState : State :=
  {| currentMood := None; moodHistory := []; moodStats := None;
     loading := false; error := None; lastMoodLog := None;
     weeklyMoodScore := None; moodTrends := None |}.

Inductive action :=
| SET_LOADING (payload : bool)
| SET_ERROR (payload : string)
| CLEAR_ERROR
| SET_CURRENT_MOOD (payload : string)
| SET_MOOD_HISTORY (payload : list Log)
| SET_MOOD_STATS (payload : Stats)
| SET_LAST_MOOD_LOG (payload : Log)
| SET_WEEKLY_MOOD_SCORE (payload : Mongo.value)
| SET_MOOD_TRENDS (payload : Trends)
| ADD_MOOD_LOG (payload : Log)
| UPDATE_MOOD_LOG (payload : Log)
| DELETE_MOOD_LOG (payload : string).

(** [a === b] for two [id] reads; an absent [id] reads undefined. *)
Definition id_eq (a b : option string) : bool :=
  match a, b with
  | Some x, Some y => String.eqb x y
  | None, None => true
  | _, _ => false
  end.

(** [state.lastMoodLog?.id] *)
Definition last_id (s : State) : option string :=
  match lastMoodLog s with
  | Some l => id l
  | None => None
  end.

Definition moodReducer (state : State) (a : action) : State :=
  match a with
  | SET_LOADING payload =>
      {| currentMood := currentMood state; moodHistory := moodHistory state;
         moodStats := moodStats state; loading := payload;
         error := error state; lastMoodLog := lastMoodLog state;
         weeklyMoodScore := weeklyMoodScore state; moodTrends := moodTrends state |}
  | SET_ERROR payload =>
      {| currentMood := currentMood state; moodHistory := moodHistory state;
         moodStats := moodStats state; loading := false;
         error := Some payload; lastMoodLog := lastMoodLog state;
         weeklyMoodScore := weeklyMoodScore state; moodTrends := moodTrends state |}
  | CLEAR_ERROR =>
      {| currentMood := currentMood state; moodHistory := moodHistory state;
         moodStats := moodStats state; loading := loading state;
         error := None; lastMoodLog := lastMoodLog state;
         weeklyMoodScore := weeklyMoodScore state; moodTrends := moodTrends state |}
  | SET_CURRENT_MOOD payload =>
      {| currentMood := Some payload; moodHistory := moodHistory state;
         moodStats := moodStats state; loading := loading state;
         error := error state; lastMoodLog := lastMoodLog state;
         weeklyMoodScore := weeklyMoodScore state; moodTrends := moodTrends state |}
  | SET_MOOD_HISTORY payload =>
      {| currentMood := currentMood state; moodHistory := payload;
         moodStats := moodStats state; loading := loading state;
         error := error state; lastMoodLog := lastMoodLog state;
         weeklyMoodScore := weeklyMoodScore state; moodTrends := moodTrends state |}
  | SET_MOOD_STATS payload =>
      {| currentMood := currentMood state; moodHistory := moodHistory state;
         moodStats := Some payload; loading := loading state;
         error := error state; lastMoodLog := lastMoodLog state;
         weeklyMoodScore := weeklyMoodScore state; moodTrends := moodTrends state |}
  | SET_LAST_MOOD_LOG payload =>
      {| currentMood := currentMood state; moodHistory := moodHistory state;
         moodStats := moodStats state; loading := loading state;
         error := error state; lastMoodLog := Some payload;
         weeklyMoodScore := weeklyMoodScore state; moodTrends := moodTrends state |}
  | SET_WEEKLY_MOOD_SCORE payload =>
      {| currentMood := currentMood state; moodHistory := moodHistory state;
         moodStats := moodStats state; loading := loading state;
         error := error state; lastMoodLog := lastMoodLog state;
         weeklyMoodScore := Some payload; moodTrends := moodTrends state |}
  | SET_MOOD_TRENDS payload =>
      {| currentMood := currentMood state; moodHistory := moodHistory state;
         moodStats := moodStats state; loading := loading state;
         error := error state; lastMoodLog := lastMoodLog state;
         weeklyMoodScore := weeklyMoodScore state; moodTrends := Some payload |}
  | ADD_MOOD_LOG payload =>
      {| currentMood := currentMood state;
         moodHistory := payload :: moodHistory state;
         moodStats := moodStats state; loading := loading state;
         error := error state; lastMoodLog := Some payload;
         weeklyMoodScore := weeklyMoodScore state; moodTrends := moodTrends state |}
  | UPDATE_MOOD_LOG payload =>
      {| currentMood := currentMood state;
         moodHistory :=
           map (fun log => if id_eq (id log) (id payload) then payload else log)
               (moodHistory state);
         moodStats := moodStats state; loading := loading state;
         error := error state;
         lastMoodLog :=
           if id_eq (last_id state) (id payload) then Some payload
           else lastMoodLog state;
         weeklyMoodScore := weeklyMoodScore state; moodTrends := moodTrends state |}
  | DELETE_MOOD_LOG payload =>
      {| currentMood := currentMood state;
         moodHistory :=
           filter (fun log => negb (id_eq (id log) (Some payload)))
                  (moodHistory state);
         moodStats := moodStats state; loading := loading state;
         error := error state;
         lastMoodLog :=
           if id_eq (last_id state) (Some payload) then None
           else lastMoodLog state;
         weeklyMoodScore := weeklyMoodScore state; moodTrends := moodTrends state |}
  end.

(** The dispatches of one call, in order. *)
Definition dispatch_all (s : State) (actions : list action) : State :=
  fold_left moodReducer actions s.

(** The shape of the five calls: SET_LOADING, then the dispatches of
    the success branch, or SET_ERROR. *)
Definition call {A} (r : reply A) (on_success : A -> list action)
    (fallback : string) (s : State) : State :=
  match r with
  | Answered true data _ =>
      dispatch_all s (SET_LOADING true :: on_success data)
  | _ =>
      dispatch_all s [SET_LOADING true; SET_ERROR (errorMessage r fallback)]
  end.

Definition logMood (r : reply Log) : State -> State :=
  call r (fun moodLog => [ADD_MOOD_LOG moodLog; SET_CURRENT_MOOD (mood moodLog)])
       "Failed to log mood".

Definition getMoodHistory (r : reply (list Log)) : State -> State :=
  call r (fun moodLogs =>
            SET_MOOD_HISTORY moodLogs
            :: match moodLogs with
               | first :: _ => [SET_CURRENT_MOOD (mood first); SET_LAST_MOOD_LOG first]
               | [] => []
               end)
       "Failed to fetch mood history".

Definition getMoodTrends (r : reply Trends) : State -> State :=
  call r (fun data => [SET_MOOD_TRENDS data]) "Failed to fetch mood trends".

(** Truthiness of a number of the answer. *)
Definition truthy (v : Mongo.value) : bool :=
  match v with
  | Mongo.VNull => false
  | Mongo.VBool b => b
  | Mongo.VNum x => negb (PrimFloat.is_zero x || PrimFloat.is_nan x)
  | Mongo.VStr s => negb (String.eqb s "")
  | _ => true
  end.

(** [avgMoodScore] reads [summary.avgMoodScore] of the payload. *)
Definition getMoodSummary (avgMoodScore : Stats -> Mongo.value) (r : reply Stats)
    : State -> State :=
  call r (fun data =>
            SET_MOOD_STATS data
            :: (if truthy (avgMoodScore data)
                then [SET_WEEKLY_MOOD_SCORE (avgMoodScore data)]
                else []))
       "Failed to fetch mood summary".

Definition updateMoodLog (r : reply Log) : State -> State :=
  call r (fun moodLog => [UPDATE_MOOD_LOG moodLog]) "Failed to update mood".

(** [id] is the argument of the call. *)
Definition deleteMoodLog (id : string) (r : reply unit) : State -> State :=
  call r (fun _ => [DELETE_MOOD_LOG id]) "Failed to delete mood".

End Reducer.

(** The lookup table of [calculateMoodScore]. *)
Definition moodScores : list (string * float) :=
  [ ("happy", 9); ("excited", 8); ("content", 7); ("calm", 6);
    ("neutral", 5); ("worried", 4); ("anxious", 3); ("stressed", 2);
    ("sad", 2); ("angry", 1) ]%float.

(** [(moodScores[mood] || 5) * (intensity / 10)] *)
Definition calculateMoodScore (mood : string) (intensity : float) : float :=
  JS.mul (JS.or (JS.get moodScores mood) (JS.JNum 5%float))
         (JS.JNum (PrimFloat.div intensity 10%float)).

(** What axios makes of an answer of the server: a 2xx answer is the
    body, any other status is thrown with the body's message. *)
Definition axios {A} (r : response A) : reply A :=
  match r with
  | Ok data => Answered true data None
  | Fail status message =>
      Thrown (Some message)
        (Some (String.append "Request failed with status code "
                 (String (MongoOps.digit (status / 100))
                    (MongoOps.two_digits status))))
  end.

End MoodContext.

(* ===================================================================== *)
(** ** Notions for the properties of the aggregations                     *)
(* ===================================================================== *)

Module Aggregate.




End Aggregate.

(* ===================================================================== *)
(** ** Sample documents                                                   *)
(* ===================================================================== *)

Module Samples.

(** The ids of these documents are short labels, for the operations
    that take no id from a request; the documents of [Requests] below
    carry an ObjectId. *)

(** 2024-01-01T00:00:00Z, a Monday. *)
Definition jan_1_2024 : Z := 1704067200000.

Definition moodlog (id user mood : string) (intensity : float) (createdAt : Z)
    : MoodLog.t :=
  {| MoodLog._id := id; MoodLog.userId := user; MoodLog.mood := mood;
     MoodLog.intensity := intensity; MoodLog.context := Some "general";
     MoodLog.transactionId := None; MoodLog.notes := None;
     MoodLog.triggers := []; MoodLog.createdAt := createdAt;
     MoodLog.updatedAt := createdAt |}.

Definition insight (id user type category priority : string) (confidence : float)
    (isActionable : bool) (expiresAt : option Z) (createdAt : Z) : Insight.t :=
  {| Insight._id := id; Insight.userId := user; Insight.type := type;
     Insight.title := "t"; Insight.description := "d";
     Insight.confidence := confidence; Insight.priority := priority;
     Insight.category := category; Insight.isRead := false;
     Insight.isActionable := isActionable; Insight.actionTaken := false;
     Insight.actionTakenAt := None; Insight.expiresAt := expiresAt;
     Insight.createdAt := createdAt; Insight.updatedAt := createdAt |}.

Definition input (user type category : string) (priority : option string)
    (title : option string) (confidence : float) (expiresAt : option Z)
    : Insight.Input.t :=
  {| Insight.Input.userId := Some user; Insight.Input.type := Some type;
     Insight.Input.title := title; Insight.Input.description := Some "d";
     Insight.Input.confidence := Some confidence;
     Insight.Input.priority := priority;
     Insight.Input.category := Some category;
     Insight.Input.visualizations := []; Insight.Input.source := None;
     Insight.Input.isRead := None; Insight.Input.isActionable := None;
     Insight.Input.actionTaken := None; Insight.Input.actionTakenAt := None;
     Insight.Input.expiresAt := expiresAt |}.

Definition empty_body : MoodRoutes.Body.t :=
  {| MoodRoutes.Body.userId := None; MoodRoutes.Body.mood := None;
     MoodRoutes.Body.intensity := None; MoodRoutes.Body.context := None;
     MoodRoutes.Body.transactionId := None; MoodRoutes.Body.notes := None;
     MoodRoutes.Body.triggers := None |}.

(** An insight of user u that expired at time 1000. *)
Definition expired : Insight.t :=
  insight "i1" "u" "forecast" "predictive" "high" 0.9 true (Some 1000) 500.

(** Four actionable insights of user u, alive until time 9000, with the
    priorities low, urgent, high, urgent and the confidences 0.9, 0.5,
    0.9, 0.9. *)
Definition four : list Insight.t :=
  [ insight "a" "u" "forecast" "predictive" "low" 0.9 true (Some 9000) 1;
    insight "b" "u" "forecast" "predictive" "urgent" 0.5 true (Some 9000) 2;
    insight "c" "u" "forecast" "predictive" "high" 0.9 true (Some 9000) 3;
    insight "d" "u" "forecast" "predictive" "urgent" 0.9 true (Some 9000) 4 ].

(** Three insights of user u, alive until time 9000: two of one type and
    category with confidence 1, one of another with confidence 0. *)
Definition three : list Insight.t :=
  [ insight "a" "u" "spending_pattern" "financial" "medium" 1 false (Some 9000) 1;
    insight "b" "u" "spending_pattern" "financial" "medium" 1 false (Some 9000) 2;
    insight "c" "u" "forecast" "predictive" "medium" 0 false (Some 9000) 3 ].

(** Three mood logs of user u on 1 January 2024: sad, happy, happy. *)
Definition moods : list MoodLog.t :=
  [ moodlog "m1" "u" "sad" 4 jan_1_2024;
    moodlog "m2" "u" "happy" 10 (jan_1_2024 + 1000);
    moodlog "m3" "u" "happy" 6 (jan_1_2024 + 2000) ].

(** The input [i] with its [expiresAt] replaced. *)
Definition with_expiresAt (e : option Z) (i : Insight.Input.t) : Insight.Input.t :=
  {| Insight.Input.userId := Insight.Input.userId i;
     Insight.Input.type := Insight.Input.type i;
     Insight.Input.title := Insight.Input.title i;
     Insight.Input.description := Insight.Input.description i;
     Insight.Input.confidence := Insight.Input.confidence i;
     Insight.Input.priority := Insight.Input.priority i;
     Insight.Input.category := Insight.Input.category i;
     Insight.Input.visualizations := Insight.Input.visualizations i;
     Insight.Input.source := Insight.Input.source i;
     Insight.Input.isRead := Insight.Input.isRead i;
     Insight.Input.isActionable := Insight.Input.isActionable i;
     Insight.Input.actionTaken := Insight.Input.actionTaken i;
     Insight.Input.actionTakenAt := Insight.Input.actionTakenAt i;
     Insight.Input.expiresAt := e |}.

(** The insight [d] with its [expiresAt] replaced. *)
Definition expiring (e : option Z) (d : Insight.t) : Insight.t :=
  {| Insight._id := Insight._id d; Insight.userId := Insight.userId d;
     Insight.type := Insight.type d; Insight.title := Insight.title d;
     Insight.description := Insight.description d;
     Insight.confidence := Insight.confidence d;
     Insight.priority := Insight.priority d;
     Insight.category := Insight.category d;
     Insight.isRead := Insight.isRead d;
     Insight.isActionable := Insight.isActionable d;
     Insight.actionTaken := Insight.actionTaken d;
     Insight.actionTakenAt := Insight.actionTakenAt d;
     Insight.expiresAt := e;
     Insight.createdAt := Insight.createdAt d;
     Insight.updatedAt := Insight.updatedAt d |}.

End Samples.

(* ===================================================================== *)
(** ** Sample requests                                                    *)
(* ===================================================================== *)

Module Requests.

(** A body of POST /api/moods and PUT /api/moods/:id: a happy mood of
    intensity 7 with a note and a trigger, sent with the [userId] of
    another user. *)
Definition body : MoodRoutes.Body.t :=
  {| MoodRoutes.Body.userId := Some "v"; MoodRoutes.Body.mood := Some "happy";
     MoodRoutes.Body.intensity := Some 7%float; MoodRoutes.Body.context := None;
     MoodRoutes.Body.transactionId := None;
     MoodRoutes.Body.notes := Some " fine ";
     MoodRoutes.Body.triggers := Some ["spending"] |}.

(** An ObjectId as it is printed, and as a client may also write it. *)
Definition oid : string := "65a1b2c3d4e5f60718293a4b".
Definition OID : string := "65A1B2C3D4E5F60718293A4B".

(** An insight of user u under this ObjectId that expired at time
    1000. *)
Definition expired : Insight.t :=
  Samples.insight oid "u" "forecast" "predictive" "high" 0.9 true (Some 1000) 500.

(** A body that sets [mood] and [intensity], where given, and nothing
    else. *)
Definition mood_and_intensity (m : option string) (x : option float)
    : MoodRoutes.Body.t :=
  {| MoodRoutes.Body.userId := None; MoodRoutes.Body.mood := m;
     MoodRoutes.Body.intensity := x; MoodRoutes.Body.context := None;
     MoodRoutes.Body.transactionId := None; MoodRoutes.Body.notes := None;
     MoodRoutes.Body.triggers := None |}.

(** A body with a mood, an intensity and a note. *)
Definition mood_and_notes (m : string) (x : float) (n : string)
    : MoodRoutes.Body.t :=
  {| MoodRoutes.Body.userId := None; MoodRoutes.Body.mood := Some m;
     MoodRoutes.Body.intensity := Some x; MoodRoutes.Body.context := None;
     MoodRoutes.Body.transactionId := None; MoodRoutes.Body.notes := Some n;
     MoodRoutes.Body.triggers := None |}.

(** A body that holds nothing but a note. *)
Definition note (n : string) : MoodRoutes.Body.t :=
  {| MoodRoutes.Body.userId := None; MoodRoutes.Body.mood := None;
     MoodRoutes.Body.intensity := None; MoodRoutes.Body.context := None;
     MoodRoutes.Body.transactionId := None; MoodRoutes.Body.notes := Some n;
     MoodRoutes.Body.triggers := None |}.

(** The query of GET /api/moods?sort= : the sort parameter is given
    and empty. *)
Definition empty_sort : MoodLogRoutes.Query :=
  {| MoodLogRoutes.page := 1; MoodLogRoutes.limit := 20;
     MoodLogRoutes.q_mood := None; MoodLogRoutes.q_context := None;
     MoodLogRoutes.startDate := None; MoodLogRoutes.endDate := None;
     MoodLogRoutes.sort := ""; MoodLogRoutes.order := "desc" |}.

(** [n] times the string [s]. *)
Fixpoint times (n : nat) (s : string) : string :=
  match n with
  | O => EmptyString
  | S n' => String.append s (times n' s)
  end.

(** U+00A0, the no-break space; U+4E2D, a character of three bytes and
    one UTF-16 code unit; U+1F600, a character of four bytes and two
    UTF-16 code units. *)
Definition nbsp : string := JSString.char2 194 160.
Definition cjk : string := JSString.char3 228 184 173.
Definition emoji : string :=
  String (ascii_of_nat 240) (JSString.char3 159 152 128).

End Requests.

(* ===================================================================== *)
(** * Properties                                                          *)
(* ===================================================================== *)

Unset Implicit Arguments.

(** ** Collections *)

Section FindOneAndUpdate.

Context {A : Type} (filter : A -> bool) (update : A -> A).

Lemma findOneAndUpdate_some (coll : list A) (d : A) (coll' : list A) :
  Mongo.findOneAndUpdate filter update coll = (Some d, coll') ->
  exists old, In old coll /\ filter old = true /\ d = update old /\ In d coll'.
Proof.
  revert d coll'.
  induction coll as [|x coll IH]; simpl; intros d coll' H.
  - discriminate.
  - destruct (filter x) eqn:Hx.
    + inversion H; subst. exists x. simpl. auto.
    + destruct (Mongo.findOneAndUpdate filter update coll) as [r c] eqn:Hr.
      inversion H; subst.
      destruct (IH d c eq_refl) as (old & Hin & Hf & Hd & Hin').
      exists old. simpl. auto.
Qed.

Lemma findOneAndUpdate_none (coll : list A) (coll' : list A) :
  Mongo.findOneAndUpdate filter update coll = (None, coll') -> coll' = coll.
Proof.
  revert coll'.
  induction coll as [|x coll IH]; simpl; intros coll' H.
  - now inversion H.
  - destruct (filter x); [discriminate|].
    destruct (Mongo.findOneAndUpdate filter update coll) as [r c].
    inversion H; subst. f_equal. now apply IH.
Qed.

(** The first match of the query is the document that is updated. *)
Lemma findOneAndUpdate_findOne (coll : list A) :
  fst (Mongo.findOneAndUpdate filter update coll)
  = option_map update (Mongo.findOne filter coll).
Proof.
  unfold Mongo.findOne.
  induction coll as [|x coll IH]; simpl.
  - reflexivity.
  - destruct (filter x); [reflexivity|].
    destruct (Mongo.findOneAndUpdate filter update coll) as [r c]. exact IH.
Qed.

(** Every document keeps what the update keeps. *)
Lemma findOneAndUpdate_map {B : Type} (f : A -> B) (coll : list A) :
  (forall d, f (update d) = f d) ->
  map f (snd (Mongo.findOneAndUpdate filter update coll)) = map f coll.
Proof.
  intros Hf.
  induction coll as [|x coll IH]; simpl.
  - reflexivity.
  - destruct (filter x); simpl.
    + now rewrite Hf.
    + destruct (Mongo.findOneAndUpdate filter update coll) as [r c].
      simpl in *. now rewrite IH.
Qed.

End FindOneAndUpdate.

(** An update after an update of the same query, when the first update
    keeps the documents' answer to the query. *)
Lemma findOneAndUpdate_twice {A : Type} (filter : A -> bool) (f g : A -> A)
    (coll : list A) :
  (forall d, filter (f d) = filter d) ->
  snd (Mongo.findOneAndUpdate filter g (snd (Mongo.findOneAndUpdate filter f coll)))
  = snd (Mongo.findOneAndUpdate filter (fun d => g (f d)) coll).
Proof.
  intros Hf.
  induction coll as [|x coll IH]; simpl.
  - reflexivity.
  - destruct (filter x) eqn:Hx; simpl.
    + now rewrite Hf, Hx.
    + destruct (Mongo.findOneAndUpdate filter f coll) as [r c].
      destruct (Mongo.findOneAndUpdate filter (fun d => g (f d)) coll) as [r' c'].
      simpl in *. rewrite Hx.
      destruct (Mongo.findOneAndUpdate filter g c) as [r'' c''].
      simpl in *. now rewrite IH.
Qed.

(** The update of the only document that matches. *)
Lemma findOneAndUpdate_only {A : Type} (filter : A -> bool) (update : A -> A)
    (coll : list A) (old : A) :
  In old coll -> filter old = true ->
  (forall d, In d coll -> filter d = true -> d = old) ->
  exists l1 l2,
    coll = l1 ++ old :: l2
    /\ Mongo.findOneAndUpdate filter update coll
       = (Some (update old), l1 ++ update old :: l2).
Proof.
  induction coll as [|x coll IH]; simpl; intros Hin Hf Honly; [contradiction|].
  destruct (filter x) eqn:Hx.
  - assert (x = old) by (apply Honly; auto). subst x.
    exists [], coll. split; reflexivity.
  - destruct Hin as [Hin|Hin]; [subst x; congruence|].
    destruct (IH Hin Hf (fun d Hd => Honly d (or_intror Hd))) as (l1 & l2 & Hc & Hu).
    exists (x :: l1), l2. rewrite Hu. subst coll. split; reflexivity.
Qed.

Lemma In_existsb_eqb (s : string) (l : list string) :
  In s l -> existsb (String.eqb s) l = true.
Proof.
  intros H. apply existsb_exists. exists s. split; [exact H|apply String.eqb_refl].
Qed.

(** ** Cursors *)

Section Sort.

Context {A : Type} (le : A -> A -> bool).

Lemma insert_sorted_perm (a : A) (l : list A) :
  Permutation (Mongo.insert_sorted le a l) (a :: l).
Proof.
  induction l as [|b l IH]; simpl.
  - apply Permutation_refl.
  - destruct (le a b).
    + apply Permutation_refl.
    + apply perm_trans with (b :: a :: l).
      * now apply perm_skip.
      * apply perm_swap.
Qed.

Lemma sort_perm (l : list A) : Permutation (Mongo.sort le l) l.
Proof.
  unfold Mongo.sort.
  induction l as [|a l IH]; simpl.
  - apply perm_nil.
  - apply perm_trans with (a :: fold_right (Mongo.insert_sorted le) [] l).
    + apply insert_sorted_perm.
    + now apply perm_skip.
Qed.

Lemma In_sort (d : A) (l : list A) : In d (Mongo.sort le l) <-> In d l.
Proof.
  split; apply Permutation_in.
  - apply sort_perm.
  - apply Permutation_sym, sort_perm.
Qed.

Hypothesis le_total : forall a b, le a b = false -> le b a = true.

Lemma insert_sorted_sorted (a : A) (l : list A) :
  Sorted (fun x y => le x y = true) l ->
  Sorted (fun x y => le x y = true) (Mongo.insert_sorted le a l).
Proof.
  induction l as [|b l IH]; simpl; intros Hs.
  - repeat constructor.
  - destruct (le a b) eqn:Hab.
    + constructor; [exact Hs|]. now constructor.
    + inversion Hs as [|? ? Hs' Hhd]; subst.
      constructor; [now apply IH|].
      destruct l as [|c l]; simpl.
      * constructor. now apply le_total.
      * destruct (le a c); constructor.
        -- now apply le_total.
        -- now inversion Hhd.
Qed.

Lemma sort_sorted (l : list A) :
  Sorted (fun x y => le x y = true) (Mongo.sort le l).
Proof.
  unfold Mongo.sort.
  induction l as [|a l IH]; simpl.
  - constructor.
  - now apply insert_sorted_sorted.
Qed.

End Sort.

Lemma Sorted_weaken {A : Type} (R R' : A -> A -> Prop) (l : list A) :
  (forall a b, R a b -> R' a b) -> Sorted R l -> Sorted R' l.
Proof.
  intros HR Hs.
  induction Hs as [|a l Hs IH Hhd]; constructor; [exact IH|].
  destruct Hhd; constructor. now apply HR.
Qed.

Lemma insert_sorted_map {A B : Type} (g : A -> B) (le : A -> A -> bool)
    (le' : B -> B -> bool) (a : A) (l : list A) :
  (forall x y, le' (g x) (g y) = le x y) ->
  Mongo.insert_sorted le' (g a) (map g l) = map g (Mongo.insert_sorted le a l).
Proof.
  intros Hle.
  induction l as [|b l IH]; simpl.
  - reflexivity.
  - rewrite Hle. destruct (le a b); simpl; [reflexivity|]. now rewrite IH.
Qed.

(** Sorting commutes with a change of the documents that the order does
    not see. *)
Lemma sort_map {A B : Type} (g : A -> B) (le : A -> A -> bool)
    (le' : B -> B -> bool) (l : list A) :
  (forall x y, le' (g x) (g y) = le x y) ->
  Mongo.sort le' (map g l) = map g (Mongo.sort le l).
Proof.
  intros Hle. unfold Mongo.sort.
  induction l as [|a l IH]; simpl.
  - reflexivity.
  - rewrite IH. now apply insert_sorted_map.
Qed.

Lemma filter_map {A B : Type} (g : A -> B) (p : A -> bool) (p' : B -> bool)
    (l : list A) :
  (forall x, p' (g x) = p x) ->
  filter p' (map g l) = map g (filter p l).
Proof.
  intros Hp.
  induction l as [|a l IH]; simpl.
  - reflexivity.
  - rewrite Hp. destruct (p a); simpl; now rewrite IH.
Qed.

Lemma limit_map {A B : Type} (g : A -> B) (n : Z) (l : list A) :
  Mongo.limit n (map g l) = map g (Mongo.limit n l).
Proof.
  unfold Mongo.limit. destruct (n =? 0); [reflexivity|]. apply firstn_map.
Qed.

Lemma In_limit {A : Type} (n : Z) (d : A) (l : list A) :
  In d (Mongo.limit n l) -> In d l.
Proof.
  unfold Mongo.limit. destruct (n =? 0); [auto|].
  generalize (Z.to_nat (Z.abs n)). intros k. revert l.
  induction k as [|k IH]; intros l; destruct l as [|x l]; simpl;
    try contradiction.
  intros [H|H]; auto.
Qed.

Lemma limit_length {A : Type} (n : Z) (l : list A) :
  n <> 0 -> Z.of_nat (length (Mongo.limit n l)) <= Z.abs n.
Proof.
  intros Hn. unfold Mongo.limit.
  destruct (n =? 0) eqn:E; [apply Z.eqb_eq in E; contradiction|].
  rewrite length_firstn. lia.
Qed.

(** ** The order of a sort *)

Lemma SFcompare_antisym (a b : spec_float) :
  SFcompare b a = option_map CompOpp (SFcompare a b).
Proof.
  destruct a as [sa|sa| |sa ma ea], b as [sb|sb| |sb mb eb]; simpl;
    try (destruct sa); try (destruct sb); try reflexivity;
    rewrite (Z.compare_antisym ea eb);
    destruct (ea ?= eb)%Z; simpl; try reflexivity;
    pose proof (Pos.compare_cont_antisym ma mb Eq) as H; simpl in H;
    rewrite <- H; try reflexivity; now rewrite CompOpp_involutive.
Qed.

Lemma SFcompare_none (a b : spec_float) :
  SFcompare a b = None -> a = S754_nan \/ b = S754_nan.
Proof.
  destruct a as [sa|sa| |sa ma ea], b as [sb|sb| |sb mb eb]; simpl; auto;
    discriminate.
Qed.

Lemma is_nan_spec (x : float) :
  PrimFloat.is_nan x = true <-> Prim2SF x = S754_nan.
Proof.
  unfold PrimFloat.is_nan. rewrite FloatAxioms.eqb_spec. unfold SFeqb.
  destruct (Prim2SF x) as [s|s| |s m e]; simpl.
  - split; discriminate.
  - destruct s; split; discriminate.
  - split; reflexivity.
  - destruct s; rewrite Z.compare_refl, Pos.compare_cont_refl; split; discriminate.
Qed.

Lemma num_compare_antisym (x y : float) :
  Mongo.num_compare y x = CompOpp (Mongo.num_compare x y).
Proof.
  unfold Mongo.num_compare.
  rewrite !FloatAxioms.compare_spec, (SFcompare_antisym (Prim2SF x) (Prim2SF y)).
  destruct (SFcompare (Prim2SF x) (Prim2SF y)) as [[| |]|] eqn:Hc; simpl;
    try reflexivity.
  destruct (SFcompare_none _ _ Hc) as [Hx|Hy].
  - apply is_nan_spec in Hx. rewrite Hx.
    destruct (PrimFloat.is_nan y); reflexivity.
  - apply is_nan_spec in Hy. rewrite Hy.
    destruct (PrimFloat.is_nan x); reflexivity.
Qed.

Lemma bool_compare_antisym (a b : bool) :
  Bool.compare b a = CompOpp (Bool.compare a b).
Proof. destruct a, b; reflexivity. Qed.

Lemma value_compare_antisym (a b : Mongo.value) :
  Mongo.value_compare b a = CompOpp (Mongo.value_compare a b).
Proof.
  destruct a, b; simpl; try reflexivity;
    auto using num_compare_antisym, String.compare_antisym,
               bool_compare_antisym, Z.compare_antisym.
Qed.

Lemma spec_compare_antisym {A : Type} (field : A -> string -> option Mongo.value)
    (spec : list (string * Z)) (a b : A) :
  Mongo.spec_compare field spec b a = CompOpp (Mongo.spec_compare field spec a b).
Proof.
  induction spec as [|[k dir] spec IH]; simpl.
  - reflexivity.
  - unfold Mongo.key_compare, Mongo.directed.
    rewrite (value_compare_antisym
               (match field a k with Some v => v | None => Mongo.VNull end)
               (match field b k with Some v => v | None => Mongo.VNull end)).
    destruct (Mongo.value_compare _ _); destruct (dir <? 0); simpl;
      auto.
Qed.

(** The order of a sort specification is total. *)
Lemma spec_le_total {A : Type} (field : A -> string -> option Mongo.value)
    (spec : list (string * Z)) (a b : A) :
  Mongo.spec_le field spec a b = false -> Mongo.spec_le field spec b a = true.
Proof.
  unfold Mongo.spec_le. rewrite (spec_compare_antisym field spec a b).
  destruct (Mongo.spec_compare field spec a b); simpl; auto; discriminate.
Qed.

Lemma Sorted_firstn {A : Type} (R : A -> A -> Prop) (n : nat) (l : list A) :
  Sorted R l -> Sorted R (firstn n l).
Proof.
  intros Hs. revert n.
  induction Hs as [|a l Hs IH Hhd]; intros [|n]; simpl; try constructor.
  - apply IH.
  - destruct Hhd as [|b l' Hab]; destruct n; simpl; constructor. exact Hab.
Qed.

Lemma Sorted_limit {A : Type} (R : A -> A -> Prop) (n : Z) (l : list A) :
  Sorted R l -> Sorted R (Mongo.limit n l).
Proof.
  intros Hs. unfold Mongo.limit. destruct (n =? 0); [exact Hs|].
  now apply Sorted_firstn.
Qed.

(** ** The mood score *)

(** A mood of the table reads its own score, which is truthy: the
    fallback of [||] is not taken. *)
Lemma moodScores_get (m : string) (b : float) :
  In (m, b) MoodLog.moodScores ->
  JS.or (JS.get MoodLog.moodScores m) (JS.JNum 5%float) = JS.JNum b.
Proof.
  unfold MoodLog.moodScores. simpl.
  intros H.
  repeat (destruct H as [H|H]; [inversion H; subst; reflexivity|]).
  contradiction.
Qed.

Lemma mood_enum_moodScores (m : string) :
  In m MoodLog.mood_enum -> exists b, In (m, b) MoodLog.moodScores.
Proof.
  unfold MoodLog.mood_enum, MoodLog.moodScores. simpl.
  intros H.
  repeat (destruct H as [H|H]; [subst; eexists; eauto 12|]).
  contradiction.
Qed.

Lemma moodScore_table (d : MoodLog.t) (b : float) :
  In (MoodLog.mood d, b) MoodLog.moodScores ->
  MoodLog.moodScore d = (b * (MoodLog.intensity d / 10))%float.
Proof.
  intros H. unfold MoodLog.moodScore.
  now rewrite (moodScores_get _ _ H).
Qed.

(** The scores of the table at the integers 1 to 10 lie in (0, 9]. *)
Lemma moodScore_range (b n : float) :
  In b (map snd MoodLog.moodScores) ->
  In n [1; 2; 3; 4; 5; 6; 7; 8; 9; 10]%float ->
  (0 <? b * (n / 10))%float = true /\ (b * (n / 10) <=? 9)%float = true.
Proof.
  unfold MoodLog.moodScores. simpl.
  intros Hb Hn.
  repeat (destruct Hb as [Hb|Hb];
          [subst b;
           repeat (destruct Hn as [Hn|Hn]; [subst n; split; reflexivity|]);
           contradiction|]).
  contradiction.
Qed.

(** The integers from 1 to 10 pass the two checks of [intensity]. *)
Lemma In_1_10_isInt (x : float) :
  In x [1; 2; 3; 4; 5; 6; 7; 8; 9; 10]%float ->
  MoodRoutes.isInt_1_10 (Some x) = true
  /\ (1 <=? x)%float = true /\ (x <=? 10)%float = true.
Proof.
  simpl. intros H.
  repeat (destruct H as [<-|H]; [repeat split; reflexivity|]).
  contradiction.
Qed.

(** A successful PUT answers with the view of the document it stored: the
    old document under the body's [$set]. *)
Lemma put_ok (moodlogs : list MoodLog.t) (user id : string)
    (body : MoodRoutes.Body.t) (now : Z) (v : MoodRoutes.View)
    (moodlogs' : list MoodLog.t) :
  MoodRoutes.put moodlogs user id body now = (Ok v, moodlogs') ->
  MoodRoutes.validationResult_isEmpty (MoodRoutes.sanitize body) = true
  /\ exists old,
       In old moodlogs /\ ObjectId.cast id = Some (MoodLog._id old)
       /\ MoodLog.userId old = user
       /\ In (MoodRoutes.set (MoodRoutes.sanitize body) now old) moodlogs'
       /\ v = MoodRoutes.view (MoodRoutes.set (MoodRoutes.sanitize body) now old).
Proof.
  unfold MoodRoutes.put. intros H.
  destruct (MoodRoutes.validationResult_isEmpty (MoodRoutes.sanitize body)) eqn:Hv;
    simpl in H; [|discriminate].
  destruct (ObjectId.cast id) as [oid|] eqn:Hc; [|discriminate].
  destruct (MoodRoutes.runValidators (MoodRoutes.sanitize body)); simpl in H;
    [|discriminate].
  split; [reflexivity|].
  destruct (Mongo.findOneAndUpdate _ _ moodlogs) as [[d|] c] eqn:Hu;
    [|discriminate].
  inversion H; subst.
  destruct (findOneAndUpdate_some _ _ _ _ _ Hu) as (old & Hin & Hf & Hd & Hin').
  apply andb_true_iff in Hf. destruct Hf as [Hid Huser].
  apply String.eqb_eq in Hid. apply String.eqb_eq in Huser.
  exists old. subst d oid. auto.
Qed.

(** The PUT of a mood or an intensity, or both, on the one mood log
    that the id names. *)
Lemma put_mood_and_intensity (moodlogs : list MoodLog.t) (user id : string)
    (now : Z) (old : MoodLog.t) (m : option string) (x : option float) :
  In old moodlogs ->
  ObjectId.cast id = Some (MoodLog._id old) ->
  MoodLog.userId old = user ->
  (forall d, In d moodlogs -> MoodLog._id d = MoodLog._id old -> d = old) ->
  (forall m', m = Some m' -> In m' MoodLog.mood_enum) ->
  (forall x', x = Some x' -> In x' [1; 2; 3; 4; 5; 6; 7; 8; 9; 10]%float) ->
  exists l1 l2,
    moodlogs = l1 ++ old :: l2
    /\ MoodRoutes.put moodlogs user id (Requests.mood_and_intensity m x) now
       = (Ok (MoodRoutes.view (MoodRoutes.set (Requests.mood_and_intensity m x) now old)),
          l1 ++ MoodRoutes.set (Requests.mood_and_intensity m x) now old :: l2).
Proof.
  intros Hin Hc Hu Honly Hm Hx. unfold MoodRoutes.put.
  change (MoodRoutes.sanitize (Requests.mood_and_intensity m x))
    with (Requests.mood_and_intensity m x).
  assert (Hv : MoodRoutes.validationResult_isEmpty (Requests.mood_and_intensity m x)
               = true).
  { unfold MoodRoutes.validationResult_isEmpty, Requests.mood_and_intensity.
    cbn [MoodRoutes.Body.mood MoodRoutes.Body.intensity MoodRoutes.Body.context
         MoodRoutes.Body.notes].
    replace (MoodRoutes.isIn MoodLog.mood_enum m) with true.
    - replace (MoodRoutes.isInt_1_10 x) with true; [reflexivity|].
      symmetry. destruct x as [x'|]; [|reflexivity].
      now apply In_1_10_isInt, Hx.
    - symmetry. destruct m as [m'|]; [|reflexivity].
      apply In_existsb_eqb. now apply Hm. }
  assert (Hr : MoodRoutes.runValidators (Requests.mood_and_intensity m x) = true).
  { unfold MoodRoutes.runValidators, Requests.mood_and_intensity.
    cbn [MoodRoutes.Body.userId MoodRoutes.Body.mood MoodRoutes.Body.intensity
         MoodRoutes.Body.context MoodRoutes.Body.notes MoodRoutes.Body.triggers].
    replace (match m with
             | Some m0 => negb (String.eqb m0 "")
                          && existsb (String.eqb m0) MoodLog.mood_enum
             | None => true
             end) with true.
    - replace (match x with
               | Some x0 => PrimFloat.leb 1 x0 && PrimFloat.leb x0 10
               | None => true
               end) with true; [reflexivity|].
      symmetry. destruct x as [x'|]; [|reflexivity].
      destruct (In_1_10_isInt x' (Hx x' eq_refl)) as (_ & H1 & H10).
      now rewrite H1, H10.
    - symmetry. destruct m as [m'|]; [|reflexivity].
      pose proof (Hm m' eq_refl) as Hm'.
      apply andb_true_iff. split; [|now apply In_existsb_eqb].
      apply negb_true_iff, String.eqb_neq. intros E. subst m'.
      simpl in Hm'. intuition discriminate. }
  rewrite Hv, Hc, Hr. simpl negb. cbv iota.
  destruct (findOneAndUpdate_only
              (fun d => String.eqb (MoodLog._id d) (MoodLog._id old)
                        && String.eqb (MoodLog.userId d) user)
              (MoodRoutes.set (Requests.mood_and_intensity m x) now)
              moodlogs old Hin)
    as (l1 & l2 & Hl & Hup).
  - rewrite Hu, !String.eqb_refl. reflexivity.
  - intros d Hd Hf. apply andb_true_iff in Hf. destruct Hf as [Hf _].
    apply String.eqb_eq in Hf. now apply Honly.
  - exists l1, l2. split; [exact Hl|]. now rewrite Hup.
Qed.

(** C3: for a mood of the ten-tag enumeration and an integer intensity
    from 1 to 10, the [moodScore] virtual is baseScore(mood) * (intensity / 10) with
    the base scores happy=9, excited=8, content=7, calm=6, neutral=5,
    worried=4, sad=3, anxious=2, stressed=2, angry=1, and lies in (0, 9].
    A PUT that gives a mood of the enumeration or an integer intensity
    from 1 to 10, or both, for the mood log that the id names and that
    the caller owns, succeeds: it stores the new values and answers with
    the score computed from them, which for a mood of the table is its
    base score times the intensity over 10 (the answer of PUT is the
    one place where a score is read back; nothing stores a score).  And
    whatever the body, the score in the answer of a PUT that succeeds is
    that of the stored document. *)
Theorem moodScore_formula_and_recomputed :
  (forall d : MoodLog.t,
      In (MoodLog.mood d) MoodLog.mood_enum ->
      In (MoodLog.intensity d) [1; 2; 3; 4; 5; 6; 7; 8; 9; 10]%float ->
      exists b,
        In (MoodLog.mood d, b)
           [ ("happy", 9); ("excited", 8); ("content", 7); ("calm", 6);
             ("neutral", 5); ("worried", 4); ("sad", 3); ("anxious", 2);
             ("stressed", 2); ("angry", 1) ]%float
        /\ MoodLog.moodScore d = (b * (MoodLog.intensity d / 10))%float
        /\ (0 <? MoodLog.moodScore d)%float = true
        /\ (MoodLog.moodScore d <=? 9)%float = true)
  /\
  (forall (moodlogs : list MoodLog.t) (user id : string) (now : Z)
          (old : MoodLog.t) (m : option string) (x : option float),
      In old moodlogs ->
      ObjectId.cast id = Some (MoodLog._id old) ->
      MoodLog.userId old = user ->
      (forall d, In d moodlogs -> MoodLog._id d = MoodLog._id old -> d = old) ->
      (forall m', m = Some m' -> In m' MoodLog.mood_enum) ->
      (forall x', x = Some x' -> In x' [1; 2; 3; 4; 5; 6; 7; 8; 9; 10]%float) ->
      exists v l1 stored l2,
        moodlogs = l1 ++ old :: l2
        /\ MoodRoutes.put moodlogs user id
             {| MoodRoutes.Body.userId := None; MoodRoutes.Body.mood := m;
                MoodRoutes.Body.intensity := x; MoodRoutes.Body.context := None;
                MoodRoutes.Body.transactionId := None;
                MoodRoutes.Body.notes := None; MoodRoutes.Body.triggers := None |}
             now
           = (Ok v, l1 ++ stored :: l2)
        /\ MoodLog._id stored = MoodLog._id old
        /\ MoodLog.userId stored = MoodLog.userId old
        /\ MoodLog.mood stored
           = match m with Some m' => m' | None => MoodLog.mood old end
        /\ MoodLog.intensity stored
           = match x with Some x' => x' | None => MoodLog.intensity old end
        /\ MoodRoutes.id v = MoodLog._id old
        /\ MoodRoutes.mood v = MoodLog.mood stored
        /\ MoodRoutes.intensity v = MoodLog.intensity stored
        /\ MoodRoutes.moodScore v = MoodLog.moodScore stored
        /\ (forall b,
              In (MoodLog.mood stored, b)
                 [ ("happy", 9); ("excited", 8); ("content", 7); ("calm", 6);
                   ("neutral", 5); ("worried", 4); ("sad", 3); ("anxious", 2);
                   ("stressed", 2); ("angry", 1) ]%float ->
              MoodRoutes.moodScore v = (b * (MoodLog.intensity stored / 10))%float))
  /\
  (forall moodlogs user id body now v moodlogs',
      MoodRoutes.put moodlogs user id body now = (Ok v, moodlogs') ->
      exists old,
        In old moodlogs /\ ObjectId.cast id = Some (MoodLog._id old)
        /\ MoodLog.userId old = user
        /\ MoodRoutes.mood v
           = MoodRoutes.or_else (MoodRoutes.Body.mood body) (MoodLog.mood old)
        /\ MoodRoutes.intensity v
           = MoodRoutes.or_else (MoodRoutes.Body.intensity body) (MoodLog.intensity old)
        /\ (forall b, In (MoodRoutes.mood v, b) MoodLog.moodScores ->
              MoodRoutes.moodScore v = (b * (MoodRoutes.intensity v / 10))%float)
        /\ exists stored,
             In stored moodlogs' /\ MoodLog._id stored = MoodLog._id old
             /\ MoodLog.mood stored = MoodRoutes.mood v
             /\ MoodLog.intensity stored = MoodRoutes.intensity v
             /\ MoodLog.moodScore stored = MoodRoutes.moodScore v).
Proof.
  split; [|split].
  - intros d Hm Hi.
    destruct (mood_enum_moodScores _ Hm) as [b Hb].
    exists b. split; [exact Hb|].
    rewrite (moodScore_table _ _ Hb).
    split; [reflexivity|].
    apply moodScore_range; [|exact Hi].
    change b with (snd (MoodLog.mood d, b)). now apply in_map.
  - intros moodlogs user id now old m x Hin Hc Hu Honly Hm Hx.
    destruct (put_mood_and_intensity moodlogs user id now old m x
                Hin Hc Hu Honly Hm Hx) as (l1 & l2 & Hl & Hput).
    exists (MoodRoutes.view (MoodRoutes.set (Requests.mood_and_intensity m x) now old)),
      l1, (MoodRoutes.set (Requests.mood_and_intensity m x) now old), l2.
    split; [exact Hl|]. split; [exact Hput|].
    repeat split; try reflexivity.
    intros b Hb.
    apply (moodScore_table (MoodRoutes.set (Requests.mood_and_intensity m x) now old)).
    exact Hb.
  - intros moodlogs user id body now v moodlogs' H.
    destruct (put_ok _ _ _ _ _ _ _ H) as (_ & old & Hin & Hid & Huser & Hin' & Hv).
    exists old. subst v. simpl.
    repeat split; auto.
    + intros b Hb.
      apply (moodScore_table (MoodRoutes.set (MoodRoutes.sanitize body) now old)).
      exact Hb.
    + exists (MoodRoutes.set (MoodRoutes.sanitize body) now old). simpl. auto.
Qed.

(** C3 at one event: (happy, 3) scores 9 * (3 / 10); its update to
    (sad, 10), asked for with the id in upper case, succeeds, stores the
    mood sad and is answered with the score of the stored document. *)
Lemma moodScore_formula_and_recomputed_witness :
  (exists b,
      In ("happy", b)
         [ ("happy", 9); ("excited", 8); ("content", 7); ("calm", 6);
           ("neutral", 5); ("worried", 4); ("sad", 3); ("anxious", 2);
           ("stressed", 2); ("angry", 1) ]%float
      /\ MoodLog.moodScore (Samples.moodlog Requests.oid "u" "happy" 3 0)
         = (b * (3 / 10))%float)
  /\ (exists v l1 stored l2,
         [Samples.moodlog Requests.oid "u" "happy" 3 0]
         = l1 ++ Samples.moodlog Requests.oid "u" "happy" 3 0 :: l2
         /\ MoodRoutes.put [Samples.moodlog Requests.oid "u" "happy" 3 0] "u"
              Requests.OID
              (Requests.mood_and_intensity (Some "sad") (Some 10%float)) 5
            = (Ok v, l1 ++ stored :: l2)
         /\ MoodLog.mood stored = "sad"
         /\ MoodLog.intensity stored = 10%float
         /\ MoodRoutes.moodScore v = MoodLog.moodScore stored).
Proof.
  destruct moodScore_formula_and_recomputed as (Hformula & Hupdate & _).
  split.
  - destruct (Hformula (Samples.moodlog Requests.oid "u" "happy" 3 0))
      as (b & Hb & Hs & _).
    + simpl. auto.
    + simpl. auto 12.
    + exists b. split; [exact Hb|exact Hs].
  - destruct (Hupdate [Samples.moodlog Requests.oid "u" "happy" 3 0] "u" Requests.OID 5
                (Samples.moodlog Requests.oid "u" "happy" 3 0)
                (Some "sad") (Some 10%float))
      as (v & l1 & stored & l2 & Hl & Hput & _ & _ & Hmood & Hint & _ & _ & _
          & Hscore & _).
    + simpl. auto.
    + reflexivity.
    + reflexivity.
    + intros d [Hd|[]] _. now subst d.
    + intros m' E. inversion E. simpl. auto 12.
    + intros x' E. inversion E. simpl. auto 12.
    + exists v, l1, stored, l2. auto.
Defined.

(** A mood outside the table that names no inherited property scores
    with the neutral base, whatever the intensity. *)
Theorem moodScore_fallback :
  forall d : MoodLog.t,
    JS.own_property MoodLog.moodScores (MoodLog.mood d) = None ->
    JS.inherited (MoodLog.mood d) = false ->
    MoodLog.moodScore d = (5 * (MoodLog.intensity d / 10))%float.
Proof.
  intros d Hown Hinh. unfold MoodLog.moodScore, JS.get.
  now rewrite Hown, Hinh.
Qed.

Lemma moodScore_fallback_witness :
  MoodLog.moodScore (Samples.moodlog "m1" "u" "bored" 5 0) = (5 * (5 / 10))%float.
Proof.
  apply (moodScore_fallback (Samples.moodlog "m1" "u" "bored" 5 0));
    reflexivity.
Defined.

Lemma mul_nan (x : float) : (PrimFloat.nan * x)%float = PrimFloat.nan.
Proof. apply Prim2SF_inj. rewrite FloatAxioms.mul_spec. reflexivity. Qed.

(** A mood that names a property inherited from [Object.prototype] has
    no score: the result is NaN, whatever the intensity. *)
Theorem moodScore_inherited :
  forall d : MoodLog.t,
    In (MoodLog.mood d) JS.Object_prototype ->
    MoodLog.moodScore d = PrimFloat.nan.
Proof.
  intros d H. unfold MoodLog.moodScore, JS.mul.
  unfold JS.Object_prototype in H. simpl in H.
  repeat (destruct H as [H|H]; [rewrite <- H; simpl; apply mul_nan|]).
  contradiction.
Qed.

Lemma moodScore_inherited_witness :
  MoodLog.moodScore (Samples.moodlog "m1" "u" "toString" 7 0) = PrimFloat.nan.
Proof.
  apply (moodScore_inherited (Samples.moodlog "m1" "u" "toString" 7 0)).
  simpl. auto 12.
Defined.

(** C10: a mood string that names a property inherited from
    [Object.prototype] is outside the lookup table, yet the [||] fallback
    is not taken for it: the score of ("constructor", 5) is NaN, not
    5 * (5 / 10) = 2.5. *)
Theorem moodScore_inherited_name_is_nan :
  JS.own_property MoodLog.moodScores "constructor" = None
  /\ MoodLog.moodScore (Samples.moodlog "m1" "u" "constructor" 5 0) = PrimFloat.nan
  /\ (5 * (5 / 10))%float = 2.5%float.
Proof. repeat split. Qed.

(** ** Mood logs: what an update writes *)

(** C5: the handler passes the whole request body to [$set]: a body
    with a [userId] key moves the mood log of alice to mallory. *)
Theorem put_sets_userId :
  exists v,
    MoodRoutes.put [Samples.moodlog "65a1b2c3d4e5f60718293a4b" "alice" "happy" 5 0]
      "alice" "65a1b2c3d4e5f60718293a4b"
      {| MoodRoutes.Body.userId := Some "mallory";
         MoodRoutes.Body.mood := None; MoodRoutes.Body.intensity := None;
         MoodRoutes.Body.context := None; MoodRoutes.Body.transactionId := None;
         MoodRoutes.Body.notes := None; MoodRoutes.Body.triggers := None |}
      7
    = (Ok v,
       [ {| MoodLog._id := "65a1b2c3d4e5f60718293a4b"; MoodLog.userId := "mallory";
            MoodLog.mood := "happy"; MoodLog.intensity := 5;
            MoodLog.context := Some "general"; MoodLog.transactionId := None;
            MoodLog.notes := None; MoodLog.triggers := [];
            MoodLog.createdAt := 0; MoodLog.updatedAt := 7 |} ])
    /\ MoodRoutes.id v = "65a1b2c3d4e5f60718293a4b".
Proof. eexists. split; reflexivity. Qed.

(** ** Mood logs: the summary *)

(** The expression for the dominant mood is rejected for every stored
    mood log: [$reduce] is given the string at [$mood]. *)
Lemma dominantMood_expr_raises (d : MoodLog.t) :
  MoodRoutes.dominantMood_expr d
  = Mongo.Raise "$reduce requires that 'input' be an array".
Proof. reflexivity. Qed.

(** With a mood log of the user in the window, GET /summary answers
    500, and so it does when the start of the window is no valid Date
    (more than 8.64e15 ms from the epoch); with a valid start and no
    log of the user in the window, it answers the default summary: no
    log, average 0, neutral. *)
Theorem summary_is_error_or_default :
  forall (moodlogs : list MoodLog.t) (user : string) (days now : Z),
    ((exists d, In d moodlogs /\ MoodLog.userId d = user
                /\ now - days * Mongo.ms_per_day <= MoodLog.createdAt d) ->
     MoodRoutes.get_summary moodlogs user days now = Fail 500 "Server error")
    /\ (now - days * 86400000 < -8640000000000000
        \/ 8640000000000000 < now - days * 86400000 ->
        MoodRoutes.get_summary moodlogs user days now = Fail 500 "Server error")
    /\ (-8640000000000000 <= now - days * 86400000 <= 8640000000000000 ->
        (forall d, In d moodlogs -> MoodLog.userId d = user ->
                   MoodLog.createdAt d < now - days * Mongo.ms_per_day) ->
        MoodRoutes.get_summary moodlogs user days now
        = Ok {| MoodRoutes.totalLogs := 0;
                MoodRoutes.summary_avgMoodScore := Mongo.VNum 0;
                MoodRoutes.dominantMood := Mongo.VStr "neutral";
                MoodRoutes.moodDistribution := None |}).
Proof.
  intros moodlogs user days now.
  unfold MoodRoutes.get_summary, MoodRoutes.summary_aggregate, JSDate.valid.
  change Mongo.ms_per_day with 86400000.
  split; [|split].
  - intros (d & Hin & Hu & Ht).
    destruct (negb _); [reflexivity|].
    destruct (filter _ moodlogs) as [|x l] eqn:Hf.
    + assert (Hd : In d (filter (fun d => String.eqb (MoodLog.userId d) user
                                   && (now - days * 86400000
                                       <=? MoodLog.createdAt d)) moodlogs)).
      { apply filter_In. split; [exact Hin|].
        apply andb_true_iff. split.
        - now apply String.eqb_eq.
        - now apply Z.leb_le. }
      rewrite Hf in Hd. contradiction.
    + reflexivity.
  - intros Hr.
    replace ((-8640000000000000 <=? now - days * 86400000)
             && (now - days * 86400000 <=? 8640000000000000)) with false;
      [reflexivity|].
    symmetry. apply andb_false_iff.
    destruct Hr as [Hr|Hr]; [left; apply Z.leb_gt|right; apply Z.leb_gt]; exact Hr.
  - intros [Hlo Hhi] Hnone.
    replace ((-8640000000000000 <=? now - days * 86400000)
             && (now - days * 86400000 <=? 8640000000000000)) with true
      by (symmetry; apply andb_true_iff; split; apply Z.leb_le; assumption).
    cbn [negb].
    replace (filter _ moodlogs) with (@nil MoodLog.t); [reflexivity|].
    symmetry.
    induction moodlogs as [|x l IH]; simpl; [reflexivity|].
    destruct (String.eqb (MoodLog.userId x) user) eqn:Hu; simpl.
    + apply String.eqb_eq in Hu.
      pose proof (Hnone x (or_introl eq_refl) Hu) as Hlt.
      destruct (now - days * 86400000 <=? MoodLog.createdAt x) eqn:Hle.
      * apply Z.leb_le in Hle. lia.
      * apply IH. intros d Hd. apply Hnone. now right.
    + apply IH. intros d Hd. apply Hnone. now right.
Qed.

Lemma summary_is_error_or_default_witness :
  MoodRoutes.get_summary Samples.moods "u" 7 (Samples.jan_1_2024 + 1000)
  = Fail 500 "Server error"
  /\ MoodRoutes.get_summary [] "u" 200000000 0 = Fail 500 "Server error"
  /\ MoodRoutes.get_summary [] "u" 7 0
     = Ok {| MoodRoutes.totalLogs := 0;
             MoodRoutes.summary_avgMoodScore := Mongo.VNum 0;
             MoodRoutes.dominantMood := Mongo.VStr "neutral";
             MoodRoutes.moodDistribution := None |}.
Proof.
  split; [|split].
  - apply (proj1 (summary_is_error_or_default Samples.moods "u" 7
                    (Samples.jan_1_2024 + 1000))).
    exists (Samples.moodlog "m1" "u" "sad" 4 Samples.jan_1_2024).
    split; [simpl; auto|]. split; [reflexivity|]. vm_compute. discriminate.
  - apply (proj1 (proj2 (summary_is_error_or_default [] "u" 200000000 0))).
    left. reflexivity.
  - apply (proj2 (proj2 (summary_is_error_or_default [] "u" 7 0))).
    + split; vm_compute; discriminate.
    + intros d Hd. destruct Hd.
Defined.

(** C8: with events in the window the aggregation is rejected ([$reduce]
    is given the string [$mood]) and the handler answers 500: for the
    moods sad, happy, happy no dominant mood is reported.  With no event
    the answer is the default object: 0 logs, average 0, neutral. *)
Theorem summary_of_sample_window :
  map MoodLog.mood Samples.moods = ["sad"; "happy"; "happy"]
  /\ MoodRoutes.get_summary Samples.moods "u" 7
       (Samples.jan_1_2024 + Mongo.ms_per_day)
     = Fail 500 "Server error"
  /\ MoodRoutes.get_summary [] "u" 7 (Samples.jan_1_2024 + Mongo.ms_per_day)
     = Ok {| MoodRoutes.totalLogs := 0;
             MoodRoutes.summary_avgMoodScore := Mongo.VNum 0;
             MoodRoutes.dominantMood := Mongo.VStr "neutral";
             MoodRoutes.moodDistribution := None |}.
Proof. repeat split. Qed.

(** ** Mood logs: the weekly scores *)

(** [moodScore] is not stored: no pipeline reads a value for it. *)
Lemma moodScore_not_stored (d : MoodLog.t) : MoodRoutes.stored d "moodScore" = None.
Proof. reflexivity. Qed.

Lemma avg_of_moodScore (g : list MoodLog.t) :
  Mongo.acc_avg (map (fun d => MoodRoutes.stored d "moodScore") g) = Mongo.VNull.
Proof.
  unfold Mongo.acc_avg.
  replace (Mongo.numerics (map (fun d => MoodRoutes.stored d "moodScore") g))
    with (@nil float); [reflexivity|].
  induction g as [|d g IH]; simpl; auto.
Qed.

Lemma week_le_total (a b : MoodRoutes.WeekRow) :
  MoodRoutes.week_le a b = false -> MoodRoutes.week_le b a = true.
Proof.
  unfold MoodRoutes.week_le. intros H.
  apply orb_false_iff in H. destruct H as [Hlt Heq].
  apply Z.ltb_ge in Hlt.
  apply orb_true_iff.
  destruct (Z.eq_dec (MoodRoutes.year a) (MoodRoutes.year b)) as [E|E].
  - right. rewrite E in *. rewrite Z.eqb_refl in *. simpl in *.
    apply Z.leb_gt in Heq. apply Z.leb_le. lia.
  - left. apply Z.ltb_lt. lia.
Qed.

Lemma add_to_group_nonempty {K A : Type} (eqb : K -> K -> bool) (k : K) (a : A)
    (gs : list (K * list A)) :
  Forall (fun g => snd g <> []) gs ->
  Forall (fun g => snd g <> []) (Mongo.add_to_group eqb k a gs).
Proof.
  induction 1 as [|[k' l] gs Hg Hgs IH]; simpl.
  - repeat constructor. discriminate.
  - destruct (eqb k' k); constructor; auto.
    simpl. destruct l; discriminate.
Qed.

(** No group of a [$group] stage is empty. *)
Lemma group_by_nonempty {K A : Type} (eqb : K -> K -> bool) (key : A -> K)
    (l : list A) :
  Forall (fun g => snd g <> []) (Mongo.group_by eqb key l).
Proof.
  unfold Mongo.group_by.
  assert (H : forall gs, Forall (fun g : K * list A => snd g <> []) gs ->
                         Forall (fun g => snd g <> [])
                                (fold_left (fun gs a => Mongo.add_to_group eqb (key a) a gs)
                                           l gs)).
  { induction l as [|a l IH]; simpl; intros gs Hgs; [exact Hgs|].
    apply IH. now apply add_to_group_nonempty. }
  apply H. constructor.
Qed.

(** The weekly scores are ordered by year and then by [$week]; every
    entry counts at least one event and has a null average. *)
Theorem weeklyScores_rows :
  forall (moodlogs : list MoodLog.t) (user : string) (days now : Z),
    Sorted (fun a b =>
              MoodRoutes.year a < MoodRoutes.year b
              \/ (MoodRoutes.year a = MoodRoutes.year b
                  /\ MoodRoutes.week a <= MoodRoutes.week b))
           (MoodRoutes.weeklyScores moodlogs user days now)
    /\ Forall (fun r => MoodRoutes.avgMoodScore r = Mongo.VNull
                        /\ 1 <= MoodRoutes.count r)
              (MoodRoutes.weeklyScores moodlogs user days now).
Proof.
  intros moodlogs user days now. unfold MoodRoutes.weeklyScores.
  split.
  - apply Sorted_weaken with (R := fun a b => MoodRoutes.week_le a b = true);
      [|apply (sort_sorted MoodRoutes.week_le week_le_total)].
    intros a b Hab. unfold MoodRoutes.week_le in Hab.
    apply orb_true_iff in Hab. destruct Hab as [Hab|Hab].
    + left. now apply Z.ltb_lt.
    + apply andb_true_iff in Hab. destruct Hab as [Hy Hw].
      right. split; [now apply Z.eqb_eq|now apply Z.leb_le].
  - apply Forall_forall. intros r Hr.
    apply In_sort in Hr. apply in_map_iff in Hr.
    destruct Hr as (g & Hg & Hin). subst r. simpl.
    split; [apply avg_of_moodScore|].
    pose proof (group_by_nonempty MoodRoutes.week_key_eqb
                  (fun d => (Mongo.op_year (MoodLog.createdAt d),
                             Mongo.op_week (MoodLog.createdAt d)))
                  (filter (fun d => String.eqb (MoodLog.userId d) user
                                    && (now - days * 24 * 60 * 60 * 1000
                                        <=? MoodLog.createdAt d)) moodlogs)) as Hne.
    rewrite Forall_forall in Hne. specialize (Hne g Hin).
    destruct (snd g); [contradiction|]. simpl length. lia.
Qed.

(** C9: [moodScore] is not a stored field, so its [$avg] is null, and the
    week is [$week] of [$year], not the ISO week: the three sample events
    of Monday 1 January 2024, with scores 1.2, 9 and 5.4, are reported as
    week 0 of 2024 with a null average and count 3; their ISO week is 1. *)
Theorem weeklyScores_of_sample_window :
  MoodRoutes.weeklyScores Samples.moods "u" 7 (Samples.jan_1_2024 + Mongo.ms_per_day)
  = [ {| MoodRoutes.year := 2024; MoodRoutes.week := 0;
         MoodRoutes.avgMoodScore := Mongo.VNull; MoodRoutes.count := 3 |} ]
  /\ map MoodLog.moodScore Samples.moods
     = [1.2000000000000002; 9; 5.3999999999999995]%float
  /\ Mongo.op_isoWeek Samples.jan_1_2024 = 1.
Proof. repeat split. Qed.

(** ** Insights: expiry on the read paths *)



(** Every stored field but [expiresAt] is blind to a change of
    [expiresAt]. *)
Lemma stored_expiring (e : option Z) (d : Insight.t) (path : string) :
  path <> "expiresAt" ->
  Insight.stored (Samples.expiring e d) path = Insight.stored d path.
Proof.
  intros Hp. unfold Insight.stored.
  repeat match goal with
         | |- context [String.eqb path ?k] =>
             destruct (String.eqb path k) eqn:?; [try reflexivity|]
         end;
    try reflexivity.
  exfalso. apply Hp. now apply String.eqb_eq.
Qed.

(** The listing does not depend on the insights' [expiresAt], unless it
    is asked to sort by it: with other expiry dates the same insights are
    listed in the same order, and the same total is reported. *)
Theorem get_list_ignores_expiresAt :
  forall (coll : list Insight.t) (user : string) (q : InsightRoutes.Query)
         (e : option Z),
    InsightRoutes.sort q <> "expiresAt" ->
    InsightRoutes.get_list (map (Samples.expiring e) coll) user q
    = match InsightRoutes.get_list coll user q with
      | Ok r =>
          Ok {| InsightRoutes.insights :=
                  map (Samples.expiring e) (InsightRoutes.insights r);
                InsightRoutes.total_items := InsightRoutes.total_items r |}
      | Fail status message => Fail status message
      end.
Proof.
  intros coll user q e Hsort. unfold InsightRoutes.get_list.
  rewrite (filter_map (Samples.expiring e) (InsightRoutes.list_filter user q))
    by reflexivity.
  rewrite (sort_map (Samples.expiring e)
             (Mongo.spec_le Insight.stored
                [(InsightRoutes.sort q,
                  if String.eqb (InsightRoutes.order q) "asc" then 1 else -1)])).
  - destruct (String.eqb (InsightRoutes.sort q) ""); [reflexivity|].
    unfold Mongo.skip.
    destruct ((InsightRoutes.page q - 1) * InsightRoutes.limit q <? 0);
      [reflexivity|].
    rewrite skipn_map, limit_map, !length_map. reflexivity.
  - intros x y. unfold Mongo.spec_le. simpl.
    now rewrite !stored_expiring.
Qed.

Lemma get_list_ignores_expiresAt_witness :
  InsightRoutes.get_list [Samples.expiring (Some 9000) Samples.expired] "u"
    InsightRoutes.default_query
  = Ok {| InsightRoutes.insights := [Samples.expiring (Some 9000) Samples.expired];
          InsightRoutes.total_items := 1 |}.
Proof.
  apply (get_list_ignores_expiresAt [Samples.expired] "u"
           InsightRoutes.default_query (Some 9000)).
  discriminate.
Defined.

(** C1: the list handler reads no clock: an insight of the user that
    expired at time 1000 is in the listing, whenever that is asked for;
    at time 2000 it is absent from the actionable insights and still
    returned by its id. *)
Theorem list_returns_expired_insight :
  InsightRoutes.get_list [Requests.expired] "u" InsightRoutes.default_query
  = Ok {| InsightRoutes.insights := [Requests.expired];
          InsightRoutes.total_items := 1 |}
  /\ Insight.expiresAt Requests.expired = Some 1000
  /\ Insight.expires_after 2000 Requests.expired = false
  /\ InsightRoutes.actionable [Requests.expired] "u" 5 2000 = Ok []
  /\ InsightRoutes.get_id [Requests.expired] "u" "65a1b2c3d4e5f60718293a4b"
     = Ok Requests.expired
  /\ Insight._id Requests.expired = "65a1b2c3d4e5f60718293a4b".
Proof. repeat split. Qed.

(** ** Insights: the actionable insights *)

(** The actionable insights are insights of the user that are flagged
    actionable, not acted upon and not expired; a non-zero limit bounds
    their number. *)
Theorem actionable_returns_live_actionable :
  forall (coll : list Insight.t) (user : string) (limit now : Z) (d : Insight.t),
    In d (Insight.getActionableInsights coll user limit now) ->
    In d coll
    /\ Insight.userId d = user
    /\ Insight.isActionable d = true
    /\ Insight.actionTaken d = false
    /\ (exists e, Insight.expiresAt d = Some e /\ now < e)
    /\ (limit <> 0 ->
        Z.of_nat (length (Insight.getActionableInsights coll user limit now))
        <= Z.abs limit).
Proof.
  intros coll user limit now d H.
  unfold Insight.getActionableInsights in *.
  pose proof (In_limit _ _ _ H) as H'.
  apply In_sort in H'. apply filter_In in H'. destruct H' as [Hin Hf].
  repeat (apply andb_true_iff in Hf; destruct Hf as [Hf ?]).
  apply String.eqb_eq in Hf.
  repeat match goal with
         | H : Bool.eqb _ _ = true |- _ => apply Bool.eqb_prop in H
         end.
  unfold Insight.expires_after in *.
  destruct (Insight.expiresAt d) as [e|] eqn:He; [|discriminate].
  repeat split; auto.
  - exists e. split; [reflexivity|]. now apply Z.ltb_lt.
  - apply limit_length.
Qed.

Lemma actionable_returns_live_actionable_witness :
  Insight.isActionable (Samples.insight "d" "u" "forecast" "predictive" "urgent" 0.9
                                        true (Some 9000) 4) = true
  /\ exists e, Some 9000 = Some e /\ 100 < e.
Proof.
  destruct (actionable_returns_live_actionable Samples.four "u" 5 100
              (Samples.insight "d" "u" "forecast" "predictive" "urgent" 0.9
                               true (Some 9000) 4))
    as (_ & _ & Hact & _ & Hlive & _).
  - simpl. auto.
  - exact (conj Hact Hlive).
Defined.

(** The actionable insights stand in the order of the sort
    specification: by descending [priority] as a string, then by
    descending [confidence], then by descending [createdAt]. *)
Theorem actionable_sorted :
  forall (coll : list Insight.t) (user : string) (limit now : Z),
    Sorted (fun a b =>
              String.compare (Insight.priority b) (Insight.priority a) = Lt
              \/ (Insight.priority a = Insight.priority b
                  /\ (Mongo.num_compare (Insight.confidence b) (Insight.confidence a) = Lt
                      \/ (Mongo.num_compare (Insight.confidence b)
                                            (Insight.confidence a) = Eq
                          /\ Insight.createdAt b <= Insight.createdAt a))))
           (Insight.getActionableInsights coll user limit now).
Proof.
  intros coll user limit now. unfold Insight.getActionableInsights.
  apply Sorted_limit.
  apply Sorted_weaken with
    (R := fun a b =>
            Mongo.spec_le Insight.stored
              [("priority", -1); ("confidence", -1); ("createdAt", -1)] a b = true);
    [|apply sort_sorted; intros a b; apply spec_le_total].
  intros a b. unfold Mongo.spec_le. simpl.
  unfold Mongo.directed, Mongo.key_compare. simpl.
  rewrite (String.compare_antisym (Insight.priority b) (Insight.priority a)).
  rewrite (num_compare_antisym (Insight.confidence a) (Insight.confidence b)).
  destruct (String.compare (Insight.priority a) (Insight.priority b)) eqn:Hp; simpl.
  - apply String.compare_eq_iff in Hp.
    destruct (Mongo.num_compare (Insight.confidence a) (Insight.confidence b));
      simpl.
    + rewrite (Z.compare_antisym (Insight.createdAt b) (Insight.createdAt a)).
      destruct (Insight.createdAt b ?= Insight.createdAt a) eqn:Hc; simpl;
        intros H; try discriminate; right; split; auto; right; split; auto.
      * apply Z.compare_eq in Hc. rewrite Hc. apply Z.le_refl.
      * apply Z.compare_lt_iff in Hc. now apply Z.lt_le_incl.
    + discriminate.
    + intros _. right. split; auto.
  - discriminate.
  - intros _. left. reflexivity.
Qed.

(** C2: [priority] is a string, and the sort compares strings: of the
    four sample insights (priorities low, urgent, high, urgent;
    confidences 0.9, 0.5, 0.9, 0.9) the two urgent ones come first, the
    one with confidence 0.9 before the one with 0.5, then low, then
    high. *)
Theorem actionable_sorts_priority_as_string :
  map (fun d => (Insight._id d, Insight.priority d, Insight.confidence d))
      (Insight.getActionableInsights Samples.four "u" 5 100)
  = [ ("d", "urgent", 0.9%float); ("b", "urgent", 0.5%float);
      ("a", "low", 0.9%float); ("c", "high", 0.9%float) ].
Proof. reflexivity. Qed.

(** ** Insights: the summary *)

(** C7: [avgConfidence] is the mean of the groups' means, and the
    aggregation does not look at [expiresAt].  For two insights of one
    type and category with confidence 1 and one of another with
    confidence 0 the handler reports 0.5, where the mean over the three
    insights rounds to 0.67; for a single expired insight it reports
    one insight and its confidence, where no insight is left to average. *)
Theorem summary_averages_group_means :
  (exists data,
      InsightRoutes.get_summary Samples.three "u" 30 100 = Ok data
      /\ InsightRoutes.totalInsights (InsightRoutes.summary data) = 3
      /\ InsightRoutes.avgConfidence (InsightRoutes.summary data) = 0.5%float)
  /\ Spec.avgConfidence Samples.three "u" 30 100 = 0.67%float
  /\ (exists data,
         InsightRoutes.get_summary [Samples.expired] "u" 30 2000 = Ok data
         /\ InsightRoutes.totalInsights (InsightRoutes.summary data) = 1
         /\ InsightRoutes.avgConfidence (InsightRoutes.summary data) = 0.9%float)
  /\ Spec.avgConfidence [Samples.expired] "u" 30 2000 = 0%float.
Proof.
  split; [eexists; split; [reflexivity|split; reflexivity]|].
  split; [reflexivity|].
  split; [eexists; split; [reflexivity|split; reflexivity]|].
  reflexivity.
Qed.

(** ** Insights: marking as read and as acted upon *)

Lemma findOneAndUpdate_ext {A : Type} (filter : A -> bool) (f g : A -> A)
    (coll : list A) :
  (forall d, f d = g d) ->
  Mongo.findOneAndUpdate filter f coll = Mongo.findOneAndUpdate filter g coll.
Proof.
  intros Hfg.
  induction coll as [|x coll IH]; simpl.
  - reflexivity.
  - rewrite IH, Hfg. reflexivity.
Qed.

Lemma findOne_after_update {A : Type} (filter : A -> bool) (f : A -> A)
    (coll : list A) :
  (forall d, filter (f d) = filter d) ->
  Mongo.findOne filter (snd (Mongo.findOneAndUpdate filter f coll))
  = option_map f (Mongo.findOne filter coll).
Proof.
  intros Hf. unfold Mongo.findOne.
  induction coll as [|x coll IH]; simpl.
  - reflexivity.
  - destruct (filter x) eqn:Hx; simpl.
    + now rewrite Hf, Hx.
    + destruct (Mongo.findOneAndUpdate filter f coll) as [r c].
      simpl in *. now rewrite Hx.
Qed.

Lemma markRead_snd (coll : list Insight.t) (user id : string) (now : Z) :
  snd (InsightRoutes.markRead coll user id now)
  = snd (Mongo.findOneAndUpdate (InsightRoutes.owned user id)
           (InsightRoutes.set_isRead now) coll).
Proof.
  unfold InsightRoutes.markRead.
  destruct (Mongo.findOneAndUpdate _ _ coll) as [[d|] c] eqn:H; simpl.
  - reflexivity.
  - symmetry. exact (findOneAndUpdate_none _ _ _ _ H).
Qed.

Lemma markActionTaken_snd (coll : list Insight.t) (user id : string) (now : Z) :
  snd (InsightRoutes.markActionTaken coll user id now)
  = snd (Mongo.findOneAndUpdate (InsightRoutes.owned user id)
           (InsightRoutes.set_actionTaken now) coll).
Proof.
  unfold InsightRoutes.markActionTaken.
  destruct (Mongo.findOneAndUpdate _ _ coll) as [[d|] c] eqn:H; simpl.
  - reflexivity.
  - symmetry. exact (findOneAndUpdate_none _ _ _ _ H).
Qed.

Lemma markRead_twice (coll : list Insight.t) (user id : string) (t1 t2 : Z) :
  snd (InsightRoutes.markRead (snd (InsightRoutes.markRead coll user id t1)) user id t2)
  = snd (InsightRoutes.markRead coll user id t2).
Proof.
  rewrite !markRead_snd.
  rewrite findOneAndUpdate_twice by reflexivity.
  now rewrite (findOneAndUpdate_ext _ _ (InsightRoutes.set_isRead t2)).
Qed.

Lemma markActionTaken_twice (coll : list Insight.t) (user id : string) (t1 t2 : Z) :
  snd (InsightRoutes.markActionTaken
         (snd (InsightRoutes.markActionTaken coll user id t1)) user id t2)
  = snd (InsightRoutes.markActionTaken coll user id t2).
Proof.
  rewrite !markActionTaken_snd.
  rewrite findOneAndUpdate_twice by reflexivity.
  now rewrite (findOneAndUpdate_ext _ _ (InsightRoutes.set_actionTaken t2)).
Qed.


(** The update of the first document that matches. *)
Lemma findOneAndUpdate_at {A : Type} (filter : A -> bool) (update : A -> A)
    (l1 : list A) (old : A) (l2 : list A) :
  Forall (fun d => filter d = false) l1 -> filter old = true ->
  Mongo.findOneAndUpdate filter update (l1 ++ old :: l2)
  = (Some (update old), l1 ++ update old :: l2).
Proof.
  intros Hl1 Hold.
  induction Hl1 as [|x l1 Hx Hl1 IH]; simpl.
  - now rewrite Hold.
  - now rewrite Hx, IH.
Qed.

(** Where no two documents have the same key, a document stands
    between documents of other keys. *)
Lemma NoDup_key_split {A K : Type} (key : A -> K) (coll : list A) (old : A) :
  NoDup (map key coll) -> In old coll ->
  exists l1 l2,
    coll = l1 ++ old :: l2
    /\ Forall (fun d => key d <> key old) l1
    /\ Forall (fun d => key d <> key old) l2.
Proof.
  intros Hnd Hin.
  destruct (in_split _ _ Hin) as (l1 & l2 & ->).
  exists l1, l2. split; [reflexivity|].
  rewrite map_app in Hnd. simpl in Hnd. apply NoDup_remove_2 in Hnd.
  split; apply Forall_forall; intros d Hd E; apply Hnd, in_or_app;
    [left|right]; rewrite <- E; now apply in_map.
Qed.

Lemma owned_other_id (user id : string) (l : list Insight.t) :
  Forall (fun d => Insight._id d <> id) l ->
  Forall (fun d => InsightRoutes.owned user id d = false) l.
Proof.
  apply Forall_impl. intros d Hd. unfold InsightRoutes.owned.
  apply String.eqb_neq in Hd. now rewrite Hd.
Qed.

Lemma put_read_snd (coll : list Insight.t) (user id : string) (now : Z) :
  snd (InsightRoutes.put_read coll user id now)
  = match ObjectId.cast id with
    | Some oid => snd (InsightRoutes.markRead coll user oid now)
    | None => coll
    end.
Proof. unfold InsightRoutes.put_read. now destruct (ObjectId.cast id). Qed.

Lemma put_action_taken_snd (coll : list Insight.t) (user id : string) (now : Z) :
  snd (InsightRoutes.put_action_taken coll user id now)
  = match ObjectId.cast id with
    | Some oid => snd (InsightRoutes.markActionTaken coll user oid now)
    | None => coll
    end.
Proof. unfold InsightRoutes.put_action_taken. now destruct (ObjectId.cast id). Qed.

(** One call on the insight that the id names. *)
Lemma put_read_at (user id : string) (t : Z) (l1 : list Insight.t)
    (old : Insight.t) (l2 : list Insight.t) :
  ObjectId.cast id = Some (Insight._id old) ->
  Insight.userId old = user ->
  Forall (fun d => Insight._id d <> Insight._id old) l1 ->
  InsightRoutes.put_read (l1 ++ old :: l2) user id t
  = (Ok "Insight marked as read", l1 ++ InsightRoutes.set_isRead t old :: l2).
Proof.
  intros Hc Hu Hl1. unfold InsightRoutes.put_read, InsightRoutes.markRead.
  rewrite Hc.
  rewrite (findOneAndUpdate_at _ _ l1 old l2); [reflexivity| |].
  - now apply owned_other_id.
  - unfold InsightRoutes.owned. now rewrite Hu, !String.eqb_refl.
Qed.

Lemma put_action_taken_at (user id : string) (t : Z) (l1 : list Insight.t)
    (old : Insight.t) (l2 : list Insight.t) :
  ObjectId.cast id = Some (Insight._id old) ->
  Insight.userId old = user ->
  Forall (fun d => Insight._id d <> Insight._id old) l1 ->
  InsightRoutes.put_action_taken (l1 ++ old :: l2) user id t
  = (Ok "Action marked as taken", l1 ++ InsightRoutes.set_actionTaken t old :: l2).
Proof.
  intros Hc Hu Hl1.
  unfold InsightRoutes.put_action_taken, InsightRoutes.markActionTaken.
  rewrite Hc.
  rewrite (findOneAndUpdate_at _ _ l1 old l2); [reflexivity| |].
  - now apply owned_other_id.
  - unfold InsightRoutes.owned. now rewrite Hu, !String.eqb_refl.
Qed.

(** The claim of C4 as stated fails: after a second call at a later time,
    [actionTakenAt] and [updatedAt] are not what the first call left. *)
Lemma markActionTaken_twice_restamps :
  InsightRoutes.put_action_taken [Requests.expired] "u" "65a1b2c3d4e5f60718293a4b" 100
  = (Ok "Action marked as taken",
     [InsightRoutes.set_actionTaken 100 Requests.expired])
  /\ InsightRoutes.put_action_taken
       [InsightRoutes.set_actionTaken 100 Requests.expired] "u"
       "65a1b2c3d4e5f60718293a4b" 200
     = (Ok "Action marked as taken",
        [InsightRoutes.set_actionTaken 200 Requests.expired])
  /\ Insight.actionTakenAt (InsightRoutes.set_actionTaken 100 Requests.expired)
     = Some 100
  /\ Insight.actionTakenAt (InsightRoutes.set_actionTaken 200 Requests.expired)
     = Some 200
  /\ [InsightRoutes.set_actionTaken 200 Requests.expired]
     <> [InsightRoutes.set_actionTaken 100 Requests.expired].
Proof. repeat split. discriminate. Qed.

(** C4, amended.  For every collection, two calls of either operation
    leave the collection that one call at the time of the second
    leaves.  Where no two insights have the same id and the id names an
    insight of the caller: a call of [markRead] answers 200 and leaves
    that insight read and stamped ([updatedAt]) with the time of the
    call, every other field and every other insight as they were; a call
    of [markActionTaken] answers 200 and leaves it with
    [actionTaken = true] and with [actionTakenAt] and [updatedAt] at the
    time of the call; a second call stamps anew; so after the second
    call [isRead], [actionTaken] (and after [markRead] also
    [actionTakenAt]) are as after the first, and the collection is the
    one after the first call exactly when the two calls carry the same
    time. *)
Theorem mark_twice_is_mark_at_the_later_time :
  (forall (coll : list Insight.t) (user id : string) (t1 t2 : Z),
      snd (InsightRoutes.put_read (snd (InsightRoutes.put_read coll user id t1))
             user id t2)
      = snd (InsightRoutes.put_read coll user id t2)
      /\ snd (InsightRoutes.put_action_taken
                (snd (InsightRoutes.put_action_taken coll user id t1)) user id t2)
         = snd (InsightRoutes.put_action_taken coll user id t2))
  /\
  (forall (coll : list Insight.t) (user id : string) (t1 t2 : Z) (old : Insight.t),
      NoDup (map Insight._id coll) ->
      In old coll ->
      ObjectId.cast id = Some (Insight._id old) ->
      Insight.userId old = user ->
      let read := fun t =>
        {| Insight._id := Insight._id old; Insight.userId := Insight.userId old;
           Insight.type := Insight.type old; Insight.title := Insight.title old;
           Insight.description := Insight.description old;
           Insight.confidence := Insight.confidence old;
           Insight.priority := Insight.priority old;
           Insight.category := Insight.category old;
           Insight.isRead := true;
           Insight.isActionable := Insight.isActionable old;
           Insight.actionTaken := Insight.actionTaken old;
           Insight.actionTakenAt := Insight.actionTakenAt old;
           Insight.expiresAt := Insight.expiresAt old;
           Insight.createdAt := Insight.createdAt old;
           Insight.updatedAt := t |} in
      let taken := fun t =>
        {| Insight._id := Insight._id old; Insight.userId := Insight.userId old;
           Insight.type := Insight.type old; Insight.title := Insight.title old;
           Insight.description := Insight.description old;
           Insight.confidence := Insight.confidence old;
           Insight.priority := Insight.priority old;
           Insight.category := Insight.category old;
           Insight.isRead := Insight.isRead old;
           Insight.isActionable := Insight.isActionable old;
           Insight.actionTaken := true;
           Insight.actionTakenAt := Some t;
           Insight.expiresAt := Insight.expiresAt old;
           Insight.createdAt := Insight.createdAt old;
           Insight.updatedAt := t |} in
      exists l1 l2,
        coll = l1 ++ old :: l2
        /\ InsightRoutes.put_read coll user id t1
           = (Ok "Insight marked as read", l1 ++ read t1 :: l2)
        /\ InsightRoutes.put_read (l1 ++ read t1 :: l2) user id t2
           = (Ok "Insight marked as read", l1 ++ read t2 :: l2)
        /\ InsightRoutes.put_action_taken coll user id t1
           = (Ok "Action marked as taken", l1 ++ taken t1 :: l2)
        /\ InsightRoutes.put_action_taken (l1 ++ taken t1 :: l2) user id t2
           = (Ok "Action marked as taken", l1 ++ taken t2 :: l2)
        /\ (l1 ++ read t2 :: l2 = l1 ++ read t1 :: l2 <-> t1 = t2)
        /\ (l1 ++ taken t2 :: l2 = l1 ++ taken t1 :: l2 <-> t1 = t2)).
Proof.
  split.
  - intros coll user id t1 t2. rewrite !put_read_snd, !put_action_taken_snd.
    destruct (ObjectId.cast id) as [oid|]; [|split; reflexivity].
    split; [apply markRead_twice|apply markActionTaken_twice].
  - intros coll user id t1 t2 old Hnd Hin Hc Hu read taken.
    destruct (NoDup_key_split Insight._id coll old Hnd Hin) as (l1 & l2 & Hl & Hl1 & _).
    exists l1, l2. split; [exact Hl|]. subst coll.
    split; [exact (put_read_at user id t1 l1 old l2 Hc Hu Hl1)|].
    split; [exact (put_read_at user id t2 l1 (read t1) l2 Hc Hu Hl1)|].
    split; [exact (put_action_taken_at user id t1 l1 old l2 Hc Hu Hl1)|].
    split; [exact (put_action_taken_at user id t2 l1 (taken t1) l2 Hc Hu Hl1)|].
    split; (split; [|intros ->; reflexivity]); intros E;
      apply app_inv_head in E; inversion E; reflexivity.
Qed.

(** C4 at the sample insight, marked at time 100 and again at 200, the
    id written in upper case. *)
Lemma mark_twice_is_mark_at_the_later_time_witness :
  exists l1 l2,
    [Requests.expired] = l1 ++ Requests.expired :: l2
    /\ InsightRoutes.put_action_taken [Requests.expired] "u" Requests.OID 100
       = (Ok "Action marked as taken",
          l1 ++ InsightRoutes.set_actionTaken 100 Requests.expired :: l2)
    /\ InsightRoutes.put_action_taken
         (l1 ++ InsightRoutes.set_actionTaken 100 Requests.expired :: l2) "u"
         Requests.OID 200
       = (Ok "Action marked as taken",
          l1 ++ InsightRoutes.set_actionTaken 200 Requests.expired :: l2).
Proof.
  destruct (proj2 mark_twice_is_mark_at_the_later_time
              [Requests.expired] "u" Requests.OID 100 200 Requests.expired)
    as (l1 & l2 & Hl & _ & _ & H1 & H2 & _).
  - repeat constructor. intros [].
  - simpl. auto.
  - reflexivity.
  - reflexivity.
  - exists l1, l2. split; [exact Hl|]. split; [exact H1|exact H2].
Defined.

(** ** Insights: validation at ingestion *)

Lemma existsb_eqb_In (s : string) (l : list string) :
  existsb (String.eqb s) l = true -> In s l.
Proof.
  intros H. apply existsb_exists in H. destruct H as (x & Hin & Heq).
  apply String.eqb_eq in Heq. now subst.
Qed.

Lemma required_enum_In (values : list string) (v : option string) :
  Insight.required_string v = true -> Insight.enum values v = true ->
  In (Insight.or_else v "") values.
Proof.
  destruct v as [s|]; simpl; intros Hr He; [|discriminate].
  now apply existsb_eqb_In.
Qed.

Lemma app_nil_iff {A : Type} (l l' : list A) :
  l ++ l' = [] <-> l = [] /\ l' = [].
Proof.
  split.
  - apply app_eq_nil.
  - intros [-> ->]. reflexivity.
Qed.

Lemma path_passes (b : bool) (path : string) :
  (if b then [] else [path]) = [] <-> b = true.
Proof. destruct b; split; intros H; try reflexivity; discriminate. Qed.

Lemma required_string_iff (v : option string) :
  Insight.required_string v = true <-> exists s, v = Some s /\ s <> "".
Proof.
  destruct v as [s|]; simpl.
  - rewrite negb_true_iff, String.eqb_neq. split.
    + intros H. now exists s.
    + intros (s' & E & H). now inversion E; subst.
  - split; [discriminate|]. intros (s & E & _). discriminate.
Qed.

Lemma enum_iff (values : list string) (v : option string) :
  Insight.enum values v = true <-> forall s, v = Some s -> In s values.
Proof.
  destruct v as [s|]; simpl.
  - split.
    + intros H s' E. inversion E; subst. now apply existsb_eqb_In.
    + intros H. apply In_existsb_eqb. now apply H.
  - split; [intros _ s E; discriminate|reflexivity].
Qed.

Lemma maxlength_iff (n : nat) (v : option string) :
  Insight.maxlength n v = true
  <-> forall s, v = Some s -> (JSString.length s <= n)%nat.
Proof.
  destruct v as [s|]; simpl.
  - rewrite Nat.leb_le. split.
    + intros H s' E. now inversion E; subst.
    + intros H. now apply H.
  - split; [intros _ s E; discriminate|reflexivity].
Qed.

Lemma date_ok_iff (v : option Z) :
  Insight.date_ok v = true
  <-> forall t, v = Some t -> -8640000000000000 <= t <= 8640000000000000.
Proof.
  destruct v as [t|]; simpl.
  - unfold JSDate.valid. rewrite andb_true_iff, !Z.leb_le. split.
    + intros H t' E. now inversion E; subst.
    + intros H. now apply H.
  - split; [intros _ t E; discriminate|reflexivity].
Qed.

Lemma confidence_ok_iff (v : option float) :
  Insight.confidence_ok v = true
  <-> exists c, v = Some c /\ (0 <=? c)%float = true /\ (c <=? 1)%float = true.
Proof.
  destruct v as [c|]; simpl.
  - rewrite andb_true_iff. split.
    + intros H. now exists c.
    + intros (c' & E & H). now inversion E; subst.
  - split; [discriminate|]. intros (c & E & _). discriminate.
Qed.

Lemma visualization_paths_nil (n : nat) (types : list (option string)) :
  Insight.visualization_paths n types = []
  <-> forall v, In (Some v) types -> In v Insight.visualization_type_enum.
Proof.
  revert n. induction types as [|ty types IH]; intros n.
  - simpl. split; [intros _ v []|reflexivity].
  - cbn [Insight.visualization_paths]. rewrite app_nil_iff, path_passes, IH, enum_iff.
    split.
    + intros [H1 H2] v [E|Hin]; [now apply H1|now apply H2].
    + intros H. split.
      * intros s E. apply H. left. exact E.
      * intros v Hin. apply H. now right.
Qed.

(** Validation passes exactly when every path passes its validators. *)
Lemma validate_nil (i : Insight.Input.t) :
  Insight.validate i = [] <->
  Insight.required_string (Insight.Input.userId i) = true
  /\ Insight.required_string (Insight.Input.type i) = true
  /\ Insight.enum Insight.type_enum (Insight.Input.type i) = true
  /\ Insight.required_string (Insight.Input.title i) = true
  /\ Insight.maxlength 200 (Insight.Input.title i) = true
  /\ Insight.required_string (Insight.Input.description i) = true
  /\ Insight.maxlength 1000 (Insight.Input.description i) = true
  /\ Insight.confidence_ok (Insight.Input.confidence i) = true
  /\ Insight.enum Insight.priority_enum (Insight.Input.priority i) = true
  /\ Insight.required_string (Insight.Input.category i) = true
  /\ Insight.enum Insight.category_enum (Insight.Input.category i) = true
  /\ Insight.visualization_paths 0 (Insight.Input.visualizations i) = []
  /\ Insight.enum Insight.source_enum (Insight.Input.source i) = true
  /\ Insight.date_ok (Insight.Input.actionTakenAt i) = true
  /\ Insight.date_ok (Insight.Input.expiresAt i) = true.
Proof.
  unfold Insight.validate.
  rewrite !app_nil_iff, !path_passes, !andb_true_iff. tauto.
Qed.

(** A value that is required and of an enumeration without the empty
    string. *)
Lemma required_enum_iff (values : list string) (v : option string) :
  ~ In "" values ->
  (Insight.required_string v = true /\ Insight.enum values v = true
   <-> exists s, v = Some s /\ In s values).
Proof.
  intros Hne. rewrite required_string_iff, enum_iff. split.
  - intros [(s & E & _) H]. exists s. split; [exact E|now apply H].
  - intros (s & E & Hin). split.
    + exists s. split; [exact E|]. intros ->. now apply Hne.
    + intros s' E'. rewrite E in E'. now inversion E'; subst.
Qed.

(** A value that is required and of a bounded length. *)
Lemma required_maxlength_iff (n : nat) (v : option string) :
  Insight.required_string v = true /\ Insight.maxlength n v = true
  <-> exists s, v = Some s /\ s <> "" /\ (JSString.length s <= n)%nat.
Proof.
  rewrite required_string_iff, maxlength_iff. split.
  - intros [(s & E & Hs) H]. exists s. repeat split; auto.
  - intros (s & E & Hs & Hl). split.
    + now exists s.
    + intros s' E'. rewrite E in E'. now inversion E'; subst.
Qed.

Lemma save_raises (insights : list Insight.t) (id : string) (now : Z)
    (i : Insight.Input.t) :
  fst (Insight.save insights id now i) = Mongo.Raise "ValidationError"
  <-> Insight.validate i <> [].
Proof.
  unfold Insight.save.
  destruct (Insight.validate i); simpl; split; intros H;
    try discriminate; try reflexivity; congruence.
Qed.

Lemma save_done (insights : list Insight.t) (id : string) (now : Z)
    (i : Insight.Input.t) :
  Insight.save insights id now i
  = (Mongo.Done (Insight.document id now i), insights ++ [Insight.document id now i])
  <-> Insight.validate i = [].
Proof.
  unfold Insight.save.
  destruct (Insight.validate i); split; intros H;
    try discriminate; reflexivity.
Qed.

(** The validators in the terms of the values. *)
Lemma validate_nil_values (i : Insight.Input.t) :
  Insight.validate i = [] <->
  ((exists u, Insight.Input.userId i = Some u /\ u <> "")
      /\ (exists ty, Insight.Input.type i = Some ty /\ In ty Insight.type_enum)
      /\ (exists ti, Insight.Input.title i = Some ti /\ ti <> ""
                     /\ (JSString.length ti <= 200)%nat)
      /\ (exists de, Insight.Input.description i = Some de /\ de <> ""
                     /\ (JSString.length de <= 1000)%nat)
      /\ (exists c, Insight.Input.confidence i = Some c
                    /\ (0 <=? c)%float = true /\ (c <=? 1)%float = true)
      /\ (forall p, Insight.Input.priority i = Some p -> In p Insight.priority_enum)
      /\ (exists ca, Insight.Input.category i = Some ca
                     /\ In ca Insight.category_enum)
      /\ (forall v, In (Some v) (Insight.Input.visualizations i) ->
                    In v Insight.visualization_type_enum)
      /\ (forall so, Insight.Input.source i = Some so -> In so Insight.source_enum)
      /\ (forall t, Insight.Input.actionTakenAt i = Some t ->
                    -8640000000000000 <= t <= 8640000000000000)
      /\ (forall t, Insight.Input.expiresAt i = Some t ->
                    -8640000000000000 <= t <= 8640000000000000)).
Proof.
  assert (Hty : ~ In "" Insight.type_enum)
    by (simpl; intros H; repeat (destruct H as [H|H]; [discriminate|]); exact H).
  assert (Hca : ~ In "" Insight.category_enum)
    by (simpl; intros H; repeat (destruct H as [H|H]; [discriminate|]); exact H).
  pose proof (required_enum_iff Insight.type_enum (Insight.Input.type i) Hty).
  pose proof (required_enum_iff Insight.category_enum (Insight.Input.category i) Hca).
  pose proof (required_maxlength_iff 200 (Insight.Input.title i)).
  pose proof (required_maxlength_iff 1000 (Insight.Input.description i)).
  pose proof (required_string_iff (Insight.Input.userId i)).
  pose proof (confidence_ok_iff (Insight.Input.confidence i)).
  pose proof (enum_iff Insight.priority_enum (Insight.Input.priority i)).
  pose proof (enum_iff Insight.source_enum (Insight.Input.source i)).
  pose proof (date_ok_iff (Insight.Input.actionTakenAt i)).
  pose proof (date_ok_iff (Insight.Input.expiresAt i)).
  pose proof (visualization_paths_nil 0 (Insight.Input.visualizations i)).
  rewrite validate_nil. clear Hty Hca. tauto.
Qed.

(** The claim of C6 as stated fails in both directions: an insight whose
    [expiresAt] (time 0) is not after the time of ingestion (1000) is
    stored, and an insight without a title is rejected although its
    confidence, expiry, type, category and priority are as asked. *)
Lemma ingestion_ignores_expiry_and_checks_title :
  (exists d,
      Insight.save [] Requests.oid 1000
        (Samples.input "u" "forecast" "predictive" (Some "high") (Some "t") 0.5 (Some 0))
      = (Mongo.Done d, [d])
      /\ Insight.expiresAt d = Some 0)
  /\ Insight.save [] Requests.oid 1000
       (Samples.input "u" "forecast" "predictive" (Some "high") None 0.5 (Some 5000))
     = (Mongo.Raise "ValidationError", []).
Proof. split; [eexists; split; reflexivity|reflexivity]. Qed.

(** C6, amended.  An insight whose values have the types of their paths
    is stored exactly when: the user id, the title and the description
    are given and not empty; the title has at most 200 and the
    description at most 1000 UTF-16 code units; the confidence is given
    and lies in [0,1]; the type and the category are given and of their
    enumerations; the priority, the source and the type of each
    visualization, where given, are of their enumerations; and
    [actionTakenAt] and [expiresAt], where given, are valid Dates.  In
    every other case, and in no other, ingestion fails with a
    ValidationError and stores nothing.  [expiresAt] is not compared
    with the clock: the outcome is the same at every time of ingestion
    and for every valid [expiresAt].  The stored insight is appended to
    the collection, has the given values, the priority medium where none
    is given, the flags false where none is given, and the time of
    ingestion as [createdAt] and [updatedAt]. *)
Theorem ingestion_validates_schema_paths :
  forall (insights : list Insight.t) (id : string) (now : Z) (i : Insight.Input.t),
    let valid :=
      (exists u, Insight.Input.userId i = Some u /\ u <> "")
      /\ (exists ty, Insight.Input.type i = Some ty /\ In ty Insight.type_enum)
      /\ (exists ti, Insight.Input.title i = Some ti /\ ti <> ""
                     /\ (JSString.length ti <= 200)%nat)
      /\ (exists de, Insight.Input.description i = Some de /\ de <> ""
                     /\ (JSString.length de <= 1000)%nat)
      /\ (exists c, Insight.Input.confidence i = Some c
                    /\ (0 <=? c)%float = true /\ (c <=? 1)%float = true)
      /\ (forall p, Insight.Input.priority i = Some p -> In p Insight.priority_enum)
      /\ (exists ca, Insight.Input.category i = Some ca
                     /\ In ca Insight.category_enum)
      /\ (forall v, In (Some v) (Insight.Input.visualizations i) ->
                    In v Insight.visualization_type_enum)
      /\ (forall so, Insight.Input.source i = Some so -> In so Insight.source_enum)
      /\ (forall t, Insight.Input.actionTakenAt i = Some t ->
                    -8640000000000000 <= t <= 8640000000000000)
      /\ (forall t, Insight.Input.expiresAt i = Some t ->
                    -8640000000000000 <= t <= 8640000000000000) in
    ((exists d, Insight.save insights id now i = (Mongo.Done d, insights ++ [d]))
     <-> valid)
    /\ (Insight.save insights id now i = (Mongo.Raise "ValidationError", insights)
        <-> ~ valid)
    /\ (forall now' e,
          (forall t, e = Some t -> -8640000000000000 <= t <= 8640000000000000) ->
          (forall t, Insight.Input.expiresAt i = Some t ->
                     -8640000000000000 <= t <= 8640000000000000) ->
          (fst (Insight.save insights id now' (Samples.with_expiresAt e i))
           = Mongo.Raise "ValidationError"
           <-> fst (Insight.save insights id now i) = Mongo.Raise "ValidationError"))
    /\ (forall d insights',
          Insight.save insights id now i = (Mongo.Done d, insights') ->
          insights' = insights ++ [d]
          /\ Insight._id d = id
          /\ Insight.Input.userId i = Some (Insight.userId d)
          /\ Insight.Input.type i = Some (Insight.type d)
          /\ Insight.Input.title i = Some (Insight.title d)
          /\ Insight.Input.description i = Some (Insight.description d)
          /\ Insight.Input.confidence i = Some (Insight.confidence d)
          /\ Insight.Input.category i = Some (Insight.category d)
          /\ Insight.priority d
             = match Insight.Input.priority i with Some p => p | None => "medium" end
          /\ Insight.isRead d
             = match Insight.Input.isRead i with Some b => b | None => false end
          /\ Insight.isActionable d
             = match Insight.Input.isActionable i with Some b => b | None => false end
          /\ Insight.actionTaken d
             = match Insight.Input.actionTaken i with Some b => b | None => false end
          /\ Insight.actionTakenAt d = Insight.Input.actionTakenAt i
          /\ Insight.expiresAt d = Insight.Input.expiresAt i
          /\ Insight.createdAt d = now
          /\ Insight.updatedAt d = now
          /\ (0 <=? Insight.confidence d)%float = true
          /\ (Insight.confidence d <=? 1)%float = true
          /\ In (Insight.type d) Insight.type_enum
          /\ In (Insight.category d) Insight.category_enum
          /\ In (Insight.priority d) Insight.priority_enum).
Proof.
  intros insights id now i valid.
  assert (Hvalid : Insight.validate i = [] <-> valid)
    by apply validate_nil_values.
  split; [|split; [|split]].
  - rewrite <- Hvalid, <- (save_done insights id now i). split.
    + intros (d & H). unfold Insight.save in *.
      destruct (Insight.validate i); [reflexivity|discriminate].
    + intros H. eexists. exact H.
  - rewrite <- Hvalid. unfold Insight.save.
    destruct (Insight.validate i); split; intros H;
      try discriminate; try reflexivity; try congruence.
  - intros now' e He Hi. rewrite !save_raises.
    assert (H : Insight.validate (Samples.with_expiresAt e i) = []
                <-> Insight.validate i = []).
    { rewrite !validate_nil. cbn [Samples.with_expiresAt
        Insight.Input.userId Insight.Input.type Insight.Input.title
        Insight.Input.description Insight.Input.confidence
        Insight.Input.priority Insight.Input.category
        Insight.Input.visualizations Insight.Input.source
        Insight.Input.actionTakenAt Insight.Input.expiresAt].
      apply date_ok_iff in He. apply date_ok_iff in Hi. rewrite He, Hi. tauto. }
    rewrite H. tauto.
  - intros d insights' H. unfold Insight.save in H.
    destruct (Insight.validate i) eqn:Hv; [|discriminate].
    inversion H; subst d insights'. clear H.
    clear Hv. pose proof (proj1 Hvalid eq_refl) as Hv.
    destruct Hv as ((u & Hu & _) & (ty & Hty & Hty') & (ti & Hti & _)
                    & (de & Hde & _) & (c & Hc & Hc0 & Hc1) & Hp
                    & (ca & Hca & Hca') & _).
    unfold Insight.document.
    cbn [Insight._id Insight.userId Insight.type Insight.title
         Insight.description Insight.confidence Insight.priority
         Insight.category Insight.isRead Insight.isActionable
         Insight.actionTaken Insight.actionTakenAt Insight.expiresAt
         Insight.createdAt Insight.updatedAt].
    rewrite Hu, Hty, Hti, Hde, Hc, Hca. cbn [Insight.or_else].
    repeat (split; [solve [reflexivity | assumption
                           | destruct (Insight.Input.priority i); reflexivity
                           | destruct (Insight.Input.isRead i); reflexivity
                           | destruct (Insight.Input.isActionable i); reflexivity
                           | destruct (Insight.Input.actionTaken i); reflexivity]|]).
    destruct (Insight.Input.priority i) as [p|]; cbn [Insight.or_else].
    + now apply Hp.
    + simpl. auto.
Qed.

(** C6 at four inputs: a confidence of 1.5 is rejected; a title of 201
    characters is rejected; a title of 200 characters of three bytes
    each is stored; an insight given without a priority, with an
    [expiresAt] before the time of ingestion, is stored with the priority
    medium. *)
Lemma ingestion_validates_schema_paths_witness :
  Insight.save [] Requests.oid 1000
    (Samples.input "u" "forecast" "predictive" None (Some "t") 1.5 (Some 5000))
  = (Mongo.Raise "ValidationError", [])
  /\ Insight.save [] Requests.oid 1000
       (Samples.input "u" "forecast" "predictive" None
          (Some (Requests.times 201 Requests.cjk)) 0.5 (Some 5000))
     = (Mongo.Raise "ValidationError", [])
  /\ (exists d,
        Insight.save [] Requests.oid 1000
          (Samples.input "u" "forecast" "predictive" None
             (Some (Requests.times 200 Requests.cjk)) 0.5 (Some 5000))
        = (Mongo.Done d, [d])
        /\ Insight.priority d = "medium")
  /\ exists d,
       Insight.save [] Requests.oid 1000
         (Samples.input "u" "forecast" "predictive" None (Some "t") 0.5 (Some 0))
       = (Mongo.Done d, [] ++ [d]).
Proof.
  split; [|split; [|split; [eexists; split; reflexivity|]]].
  - apply (proj1 (proj2 (ingestion_validates_schema_paths [] Requests.oid 1000
                    (Samples.input "u" "forecast" "predictive" None (Some "t") 1.5
                                   (Some 5000))))).
    intros (_ & _ & _ & _ & (c & E & _ & H) & _).
    inversion E; subst. vm_compute in H. discriminate.
  - apply (proj1 (proj2 (ingestion_validates_schema_paths [] Requests.oid 1000
                    (Samples.input "u" "forecast" "predictive" None
                       (Some (Requests.times 201 Requests.cjk)) 0.5 (Some 5000))))).
    intros (_ & _ & (ti & E & _ & H) & _).
    inversion E; subst. vm_compute in H. lia.
  - apply (proj2 (proj1 (ingestion_validates_schema_paths [] Requests.oid 1000
                    (Samples.input "u" "forecast" "predictive" None (Some "t") 0.5
                                   (Some 0))))).
    split; [exists "u"; split; [reflexivity|discriminate]|].
    split; [exists "forecast"; split; [reflexivity|simpl; auto 10]|].
    split; [exists "t"; repeat split; [discriminate|vm_compute; lia]|].
    split; [exists "d"; repeat split; [discriminate|vm_compute; lia]|].
    split; [exists 0.5%float; repeat split|].
    split; [intros p E; discriminate|].
    split; [exists "predictive"; split; [reflexivity|simpl; auto 10]|].
    split; [intros v []|].
    split; [intros so E; discriminate|].
    split; [intros t E; discriminate|].
    intros t E. inversion E; subst. lia.
Defined.

(** ** Groups of a [$group] stage *)





Section GroupBy.

Context {K A : Type} (eqb : K -> K -> bool) (key : A -> K).




Hypothesis eqb_eq : forall a b, eqb a b = true <-> a = b.







End GroupBy.



(** ** The statics of the mood model and GET /api/moods/trends *)





Lemma week_key_eqb_eq (a b : Z * Z) :
  MoodRoutes.week_key_eqb a b = true <-> a = b.
Proof.
  destruct a as [a1 a2], b as [b1 b2]. unfold MoodRoutes.week_key_eqb. simpl.
  rewrite andb_true_iff, !Z.eqb_eq.
  split; [intros [-> ->]; reflexivity|intros H; inversion H; auto].
Qed.



(** The rows of an aggregation [$match], [$group], [$sort], read off
    the groups of the matched documents. *)
Section Rows.

Context {K A R : Type} (eqb : K -> K -> bool) (key : A -> K)
        (row : K * list A -> R) (le : R -> R -> bool) (matched : list A).

Hypothesis eqb_eq : forall a b, eqb a b = true <-> a = b.





End Rows.




(** ** POST /api/moods *)

(** Equality of doubles with a finite number other than zero is
    identity. *)
Lemma SFeqb_finite (a : spec_float) (s : bool) (m : positive) (e : Z) :
  SFeqb a (S754_finite s m e) = true -> a = S754_finite s m e.
Proof.
  unfold SFeqb, SFcompare.
  destruct a as [s'|s'| |s' m' e']; try discriminate.
  - destruct s; discriminate.
  - destruct s'; discriminate.
  - destruct s', s; try discriminate;
      destruct (Z.compare e' e) eqn:He; try discriminate;
      destruct (Pos.compare_cont Eq m' m) eqn:Hm; try discriminate;
      intros _; apply Z.compare_eq in He;
      apply (Pos.compare_eq m' m) in Hm; now subst.
Qed.

Lemma eqb_finite (x c : float) (s : bool) (m : positive) (e : Z) :
  Prim2SF c = S754_finite s m e -> PrimFloat.eqb x c = true -> x = c.
Proof.
  intros Hc H. rewrite FloatAxioms.eqb_spec, Hc in H.
  apply SFeqb_finite in H. apply Prim2SF_inj. congruence.
Qed.

(** [isInt({ min: 1, max: 10 })] passes the ten integers only. *)
Lemma isInt_1_10_In (x : float) :
  MoodRoutes.isInt_1_10 (Some x) = true ->
  In x [1; 2; 3; 4; 5; 6; 7; 8; 9; 10]%float.
Proof.
  unfold MoodRoutes.isInt_1_10. intros H.
  apply existsb_exists in H. destruct H as (c & Hc & E).
  assert (Hx : x = c).
  { simpl in Hc.
    repeat (destruct Hc as [<-|Hc]; [eapply eqb_finite; [reflexivity|exact E]|]).
    contradiction. }
  now subst.
Qed.

Lemma In_1_10_range (x : float) :
  In x [1; 2; 3; 4; 5; 6; 7; 8; 9; 10]%float ->
  (1 <=? x)%float = true /\ (x <=? 10)%float = true.
Proof.
  simpl. intros H.
  repeat (destruct H as [<-|H]; [split; reflexivity|]).
  contradiction.
Qed.

Lemma isIn_iff (values : list string) (v : option string) :
  MoodRoutes.isIn values v = true <-> forall s, v = Some s -> In s values.
Proof.
  destruct v as [s|]; simpl.
  - split.
    + intros H s' E. inversion E; subst. now apply existsb_eqb_In.
    + intros H. apply In_existsb_eqb. now apply H.
  - split; [intros _ s E; discriminate|reflexivity].
Qed.

Lemma isIn_required_iff (values : list string) (v : option string) :
  MoodLogRoutes.isIn_required values v = true
  <-> exists s, v = Some s /\ In s values.
Proof.
  destruct v as [s|]; simpl.
  - split.
    + intros H. exists s. split; [reflexivity|now apply existsb_eqb_In].
    + intros (s' & E & H). inversion E; subst. now apply In_existsb_eqb.
  - split; [discriminate|]. intros (s & E & _). discriminate.
Qed.

Lemma isInt_1_10_required_iff (v : option float) :
  MoodLogRoutes.isInt_1_10_required v = true
  <-> exists x, v = Some x /\ In x [1; 2; 3; 4; 5; 6; 7; 8; 9; 10]%float.
Proof.
  destruct v as [x|]; cbn [MoodLogRoutes.isInt_1_10_required].
  - split.
    + intros H. exists x. split; [reflexivity|now apply isInt_1_10_In].
    + intros (x' & E & H). inversion E; subst. now apply In_1_10_isInt.
  - split; [discriminate|]. intros (x & E & _). discriminate.
Qed.

Lemma isMongoId_iff (v : option string) :
  MoodLogRoutes.isMongoId v = true
  <-> forall t, v = Some t -> Validator.isMongoId t = true.
Proof.
  destruct v as [t|]; simpl.
  - split.
    + intros H t' E. now inversion E; subst.
    + intros H. now apply H.
  - split; [intros _ t E; discriminate|reflexivity].
Qed.

Lemma forallb_triggers_iff (v : option (list string)) :
  forallb (fun t => existsb (String.eqb t) MoodLog.triggers_enum)
          (MoodRoutes.or_else v [])
  = true
  <-> forall ts t, v = Some ts -> In t ts -> In t MoodLog.triggers_enum.
Proof.
  rewrite forallb_forall. destruct v as [ts|]; cbn [MoodRoutes.or_else].
  - split.
    + intros H ts' t E Hin. inversion E; subst. now apply existsb_eqb_In, H.
    + intros H t Hin. apply In_existsb_eqb. now apply (H ts).
  - split; [intros _ ts t E; discriminate|intros _ t []].
Qed.

(** The validation chain of POST, in the terms of the body. *)
Lemma post_chain_iff (body : MoodRoutes.Body.t) :
  MoodLogRoutes.validationResult_isEmpty (MoodRoutes.sanitize body) = true
  <-> ((exists m, MoodRoutes.Body.mood body = Some m /\ In m MoodLog.mood_enum)
      /\ (exists x, MoodRoutes.Body.intensity body = Some x
                    /\ In x [1; 2; 3; 4; 5; 6; 7; 8; 9; 10]%float)
      /\ (forall c, MoodRoutes.Body.context body = Some c ->
                    In c MoodLog.context_enum)
      /\ (forall t, MoodRoutes.Body.transactionId body = Some t ->
                    Validator.isMongoId t = true)
      /\ (forall n, MoodRoutes.Body.notes body = Some n ->
                    (Validator.measured_length (Validator.trim n) <= 500)%nat)).
Proof.
  unfold MoodLogRoutes.validationResult_isEmpty.
  cbn [MoodRoutes.sanitize MoodRoutes.Body.mood MoodRoutes.Body.intensity
       MoodRoutes.Body.context MoodRoutes.Body.transactionId
       MoodRoutes.Body.notes].
  rewrite !andb_true_iff, isIn_required_iff, isInt_1_10_required_iff,
          isIn_iff, isMongoId_iff.
  assert (Hn : match option_map Validator.trim (MoodRoutes.Body.notes body) with
               | Some n => Validator.isLength_max 500 n
               | None => true
               end = true
               <-> forall n, MoodRoutes.Body.notes body = Some n ->
                             (Validator.measured_length (Validator.trim n) <= 500)%nat).
  { destruct (MoodRoutes.Body.notes body) as [n|]; simpl.
    - unfold Validator.isLength_max. rewrite Nat.leb_le. split.
      + intros H n' E. now inversion E; subst.
      + intros H. now apply H.
    - split; [intros _ n E; discriminate|reflexivity]. }
  rewrite Hn. tauto.
Qed.

(** What the validation chain of POST leaves to the schema: the values
    of the triggers, and the length of the notes in UTF-16 code
    units. *)
Lemma chain_schema_valid (id user : string) (body : MoodRoutes.Body.t) (now : Z) :
  user <> "" ->
  MoodLogRoutes.validationResult_isEmpty (MoodRoutes.sanitize body) = true ->
  (MoodLogRoutes.schema_valid
     (MoodLogRoutes.new_MoodLog id user (MoodRoutes.sanitize body) now) = true
   <-> ((forall ts t, MoodRoutes.Body.triggers body = Some ts -> In t ts ->
                   In t MoodLog.triggers_enum)
      /\ (forall n, MoodRoutes.Body.notes body = Some n ->
                    (JSString.length (Validator.trim n) <= 500)%nat))).
Proof.
  intros Hu H. rewrite <- forallb_triggers_iff.
  unfold MoodLogRoutes.validationResult_isEmpty in H.
  repeat (apply andb_true_iff in H; destruct H as [H ?]).
  unfold MoodLogRoutes.schema_valid, MoodLogRoutes.new_MoodLog.
  cbn [MoodRoutes.sanitize MoodRoutes.Body.mood MoodRoutes.Body.intensity
       MoodRoutes.Body.context MoodRoutes.Body.transactionId
       MoodRoutes.Body.notes MoodRoutes.Body.triggers
       MoodLog.userId MoodLog.mood MoodLog.intensity MoodLog.context
       MoodLog.notes MoodLog.triggers] in *.
  replace (negb (String.eqb user "")) with true
    by (symmetry; apply negb_true_iff, String.eqb_neq, Hu).
  destruct (MoodRoutes.Body.mood body) as [m|]; [|discriminate].
  cbn [MoodLogRoutes.isIn_required] in H. cbn [MoodRoutes.or_else]. rewrite H.
  destruct (MoodRoutes.Body.intensity body) as [x|]; [|discriminate].
  match goal with
  | Hi : MoodLogRoutes.isInt_1_10_required (Some x) = true |- _ =>
      cbn [MoodLogRoutes.isInt_1_10_required] in Hi;
      apply isInt_1_10_In, In_1_10_range in Hi;
      destruct Hi as [Hlo Hhi]
  end.
  cbn [MoodRoutes.or_else]. rewrite Hlo, Hhi.
  replace (MoodRoutes.isIn MoodLog.context_enum
             (Some (MoodRoutes.or_else (MoodRoutes.Body.context body) "general")))
    with true
    by (destruct (MoodRoutes.Body.context body); simpl in *; [congruence|reflexivity]).
  cbn [andb]. rewrite andb_true_iff.
  assert (Hn : match option_map Validator.trim (MoodRoutes.Body.notes body) with
               | Some n => Nat.leb (JSString.length n) 500
               | None => true
               end = true
               <-> forall n, MoodRoutes.Body.notes body = Some n ->
                             (JSString.length (Validator.trim n) <= 500)%nat).
  { destruct (MoodRoutes.Body.notes body) as [n|]; simpl.
    - rewrite Nat.leb_le. split.
      + intros Hl n' E. now inversion E; subst.
      + intros Hl. now apply Hl.
    - split; [intros _ n E; discriminate|reflexivity]. }
  rewrite Hn. tauto.
Qed.

(** The answer of POST /api/moods follows the body and the caller.  The
    validation chain asks for a mood of the enumeration, an integer
    intensity from 1 to 10, a context of the enumeration where one is
    given, a transaction id that [isMongoId] accepts where one is given,
    and notes that, trimmed, measure at most 500 (a surrogate pair
    counting once, a variation selector not at all).  The schema asks
    for triggers of its enumeration and for trimmed notes of at most 500
    UTF-16 code units.  The answer is status 400 exactly when the chain
    rejects the body, status 500 exactly when the chain passes and the
    schema rejects, and status 201 exactly when both pass. *)
Theorem post_status :
  forall (moodlogs : list MoodLog.t) (user id : string)
         (body : MoodRoutes.Body.t) (now : Z),
    user <> "" ->
    let chain :=
      (exists m, MoodRoutes.Body.mood body = Some m /\ In m MoodLog.mood_enum)
      /\ (exists x, MoodRoutes.Body.intensity body = Some x
                    /\ In x [1; 2; 3; 4; 5; 6; 7; 8; 9; 10]%float)
      /\ (forall c, MoodRoutes.Body.context body = Some c ->
                    In c MoodLog.context_enum)
      /\ (forall t, MoodRoutes.Body.transactionId body = Some t ->
                    Validator.isMongoId t = true)
      /\ (forall n, MoodRoutes.Body.notes body = Some n ->
                    (Validator.measured_length (Validator.trim n) <= 500)%nat) in
    let schema :=
      (forall ts t, MoodRoutes.Body.triggers body = Some ts -> In t ts ->
                   In t MoodLog.triggers_enum)
      /\ (forall n, MoodRoutes.Body.notes body = Some n ->
                    (JSString.length (Validator.trim n) <= 500)%nat) in
    match fst (MoodLogRoutes.post moodlogs user id body now) with
    | MoodLogRoutes.Status201 _ => chain /\ schema
    | MoodLogRoutes.Failed status message =>
        (status = 400 /\ message = "Validation failed" /\ ~ chain)
        \/ (status = 500 /\ message = "Server error" /\ chain /\ ~ schema)
    end.
Proof.
  intros moodlogs user id body now Hu chain schema.
  assert (Hchain : MoodLogRoutes.validationResult_isEmpty (MoodRoutes.sanitize body)
                   = true <-> chain) by apply post_chain_iff.
  unfold MoodLogRoutes.post.
  destruct (MoodLogRoutes.validationResult_isEmpty (MoodRoutes.sanitize body)) eqn:Hv;
    cbn [negb fst].
  - pose proof (chain_schema_valid id user body now Hu Hv) as Hschema.
    fold schema in Hschema.
    destruct (MoodLogRoutes.schema_valid _); cbn [negb fst].
    + split; [now apply Hchain|now apply Hschema].
    + right. split; [reflexivity|]. split; [reflexivity|].
      split; [now apply Hchain|].
      intros H. apply Hschema in H. discriminate.
  - left. split; [reflexivity|]. split; [reflexivity|].
    intros H. apply Hchain in H. discriminate.
Qed.

(** POST at three bodies: the sample body is stored; so is a note of
    300 characters of three bytes and one UTF-16 code unit each; a note
    of 300 characters of two UTF-16 code units each passes the chain and
    fails the schema. *)
Lemma post_status_witness :
  "u" <> ""
  /\ (forall n, MoodRoutes.Body.notes Requests.body = Some n ->
                (JSString.length (Validator.trim n) <= 500)%nat)
  /\ (exists c,
        fst (MoodLogRoutes.post Samples.moods "u" "m4"
               (Requests.mood_and_notes "happy" 7 (Requests.times 300 Requests.cjk))
               (Samples.jan_1_2024 + 3000))
        = MoodLogRoutes.Status201 c)
  /\ fst (MoodLogRoutes.post Samples.moods "u" "m4"
            (Requests.mood_and_notes "happy" 7 (Requests.times 300 Requests.emoji))
            (Samples.jan_1_2024 + 3000))
     = MoodLogRoutes.Failed 500 "Server error".
Proof.
  assert (H : "u" <> "") by discriminate.
  split; [exact H|]. split; [|split; [eexists; reflexivity|]].
  - exact (proj2 (proj2 (post_status Samples.moods "u" "m4" Requests.body
                           (Samples.jan_1_2024 + 3000) H))).
  - pose proof (post_status Samples.moods "u" "m4"
                  (Requests.mood_and_notes "happy" 7
                     (Requests.times 300 Requests.emoji))
                  (Samples.jan_1_2024 + 3000) H) as P.
    destruct (fst (MoodLogRoutes.post Samples.moods "u" "m4" _ _))
      as [c|status message].
    + destruct P as [_ [_ Hn]]. specialize (Hn _ eq_refl).
      vm_compute in Hn. exfalso. lia.
    + destruct P as [(_ & _ & Hc)|(-> & -> & _)]; [|reflexivity].
      exfalso. apply Hc.
      split; [exists "happy"; split; [reflexivity|simpl; auto]|].
      split; [exists 7%float; split; [reflexivity|simpl; auto 10]|].
      split; [intros c E; discriminate|].
      split; [intros t E; discriminate|].
      intros n E. inversion E; subst.
      apply Nat.leb_le. vm_compute. reflexivity.
Defined.

(** A POST that fails leaves the collection as it was.  A POST that
    succeeds appends one document to it: the document has the fresh id,
    belongs to the caller whatever [userId] the body names, is created
    and updated now, has a mood of the enumeration, an integer intensity
    from 1 to 10, the context of the body or [general], and the trimmed
    notes; the answer shows this document, with a score in (0, 9].  So
    a note written between a no-break space and a tab is stored without
    them, its inner spaces kept. *)
Theorem post_appends_own_document :
  (forall (moodlogs : list MoodLog.t) (user id : string)
         (body : MoodRoutes.Body.t) (now : Z),
    match MoodLogRoutes.post moodlogs user id body now with
    | (MoodLogRoutes.Failed _ _, moodlogs') => moodlogs' = moodlogs
    | (MoodLogRoutes.Status201 c, moodlogs') =>
        exists d,
          moodlogs' = moodlogs ++ [d]
          /\ MoodLog._id d = id /\ MoodLog.userId d = user
          /\ MoodLog.createdAt d = now /\ MoodLog.updatedAt d = now
          /\ In (MoodLog.mood d) MoodLog.mood_enum
          /\ In (MoodLog.intensity d) [1; 2; 3; 4; 5; 6; 7; 8; 9; 10]%float
          /\ Some (MoodLog.mood d) = MoodRoutes.Body.mood body
          /\ Some (MoodLog.intensity d) = MoodRoutes.Body.intensity body
          /\ MoodLog.context d
             = Some (MoodRoutes.or_else (MoodRoutes.Body.context body) "general")
          /\ MoodLog.notes d = option_map Validator.trim (MoodRoutes.Body.notes body)
          /\ MoodLogRoutes.id c = id
          /\ MoodLogRoutes.mood c = MoodLog.mood d
          /\ MoodLogRoutes.intensity c = MoodLog.intensity d
          /\ MoodLogRoutes.moodScore c = MoodLog.moodScore d
          /\ (0 <? MoodLogRoutes.moodScore c)%float = true
          /\ (MoodLogRoutes.moodScore c <=? 9)%float = true
    end)
  /\ (exists c d,
        MoodLogRoutes.post [] "u" Requests.oid
          (Requests.mood_and_notes "happy" 7
             (String.append Requests.nbsp
                (String.append " so  so" (JSString.char1 9))))
          5
        = (MoodLogRoutes.Status201 c, [d])
        /\ MoodLog.notes d = Some "so  so").
Proof.
  split; [|do 2 eexists; split; reflexivity].
  intros moodlogs user id body now. unfold MoodLogRoutes.post.
  destruct (MoodLogRoutes.validationResult_isEmpty (MoodRoutes.sanitize body)) eqn:Hv;
    simpl; [|reflexivity].
  destruct (MoodLogRoutes.schema_valid _) eqn:Hs; simpl; [|reflexivity].
  clear Hs.
  exists (MoodLogRoutes.new_MoodLog id user (MoodRoutes.sanitize body) now).
  split; [reflexivity|].
  unfold MoodLogRoutes.validationResult_isEmpty in Hv.
  repeat (apply andb_true_iff in Hv; destruct Hv as [Hv ?]).
  unfold MoodLog.moodScore.
  cbn [MoodRoutes.sanitize MoodRoutes.Body.mood MoodRoutes.Body.intensity
       MoodRoutes.Body.context MoodRoutes.Body.notes
       MoodLogRoutes.new_MoodLog MoodLog._id MoodLog.userId MoodLog.createdAt
       MoodLog.updatedAt MoodLog.mood MoodLog.intensity MoodLog.context
       MoodLog.notes MoodLogRoutes.id MoodLogRoutes.mood
       MoodLogRoutes.intensity MoodLogRoutes.moodScore] in *.
  destruct (MoodRoutes.Body.mood body) as [m|]; [|discriminate].
  destruct (MoodRoutes.Body.intensity body) as [x|]; [|discriminate].
  match goal with
  | Hi : MoodLogRoutes.isInt_1_10_required (Some x) = true |- _ =>
      cbn [MoodLogRoutes.isInt_1_10_required] in Hi;
      apply isInt_1_10_In in Hi; rename Hi into Hx
  end.
  assert (Hm : In m MoodLog.mood_enum).
  { cbn [MoodLogRoutes.isIn_required] in Hv. apply existsb_exists in Hv.
    destruct Hv as (m' & Hin & E).
    apply String.eqb_eq in E. now subst. }
  cbn [MoodRoutes.or_else].
  repeat (split; [first [reflexivity | assumption]|]).
  destruct (mood_enum_moodScores m Hm) as (b & Hb).
  rewrite (moodScores_get m b Hb).
  unfold JS.mul, JS.ToNumber.
  apply moodScore_range; [|exact Hx].
  apply in_map_iff. exists (m, b). split; [reflexivity|exact Hb].
Qed.

(** ** The stored mood logs stay within the schema *)

Lemma findOneAndUpdate_Forall {A : Type} (P : A -> Prop) (filter : A -> bool)
    (update : A -> A) (coll : list A) :
  (forall d, P d -> P (update d)) ->
  Forall P coll ->
  Forall P (snd (Mongo.findOneAndUpdate filter update coll)).
Proof.
  intros Hu. induction 1 as [|d coll Hd Hc IH]; simpl.
  - constructor.
  - destruct (filter d); simpl.
    + constructor; auto.
    + destruct (Mongo.findOneAndUpdate filter update coll) as [r c].
      simpl in *. constructor; auto.
Qed.

(** [findOneAndDelete] takes out the first document that matches, and
    nothing when none does. *)
Lemma findOneAndDelete_spec {A : Type} (filter : A -> bool) (coll : list A) :
  match MongoOps.findOneAndDelete filter coll with
  | (Some d, coll') =>
      exists l1 l2,
        coll = l1 ++ d :: l2 /\ coll' = l1 ++ l2 /\ filter d = true
        /\ Forall (fun x => filter x = false) l1
  | (None, coll') => coll' = coll /\ Forall (fun x => filter x = false) coll
  end.
Proof.
  induction coll as [|x coll IH]; simpl.
  - split; [reflexivity|constructor].
  - destruct (filter x) eqn:Hx.
    + exists [], coll. repeat split; auto.
    + destruct (MongoOps.findOneAndDelete filter coll) as [[d|] c].
      * destruct IH as (l1 & l2 & -> & -> & Hd & Hl1).
        exists (x :: l1), l2. repeat split; auto.
      * destruct IH as [-> Hall]. split; [reflexivity|]. constructor; auto.
Qed.

Lemma set_schema_valid (b : MoodRoutes.Body.t) (now : Z) (d : MoodLog.t) :
  MoodRoutes.runValidators b = true ->
  MoodLogRoutes.schema_valid d = true ->
  MoodLogRoutes.schema_valid (MoodRoutes.set b now d) = true.
Proof.
  unfold MoodRoutes.runValidators, MoodLogRoutes.schema_valid, MoodRoutes.set.
  intros Hb Hd.
  repeat (apply andb_true_iff in Hb; destruct Hb as [Hb ?]).
  repeat (apply andb_true_iff in Hd; destruct Hd as [Hd ?]).
  cbn [MoodLog.userId MoodLog.mood MoodLog.intensity MoodLog.context
       MoodLog.notes MoodLog.triggers].
  destruct (MoodRoutes.Body.userId b) as [u|];
    destruct (MoodRoutes.Body.mood b) as [m|];
    destruct (MoodRoutes.Body.intensity b) as [x|];
    destruct (MoodRoutes.Body.context b) as [c|];
    destruct (MoodRoutes.Body.notes b) as [n|];
    destruct (MoodRoutes.Body.triggers b) as [ts|];
    cbn [MoodRoutes.or_else];
    repeat match goal with
           | H : _ && _ = true |- _ => apply andb_true_iff in H; destruct H
           end;
    repeat (apply andb_true_iff; split); assumption.
Qed.

(** The three writers of the mood routes keep the collection within
    the schema: when every stored log passes the schema validators, so
    does every log that POST /api/moods, PUT /api/moods/:id and
    DELETE /api/moods/:id leave in the collection, whatever the request
    and its outcome. *)
Theorem mood_writers_keep_schema :
  forall (moodlogs : list MoodLog.t) (user id : string)
         (body : MoodRoutes.Body.t) (now : Z),
    Forall (fun d => MoodLogRoutes.schema_valid d = true) moodlogs ->
    Forall (fun d => MoodLogRoutes.schema_valid d = true)
           (snd (MoodLogRoutes.post moodlogs user id body now))
    /\ Forall (fun d => MoodLogRoutes.schema_valid d = true)
              (snd (MoodRoutes.put moodlogs user id body now))
    /\ Forall (fun d => MoodLogRoutes.schema_valid d = true)
              (snd (MoodLogRoutes.delete moodlogs user id)).
Proof.
  intros moodlogs user id body now H. split; [|split].
  - unfold MoodLogRoutes.post.
    destruct (negb (MoodLogRoutes.validationResult_isEmpty _)); [exact H|].
    destruct (MoodLogRoutes.schema_valid _) eqn:Hs; simpl; [|exact H].
    apply Forall_app. split; [exact H|]. constructor; [exact Hs|constructor].
  - unfold MoodRoutes.put.
    destruct (negb (MoodRoutes.validationResult_isEmpty _)); [exact H|].
    destruct (ObjectId.cast id) as [oid|]; [|exact H].
    destruct (MoodRoutes.runValidators _) eqn:Hr; simpl; [|exact H].
    pose proof (findOneAndUpdate_Forall
                  (fun d => MoodLogRoutes.schema_valid d = true)
                  (fun d => String.eqb (MoodLog._id d) oid
                            && String.eqb (MoodLog.userId d) user)
                  (MoodRoutes.set (MoodRoutes.sanitize body) now) moodlogs
                  (fun d => set_schema_valid _ now d Hr) H) as Hu.
    destruct (Mongo.findOneAndUpdate _ _ moodlogs) as [[d|] c]; simpl in *;
      [exact Hu|exact H].
  - unfold MoodLogRoutes.delete.
    destruct (ObjectId.cast id) as [oid|]; [|exact H].
    pose proof (findOneAndDelete_spec (MoodLogRoutes.owned user oid) moodlogs) as Hd.
    destruct (MongoOps.findOneAndDelete _ moodlogs) as [[d|] c]; simpl;
      [|exact H].
    destruct Hd as (l1 & l2 & -> & -> & _ & _).
    apply Forall_app in H. destruct H as [H1 H2].
    apply Forall_app. split; [exact H1|]. now inversion H2.
Qed.

(** The writers at a collection with one log under an ObjectId; the
    update is sent with the id in upper case. *)
Lemma mood_writers_keep_schema_witness :
  Forall (fun d => MoodLogRoutes.schema_valid d = true)
         [Samples.moodlog Requests.oid "u" "sad" 4 Samples.jan_1_2024]
  /\ Forall (fun d => MoodLogRoutes.schema_valid d = true)
            (snd (MoodRoutes.put
                    [Samples.moodlog Requests.oid "u" "sad" 4 Samples.jan_1_2024]
                    "u" Requests.OID Requests.body (Samples.jan_1_2024 + 3000))).
Proof.
  assert (H : Forall (fun d => MoodLogRoutes.schema_valid d = true)
                     [Samples.moodlog Requests.oid "u" "sad" 4 Samples.jan_1_2024]).
  { repeat constructor. }
  split; [exact H|].
  exact (proj1 (proj2 (mood_writers_keep_schema _ "u" Requests.OID Requests.body
                         (Samples.jan_1_2024 + 3000) H))).
Defined.

(** ** GET /api/moods *)

Lemma Sorted_skipn {A : Type} (R : A -> A -> Prop) (n : nat) (l : list A) :
  Sorted R l -> Sorted R (skipn n l).
Proof.
  revert l. induction n as [|n IH]; intros l Hs; simpl; [exact Hs|].
  destruct l as [|a l]; [constructor|].
  apply IH. now inversion Hs.
Qed.

Lemma In_skipn {A : Type} (n : nat) (d : A) (l : list A) :
  In d (skipn n l) -> In d l.
Proof.
  revert l. induction n as [|n IH]; intros l; simpl; [auto|].
  destruct l as [|a l]; [auto|]. intros H. right. now apply IH.
Qed.

(** GET /api/moods, for a numeric [page] and [limit].  The answer is
    status 500 when the sort key is empty, when a date of the query is
    no valid Date, and when the skip [(page - 1) * limit] is negative.
    With a stored path as sort key, valid dates and no negative skip,
    the answer is a listing.  In every listing, each log is a stored log
    of the caller that meets each condition of the query (an absent or
    empty [mood] or [context] adds none); the logs stand in the order of
    the sort key (as stored values, in the direction asked for);
    [total_items] is the number of the caller's logs that meet the
    conditions; and a non-zero limit bounds the page. *)
Theorem get_list_own_matching :
  forall (moodlogs : list MoodLog.t) (user : string) (q : MoodLogRoutes.Query),
    (MoodLogRoutes.sort q = "" ->
     MoodLogRoutes.get_list moodlogs user q = Fail 500 "Server error")
    /\ (forall s, MoodLogRoutes.startDate q = Some s ->
                  s < -8640000000000000 \/ 8640000000000000 < s ->
                  MoodLogRoutes.get_list moodlogs user q = Fail 500 "Server error")
    /\ (forall e, MoodLogRoutes.endDate q = Some e ->
                  e < -8640000000000000 \/ 8640000000000000 < e ->
                  MoodLogRoutes.get_list moodlogs user q = Fail 500 "Server error")
    /\ ((MoodLogRoutes.page q - 1) * MoodLogRoutes.limit q < 0 ->
        MoodLogRoutes.get_list moodlogs user q = Fail 500 "Server error")
    /\ (In (MoodLogRoutes.sort q)
           ["_id"; "userId"; "mood"; "intensity"; "context"; "transactionId";
            "notes"; "createdAt"; "updatedAt"] ->
        (forall s, MoodLogRoutes.startDate q = Some s ->
                   -8640000000000000 <= s <= 8640000000000000) ->
        (forall e, MoodLogRoutes.endDate q = Some e ->
                   -8640000000000000 <= e <= 8640000000000000) ->
        0 <= (MoodLogRoutes.page q - 1) * MoodLogRoutes.limit q ->
        exists l, MoodLogRoutes.get_list moodlogs user q = Ok l)
    /\ match MoodLogRoutes.get_list moodlogs user q with
       | Fail status message => status = 500 /\ message = "Server error"
       | Ok l =>
           Forall (fun d =>
                     In d moodlogs
                     /\ MoodLog.userId d = user
                     /\ (forall m, MoodLogRoutes.q_mood q = Some m -> m <> "" ->
                                   MoodLog.mood d = m)
                     /\ (forall c, MoodLogRoutes.q_context q = Some c -> c <> "" ->
                                   MoodLog.context d = Some c)
                     /\ (forall s, MoodLogRoutes.startDate q = Some s ->
                                   s <= MoodLog.createdAt d)
                     /\ (forall e, MoodLogRoutes.endDate q = Some e ->
                                   MoodLog.createdAt d <= e))
                  (MoodLogRoutes.moodLogs l)
           /\ Sorted (fun a b =>
                        Mongo.spec_le MoodRoutes.stored
                          [(MoodLogRoutes.sort q,
                            if String.eqb (MoodLogRoutes.order q) "asc" then 1 else -1)]
                          a b = true)
                     (MoodLogRoutes.moodLogs l)
           /\ MoodLogRoutes.total_items l
              = Z.of_nat (length (filter (MoodLogRoutes.list_filter user q) moodlogs))
           /\ (MoodLogRoutes.limit q <> 0 ->
               Z.of_nat (length (MoodLogRoutes.moodLogs l))
               <= Z.abs (MoodLogRoutes.limit q))
       end.
Proof.
  intros moodlogs user q. unfold MoodLogRoutes.get_list, Mongo.skip.
  split; [|split; [|split; [|split; [|split]]]].
  - intros ->. reflexivity.
  - intros s Hq Hs. rewrite Hq. cbn [MoodLogRoutes.date_ok]. unfold JSDate.valid.
    replace ((-8640000000000000 <=? s) && (s <=? 8640000000000000)) with false
      by (symmetry; apply andb_false_iff; rewrite !Z.leb_gt; lia).
    cbn [andb negb]. now rewrite orb_true_r.
  - intros e Hq He. rewrite Hq. cbn [MoodLogRoutes.date_ok]. unfold JSDate.valid.
    replace ((-8640000000000000 <=? e) && (e <=? 8640000000000000)) with false
      by (symmetry; apply andb_false_iff; rewrite !Z.leb_gt; lia).
    rewrite andb_false_r. cbn [negb]. now rewrite orb_true_r.
  - intros Hs. apply Z.ltb_lt in Hs. rewrite Hs.
    now destruct (_ || _).
  - intros Hsort Hstart Hend Hs.
    replace (String.eqb (MoodLogRoutes.sort q) "") with false
      by (symmetry; apply String.eqb_neq; intros E; rewrite E in Hsort;
          simpl in Hsort; repeat (destruct Hsort as [Hsort|Hsort]; [discriminate|]);
          exact Hsort).
    replace (MoodLogRoutes.date_ok (MoodLogRoutes.startDate q)) with true
      by (symmetry; destruct (MoodLogRoutes.startDate q) as [t|]; [|reflexivity];
          unfold MoodLogRoutes.date_ok, JSDate.valid;
          apply andb_true_iff; rewrite !Z.leb_le; now apply Hstart).
    replace (MoodLogRoutes.date_ok (MoodLogRoutes.endDate q)) with true
      by (symmetry; destruct (MoodLogRoutes.endDate q) as [t|]; [|reflexivity];
          unfold MoodLogRoutes.date_ok, JSDate.valid;
          apply andb_true_iff; rewrite !Z.leb_le; now apply Hend).
    cbn [andb negb orb].
    replace ((MoodLogRoutes.page q - 1) * MoodLogRoutes.limit q <? 0) with false
      by (symmetry; now apply Z.ltb_ge).
    eexists. reflexivity.
  - destruct (_ || _); [split; reflexivity|].
    destruct ((MoodLogRoutes.page q - 1) * MoodLogRoutes.limit q <? 0) eqn:Hs;
      [split; reflexivity|].
    cbn [MoodLogRoutes.moodLogs MoodLogRoutes.total_items].
    split; [|split; [|split; [reflexivity|apply limit_length]]].
    + apply Forall_forall. intros d Hd.
      apply In_limit, In_skipn, In_sort, filter_In in Hd.
      destruct Hd as [Hin Hf]. unfold MoodLogRoutes.list_filter in Hf.
      repeat (apply andb_true_iff in Hf; destruct Hf as [Hf ?]).
      apply String.eqb_eq in Hf.
      split; [exact Hin|]. split; [exact Hf|].
      split; [|split; [|split]].
      * intros m Hq Hm.
        match goal with
        | H : MoodLogRoutes.equals_if_given (MoodLogRoutes.q_mood q) _ = true |- _ =>
            rewrite Hq in H; unfold MoodLogRoutes.equals_if_given in H;
            apply String.eqb_neq in Hm; rewrite Hm in H; simpl in H;
            apply String.eqb_eq in H; now symmetry
        end.
      * intros c Hq Hc.
        match goal with
        | H : MoodLogRoutes.equals_if_given (MoodLogRoutes.q_context q) _ = true |- _ =>
            rewrite Hq in H; unfold MoodLogRoutes.equals_if_given in H;
            apply String.eqb_neq in Hc; rewrite Hc in H;
            destruct (MoodLog.context d) as [c'|]; simpl in H; [|discriminate];
            apply String.eqb_eq in H; now subst
        end.
      * intros s Hq.
        match goal with
        | H : match MoodLogRoutes.startDate q with _ => _ end = true |- _ =>
            rewrite Hq in H; now apply Z.leb_le
        end.
      * intros e Hq.
        match goal with
        | H : match MoodLogRoutes.endDate q with _ => _ end = true |- _ =>
            rewrite Hq in H; now apply Z.leb_le
        end.
    + apply Sorted_limit, Sorted_skipn.
      apply sort_sorted. intros a b. apply spec_le_total.
Qed.

(** GET /api/moods?sort= is answered with status 500; GET /api/moods
    without parameters is answered with a listing. *)
Lemma get_list_own_matching_witness :
  MoodLogRoutes.get_list Samples.moods "u" Requests.empty_sort
  = Fail 500 "Server error"
  /\ exists l,
       MoodLogRoutes.get_list Samples.moods "u" MoodLogRoutes.default_query = Ok l.
Proof.
  split.
  - apply (proj1 (get_list_own_matching Samples.moods "u" Requests.empty_sort)).
    reflexivity.
  - apply (proj1 (proj2 (proj2 (proj2 (proj2
             (get_list_own_matching Samples.moods "u" MoodLogRoutes.default_query)))))).
    + simpl. auto 10.
    + intros s E. discriminate.
    + intros e E. discriminate.
    + simpl. lia.
Defined.

(** ** DELETE /api/moods/:id *)


(** ** Insights: the summary, the listing by type, marking and deleting *)



(** [getInsightsByType]: every insight of the result is a stored
    insight of the user, has the type and expires after now (an insight
    without expiry date is left out); the result is in descending order
    of [createdAt], and a non-zero limit bounds its length. *)
Theorem getInsightsByType_rows :
  forall (insights : list Insight.t) (userId type : string) (limit now : Z),
    let rows := InsightMore.getInsightsByType insights userId type limit now in
    Forall (fun d =>
              In d insights
              /\ Insight.userId d = userId
              /\ Insight.type d = type
              /\ exists e, Insight.expiresAt d = Some e /\ now < e)
           rows
    /\ Sorted (fun a b => Insight.createdAt b <= Insight.createdAt a) rows
    /\ (limit <> 0 -> Z.of_nat (length rows) <= Z.abs limit).
Proof.
  intros insights userId type limit now rows. subst rows.
  unfold InsightMore.getInsightsByType.
  split; [|split].
  - apply Forall_forall. intros d Hd.
    apply In_limit, In_sort, filter_In in Hd. destruct Hd as [Hin Hf].
    repeat (apply andb_true_iff in Hf; destruct Hf as [Hf ?]).
    apply String.eqb_eq in Hf.
    match goal with
    | H : String.eqb (Insight.type d) type = true |- _ => apply String.eqb_eq in H
    end.
    unfold Insight.expires_after in *.
    destruct (Insight.expiresAt d) as [e|]; [|discriminate].
    repeat split; auto. exists e. split; [reflexivity|now apply Z.ltb_lt].
  - apply Sorted_limit.
    apply Sorted_weaken with
      (R := fun a b =>
              Mongo.spec_le Insight.stored [("createdAt", -1)] a b = true);
      [|apply sort_sorted; intros a b; apply spec_le_total].
    intros a b. unfold Mongo.spec_le. simpl.
    unfold Mongo.directed, Mongo.key_compare. simpl.
    rewrite (Z.compare_antisym (Insight.createdAt b) (Insight.createdAt a)).
    destruct (Insight.createdAt b ?= Insight.createdAt a) eqn:Hc; simpl;
      intros H; try discriminate.
    + apply Z.compare_eq in Hc. rewrite Hc. apply Z.le_refl.
    + apply Z.compare_lt_iff in Hc. now apply Z.lt_le_incl.
  - apply limit_length.
Qed.

Lemma findOneAndUpdate_Forall2 {A : Type} (filter : A -> bool) (update : A -> A)
    (coll : list A) :
  Forall2 (fun d d' => d' = d \/ (filter d = true /\ d' = update d))
          coll (snd (Mongo.findOneAndUpdate filter update coll)).
Proof.
  induction coll as [|d coll IH]; simpl.
  - constructor.
  - destruct (filter d) eqn:Hd; simpl.
    + constructor; [right; auto|].
      clear IH. induction coll; constructor; auto.
    + destruct (Mongo.findOneAndUpdate filter update coll) as [r c].
      simpl in *. constructor; auto.
Qed.

(** Marking an insight as read or as acted upon changes no other
    insight: after either request every stored insight is as it was,
    but for one with the id that belongs to the caller, which has its
    flag set and is stamped; the insights keep their place, their id and
    their owner, and no flag that was set is cleared. *)
Theorem marks_leave_other_insights :
  forall (coll : list Insight.t) (user id : string) (now : Z),
    Forall2 (fun d d' =>
               (d' = d
                \/ (Insight._id d = id /\ Insight.userId d = user
                    /\ d' = InsightRoutes.set_isRead now d))
               /\ Insight._id d' = Insight._id d
               /\ Insight.userId d' = Insight.userId d
               /\ (Insight.isRead d = true -> Insight.isRead d' = true)
               /\ Insight.actionTaken d' = Insight.actionTaken d)
            coll (snd (InsightRoutes.markRead coll user id now))
    /\ Forall2 (fun d d' =>
                  (d' = d
                   \/ (Insight._id d = id /\ Insight.userId d = user
                       /\ d' = InsightRoutes.set_actionTaken now d))
                  /\ Insight._id d' = Insight._id d
                  /\ Insight.userId d' = Insight.userId d
                  /\ Insight.isRead d' = Insight.isRead d
                  /\ (Insight.actionTaken d = true -> Insight.actionTaken d' = true))
               coll (snd (InsightRoutes.markActionTaken coll user id now)).
Proof.
  intros coll user id now. split.
  - rewrite markRead_snd.
    eapply Forall2_impl; [|apply findOneAndUpdate_Forall2].
    intros d d' [->|[Ho ->]].
    + repeat split; auto.
    + apply andb_true_iff in Ho. destruct Ho as [Hi Hu].
      apply String.eqb_eq in Hi. apply String.eqb_eq in Hu.
      repeat split; auto.
  - rewrite markActionTaken_snd.
    eapply Forall2_impl; [|apply findOneAndUpdate_Forall2].
    intros d d' [->|[Ho ->]].
    + repeat split; auto.
    + apply andb_true_iff in Ho. destruct Ho as [Hi Hu].
      apply String.eqb_eq in Hi. apply String.eqb_eq in Hu.
      repeat split; auto.
Qed.





(** ** The authentication middleware *)

(** When each middleware calls [next]: [authenticateJWT] for a user that
    passport found without error; [requireOnboarding] for a request with
    a user whose query gives a first row with a truthy
    [onboarding_completed]; [requireRole] for a request with a user
    whose query gives a first row with a role of the list, where a NULL
    or empty role counts as [user].  The user handed on is the user of
    the request. *)
Theorem middleware_calls_next_iff :
  forall (A : Type) (p : Auth.Passport) (req_user : option string)
         (query : string -> Mongo.result (list Auth.Row)) (roles : list string)
         (u : string),
    (@Auth.authenticateJWT A p = Auth.Next u
     <-> Auth.err p = false /\ Auth.user p = Some u)
    /\ (@Auth.requireOnboarding A req_user query = Auth.Next u
        <-> req_user = Some u
            /\ exists row rows,
                 query u = Mongo.Done (row :: rows)
                 /\ exists n, Auth.onboarding_completed row = Some n /\ n <> 0)
    /\ (@Auth.requireRole A roles req_user query = Auth.Next u
        <-> req_user = Some u
            /\ exists row rows,
                 query u = Mongo.Done (row :: rows)
                 /\ In (match Auth.role row with
                        | Some r => if String.eqb r "" then "user" else r
                        | None => "user"
                        end) roles).
Proof.
  intros A p req_user query roles u. split; [|split].
  - unfold Auth.authenticateJWT.
    destruct (Auth.err p); [split; [discriminate|intros [? _]; discriminate]|].
    destruct (Auth.user p) as [v|].
    + split; [intros H; inversion H; auto|intros [_ H]; inversion H; auto].
    + split; [discriminate|intros [_ ?]; discriminate].
  - unfold Auth.requireOnboarding.
    destruct req_user as [v|]; [|split; [discriminate|intros [? _]; discriminate]].
    destruct (query v) as [[|row rows]|msg] eqn:Hq.
    + split; [discriminate|].
      intros [E (row & rows & Hq' & _)]. inversion E; subst. congruence.
    + unfold Auth.truthy.
      destruct (Auth.onboarding_completed row) as [n|] eqn:Hn; simpl.
      * destruct (n =? 0) eqn:Hz; simpl.
        -- split; [discriminate|].
           intros [E (row' & rows' & Hq' & n' & Hn' & Hne)].
           inversion E; subst. rewrite Hq in Hq'. inversion Hq'; subst.
           rewrite Hn in Hn'. inversion Hn'; subst.
           apply Z.eqb_eq in Hz. contradiction.
        -- split.
           ++ intros H. inversion H; subst. split; [reflexivity|].
              exists row, rows. split; [exact Hq|].
              exists n. split; [exact Hn|]. now apply Z.eqb_neq.
           ++ intros [E _]. now inversion E.
      * split; [discriminate|].
        intros [E (row' & rows' & Hq' & n' & Hn' & _)].
        inversion E; subst. rewrite Hq in Hq'. inversion Hq'; subst. congruence.
    + split; [discriminate|].
      intros [E (row & rows & Hq' & _)]. inversion E; subst. congruence.
  - unfold Auth.requireRole.
    destruct req_user as [v|]; [|split; [discriminate|intros [? _]; discriminate]].
    destruct (query v) as [[|row rows]|msg] eqn:Hq.
    + split; [discriminate|].
      intros [E (row & rows & Hq' & _)]. inversion E; subst. congruence.
    + change (match Auth.role row with
              | Some r => if String.eqb r "" then "user" else r
              | None => "user"
              end) with (Auth.userRole row).
      destruct (existsb (String.eqb (Auth.userRole row)) roles) eqn:Hr; simpl.
      * split.
        -- intros H. inversion H; subst. split; [reflexivity|].
           exists row, rows. split; [exact Hq|].
           apply existsb_exists in Hr. destruct Hr as (r & Hin & E).
           apply String.eqb_eq in E.
           change (In (Auth.userRole row) roles). now rewrite E.
        -- intros [E _]. now inversion E.
      * split; [discriminate|].
        intros [E (row' & rows' & Hq' & Hin)].
        inversion E; subst. rewrite Hq in Hq'. inversion Hq'; subst.
        change (In (Auth.userRole row') roles) in Hin.
        assert (Ht : existsb (String.eqb (Auth.userRole row')) roles = true).
        { apply existsb_exists. exists (Auth.userRole row').
          split; [exact Hin|apply String.eqb_refl]. }
        congruence.
    + split; [discriminate|].
      intros [E (row & rows & Hq' & _)]. inversion E; subst. congruence.
Qed.

(** A route behind [authenticateJWT] and [requireOnboarding] either
    runs its handler, for the user that passport found and whose
    onboarding is completed, or answers with one of the statuses 401,
    403, 404 and 500 and leaves the collection as it was. *)
Theorem route_guards_handler :
  forall (A S : Type) (handler : string -> S -> response A * S)
         (p : Auth.Passport) (query : string -> Mongo.result (list Auth.Row))
         (s : S),
    (exists u row rows n,
        Auth.err p = false /\ Auth.user p = Some u
        /\ query u = Mongo.Done (row :: rows)
        /\ Auth.onboarding_completed row = Some n /\ n <> 0
        /\ Auth.route handler p query s = handler u s)
    \/ (exists status message,
           Auth.route handler p query s = (Fail status message, s)
           /\ In status [401; 403; 404; 500]).
Proof.
  intros A S handler p query s.
  unfold Auth.route, Auth.authenticateJWT, Auth.requireOnboarding.
  destruct (Auth.err p); [right; do 2 eexists; split; [reflexivity|simpl; auto]|].
  destruct (Auth.user p) as [u|];
    [|right; do 2 eexists; split; [reflexivity|simpl; auto]].
  destruct (query u) as [[|row rows]|msg] eqn:Hq;
    try (right; do 2 eexists; split; [reflexivity|simpl; auto 6]).
  unfold Auth.truthy.
  destruct (Auth.onboarding_completed row) as [n|] eqn:Hn; simpl;
    [|right; do 2 eexists; split; [reflexivity|simpl; auto]].
  destruct (n =? 0) eqn:Hz; simpl;
    [right; do 2 eexists; split; [reflexivity|simpl; auto]|].
  left. exists u, row, rows, n. apply Z.eqb_neq in Hz. auto 10.
Qed.

(** ** The client: the mood context *)

Lemma or_string_nonempty (a : option string) (b : string) :
  b <> "" -> MoodContext.or_string a b <> "".
Proof.
  intros Hb. unfold MoodContext.or_string.
  destruct a as [s|]; [|exact Hb].
  destruct (String.eqb s "") eqn:E; [exact Hb|now apply String.eqb_neq].
Qed.

Lemma errorMessage_nonempty {A : Type} (r : MoodContext.reply A) (fallback : string) :
  fallback <> "" -> MoodContext.errorMessage r fallback <> "".
Proof.
  intros Hf. destruct r; unfold MoodContext.errorMessage;
    repeat apply or_string_nonempty; exact Hf.
Qed.

(** The outcome of a call whose success branch dispatches neither
    SET_LOADING nor SET_ERROR. *)
Lemma call_outcome {Stats Trends A : Type} (r : MoodContext.reply A)
    (f : A -> list (MoodContext.action Stats Trends)) (fallback : string)
    (s : MoodContext.State Stats Trends) :
  fallback <> "" ->
  (forall data,
      MoodContext.loading
        (MoodContext.dispatch_all s (MoodContext.SET_LOADING Stats Trends true :: f data))
      = true
      /\ MoodContext.error
           (MoodContext.dispatch_all s
              (MoodContext.SET_LOADING Stats Trends true :: f data))
         = MoodContext.error s) ->
  match r with
  | MoodContext.Answered true _ _ =>
      MoodContext.loading (MoodContext.call r f fallback s) = true
      /\ MoodContext.error (MoodContext.call r f fallback s) = MoodContext.error s
  | _ =>
      MoodContext.loading (MoodContext.call r f fallback s) = false
      /\ exists m,
           MoodContext.error (MoodContext.call r f fallback s) = Some m /\ m <> ""
  end.
Proof.
  intros Hf Hok.
  destruct r as [[|] data m|rm em].
  - apply Hok.
  - split; [reflexivity|]. eexists. split; [reflexivity|].
    now apply errorMessage_nonempty.
  - split; [reflexivity|]. eexists. split; [reflexivity|].
    now apply errorMessage_nonempty.
Qed.

(** The six calls of the mood context set [loading] and do not clear
    it when they succeed: after a call that succeeded [loading] is true
    and [error] is as it was before the call; after a call that failed
    [loading] is false and [error] is a message that is not empty. *)
Theorem loading_stays_set_after_success :
  forall (Stats Trends : Type) (avgMoodScore : Stats -> Mongo.value)
         (s : MoodContext.State Stats Trends) (id : string)
         (r1 r5 : MoodContext.reply MoodContext.Log)
         (r2 : MoodContext.reply (list MoodContext.Log))
         (r3 : MoodContext.reply Trends) (r4 : MoodContext.reply Stats)
         (r6 : MoodContext.reply unit),
    let outcome := fun (A : Type) (r : MoodContext.reply A)
                       (s' : MoodContext.State Stats Trends) =>
                     match r with
                     | MoodContext.Answered true _ _ =>
                         MoodContext.loading s' = true
                         /\ MoodContext.error s' = MoodContext.error s
                     | _ =>
                         MoodContext.loading s' = false
                         /\ exists m, MoodContext.error s' = Some m /\ m <> ""
                     end in
    outcome _ r1 (MoodContext.logMood r1 s)
    /\ outcome _ r2 (MoodContext.getMoodHistory r2 s)
    /\ outcome _ r3 (MoodContext.getMoodTrends r3 s)
    /\ outcome _ r4 (MoodContext.getMoodSummary avgMoodScore r4 s)
    /\ outcome _ r5 (MoodContext.updateMoodLog r5 s)
    /\ outcome _ r6 (MoodContext.deleteMoodLog id r6 s).
Proof.
  intros Stats Trends avgMoodScore s id r1 r5 r2 r3 r4 r6 outcome.
  subst outcome. cbv beta.
  repeat split;
    (apply call_outcome; [discriminate|]); intros data.
  - split; reflexivity.
  - destruct data; split; reflexivity.
  - split; reflexivity.
  - destruct (MoodContext.truthy (avgMoodScore data)); split; reflexivity.
  - split; reflexivity.
  - split; reflexivity.
Qed.

(** Client and server keep two tables of base scores: for every mood
    but sad and anxious, also one outside the enumeration,
    [calculateMoodScore] of the client is the [moodScore] of the server's
    document; for sad the client takes the base 2 and the server 3, for
    anxious the client takes 3 and the server 2. *)
Theorem calculateMoodScore_and_moodScore :
  forall d : MoodLog.t,
    (MoodLog.mood d <> "sad" -> MoodLog.mood d <> "anxious" ->
     MoodContext.calculateMoodScore (MoodLog.mood d) (MoodLog.intensity d)
     = MoodLog.moodScore d)
    /\ (MoodLog.mood d = "sad" ->
        MoodContext.calculateMoodScore (MoodLog.mood d) (MoodLog.intensity d)
        = (2 * (MoodLog.intensity d / 10))%float
        /\ MoodLog.moodScore d = (3 * (MoodLog.intensity d / 10))%float)
    /\ (MoodLog.mood d = "anxious" ->
        MoodContext.calculateMoodScore (MoodLog.mood d) (MoodLog.intensity d)
        = (3 * (MoodLog.intensity d / 10))%float
        /\ MoodLog.moodScore d = (2 * (MoodLog.intensity d / 10))%float).
Proof.
  intros d. unfold MoodContext.calculateMoodScore, MoodLog.moodScore.
  split; [|split].
  - intros Hs Ha.
    apply String.eqb_neq in Hs. apply String.eqb_neq in Ha.
    assert (Hs' : String.eqb "sad" (MoodLog.mood d) = false)
      by (now rewrite String.eqb_sym).
    assert (Ha' : String.eqb "anxious" (MoodLog.mood d) = false)
      by (now rewrite String.eqb_sym).
    f_equal. f_equal.
    unfold JS.get, MoodContext.moodScores, MoodLog.moodScores.
    cbn [JS.own_property]. rewrite Hs', Ha'.
    repeat match goal with
           | |- context [String.eqb ?k (MoodLog.mood d)] =>
               destruct (String.eqb k (MoodLog.mood d)); [reflexivity|]
           end.
    reflexivity.
  - intros ->. split; reflexivity.
  - intros ->. split; reflexivity.
Qed.

Lemma calculateMoodScore_and_moodScore_witness :
  "happy" <> "sad" /\ "happy" <> "anxious"
  /\ MoodContext.calculateMoodScore "happy" 10
     = MoodLog.moodScore (Samples.moodlog "m2" "u" "happy" 10 Samples.jan_1_2024).
Proof.
  assert (Hs : "happy" <> "sad") by discriminate.
  assert (Ha : "happy" <> "anxious") by discriminate.
  split; [exact Hs|]. split; [exact Ha|].
  exact (proj1 (calculateMoodScore_and_moodScore
                  (Samples.moodlog "m2" "u" "happy" 10 Samples.jan_1_2024))
           Hs Ha).
Defined.

Lemma filter_of_document (id : string) (docs : list MoodLog.t) :
  filter (fun log => negb (MoodContext.id_eq (MoodContext.id log) (Some id)))
         (map MoodContext.of_document docs)
  = map MoodContext.of_document docs.
Proof.
  induction docs as [|d docs IH]; simpl; [reflexivity|]. now rewrite IH.
Qed.

Lemma map_of_document (payload : MoodContext.Log) (i : string)
    (docs : list MoodLog.t) :
  MoodContext.id payload = Some i ->
  map (fun log => if MoodContext.id_eq (MoodContext.id log) (MoodContext.id payload)
                  then payload else log)
      (map MoodContext.of_document docs)
  = map MoodContext.of_document docs.
Proof.
  intros Hp. rewrite Hp.
  induction docs as [|d docs IH]; simpl; [reflexivity|]. now rewrite IH.
Qed.

(** The logs that GET /api/moods lists carry [_id] and no [id], and the
    reducer finds a log by its [id]: once the history is loaded from the
    server, a successful [deleteMoodLog] of any id and a successful
    [updateMoodLog] with any answer of PUT leave the history as it was
    loaded. *)
Theorem listed_logs_survive_delete_and_update :
  forall (Stats Trends : Type) (s : MoodContext.State Stats Trends)
         (docs : list MoodLog.t) (id : string) (v : MoodRoutes.View)
         (m1 m2 m3 : option string),
    let listed :=
      MoodContext.getMoodHistory
        (MoodContext.Answered true (map MoodContext.of_document docs) m1) s in
    MoodContext.moodHistory listed = map MoodContext.of_document docs
    /\ MoodContext.moodHistory
         (MoodContext.deleteMoodLog id (MoodContext.Answered true tt m2) listed)
       = map MoodContext.of_document docs
    /\ MoodContext.moodHistory
         (MoodContext.updateMoodLog
            (MoodContext.Answered true (MoodContext.of_view v) m3) listed)
       = map MoodContext.of_document docs.
Proof.
  intros Stats Trends s docs id v m1 m2 m3 listed.
  assert (Hl : MoodContext.moodHistory listed = map MoodContext.of_document docs).
  { subst listed. destruct docs; reflexivity. }
  split; [exact Hl|]. split.
  - change (filter (fun log => negb (MoodContext.id_eq (MoodContext.id log) (Some id)))
                   (MoodContext.moodHistory listed)
            = map MoodContext.of_document docs).
    rewrite Hl. apply filter_of_document.
  - change (map (fun log =>
                   if MoodContext.id_eq (MoodContext.id log)
                        (MoodContext.id (MoodContext.of_view v))
                   then MoodContext.of_view v else log)
                (MoodContext.moodHistory listed)
            = map MoodContext.of_document docs).
    rewrite Hl. now apply map_of_document with (i := MoodRoutes.id v).
Qed.

Lemma filter_other_ids (i : string) (l : list MoodContext.Log) :
  Forall (fun log => MoodContext.id log <> Some i) l ->
  filter (fun log => negb (MoodContext.id_eq (MoodContext.id log) (Some i))) l = l.
Proof.
  induction 1 as [|log l Hlog Hl IH]; simpl; [reflexivity|].
  rewrite IH.
  destruct (MoodContext.id log) as [j|] eqn:Hj; simpl; [|reflexivity].
  destruct (String.eqb j i) eqn:E; [|reflexivity].
  apply String.eqb_eq in E. subst. contradiction.
Qed.

(** A mood that is logged and then deleted: [logMood] puts the created
    log at the head of the history and makes it the last log and its
    mood the current mood; when the history had no log with its id,
    [deleteMoodLog] of that id gives the history back, but leaves no
    last log and keeps the mood of the deleted log as the current
    mood. *)
Theorem logged_mood_then_deleted :
  forall (Stats Trends : Type) (s : MoodContext.State Stats Trends)
         (c : MoodLogRoutes.Created) (m1 m2 : option string),
    Forall (fun log => MoodContext.id log <> Some (MoodLogRoutes.id c))
           (MoodContext.moodHistory s) ->
    let logged :=
      MoodContext.logMood (MoodContext.Answered true (MoodContext.of_created c) m1) s in
    let deleted :=
      MoodContext.deleteMoodLog (MoodLogRoutes.id c)
        (MoodContext.Answered true tt m2) logged in
    MoodContext.moodHistory logged = MoodContext.of_created c :: MoodContext.moodHistory s
    /\ MoodContext.lastMoodLog logged = Some (MoodContext.of_created c)
    /\ MoodContext.currentMood logged = Some (MoodLogRoutes.mood c)
    /\ MoodContext.moodHistory deleted = MoodContext.moodHistory s
    /\ MoodContext.lastMoodLog deleted = None
    /\ MoodContext.currentMood deleted = Some (MoodLogRoutes.mood c).
Proof.
  intros Stats Trends s c m1 m2 H logged deleted.
  repeat split.
  - change (filter (fun log => negb (MoodContext.id_eq (MoodContext.id log)
                                       (Some (MoodLogRoutes.id c))))
                   (MoodContext.of_created c :: MoodContext.moodHistory s)
            = MoodContext.moodHistory s).
    simpl. rewrite String.eqb_refl. simpl. now apply filter_other_ids.
  - change ((if MoodContext.id_eq (Some (MoodLogRoutes.id c)) (Some (MoodLogRoutes.id c))
             then None else Some (MoodContext.of_created c)) = None).
    simpl. now rewrite String.eqb_refl.
Qed.

Lemma logged_mood_then_deleted_witness :
  Forall (fun log => MoodContext.id log <> Some "m4")
         (MoodContext.moodHistory (MoodContext.initialState unit unit))
  /\ MoodContext.lastMoodLog
       (MoodContext.deleteMoodLog "m4" (MoodContext.Answered true tt None)
          (MoodContext.logMood
             (MoodContext.Answered true
                (MoodContext.of_created
                   {| MoodLogRoutes.id := "m4"; MoodLogRoutes.mood := "happy";
                      MoodLogRoutes.intensity := 7; MoodLogRoutes.context := Some "general";
                      MoodLogRoutes.moodScore := 6.3;
                      MoodLogRoutes.createdAt := Samples.jan_1_2024 |})
                None)
             (MoodContext.initialState unit unit)))
     = None.
Proof.
  assert (H : Forall (fun log => MoodContext.id log <> Some "m4")
                     (MoodContext.moodHistory (MoodContext.initialState unit unit)))
    by constructor.
  split; [exact H|].
  exact (proj1 (proj2 (proj2 (proj2 (proj2
           (logged_mood_then_deleted unit unit (MoodContext.initialState unit unit)
              {| MoodLogRoutes.id := "m4"; MoodLogRoutes.mood := "happy";
                 MoodLogRoutes.intensity := 7; MoodLogRoutes.context := Some "general";
                 MoodLogRoutes.moodScore := 6.3;
                 MoodLogRoutes.createdAt := Samples.jan_1_2024 |}
              None None H)))))).
Defined.

(** The average of the summary is never truthy: it is the 0 of the
    default object, or the null average of a field that is not stored. *)
Lemma get_summary_avg_falsy (moodlogs : list MoodLog.t) (user : string)
    (days now : Z) (r : MoodRoutes.SummaryRow) :
  MoodRoutes.get_summary moodlogs user days now = Ok r ->
  MoodContext.truthy (MoodRoutes.summary_avgMoodScore r) = false.
Proof.
  unfold MoodRoutes.get_summary.
  destruct (negb (JSDate.valid _)); [discriminate|].
  destruct (MoodRoutes.summary_aggregate moodlogs user _) as [[|row rows]|msg] eqn:Hs;
    intros H; inversion H; subst; clear H.
  - reflexivity.
  - unfold MoodRoutes.summary_aggregate in Hs.
    destruct (filter _ moodlogs) as [|d l]; [discriminate|].
    destruct (Mongo.mapM MoodRoutes.dominantMood_expr (d :: l));
      cbn [Mongo.bind] in Hs; [|discriminate].
    inversion Hs; subst. cbn [MoodRoutes.summary_avgMoodScore].
    replace (Mongo.acc_avg _) with Mongo.VNull
      by (symmetry; exact (avg_of_moodScore (d :: l))).
    reflexivity.
Qed.

(** [getMoodSummary] against GET /api/moods/summary, reading
    [summary.avgMoodScore] of the answer: whatever the stored logs, the
    user and the window, the call leaves [weeklyMoodScore] as it was;
    from the initial state it stays null. *)
Theorem weeklyMoodScore_is_never_set :
  forall (Trends : Type) (s : MoodContext.State MoodRoutes.SummaryRow Trends)
         (moodlogs : list MoodLog.t) (user : string) (days now : Z),
    MoodContext.weeklyMoodScore
      (MoodContext.getMoodSummary MoodRoutes.summary_avgMoodScore
         (MoodContext.axios (MoodRoutes.get_summary moodlogs user days now)) s)
    = MoodContext.weeklyMoodScore s.
Proof.
  intros Trends s moodlogs user days now.
  pose proof (get_summary_avg_falsy moodlogs user days now) as Hf.
  destruct (MoodRoutes.get_summary moodlogs user days now) as [r|status message].
  - unfold MoodContext.getMoodSummary, MoodContext.axios, MoodContext.call.
    rewrite (Hf r eq_refl). reflexivity.
  - reflexivity.
Qed.

(** ** POST /api/moods, then GET /api/moods *)

Lemma sort_snoc_head {A : Type} (le : A -> A -> bool) (l : list A) (d : A) :
  Forall (fun x => le x d = false) l ->
  exists rest, Mongo.sort le (l ++ [d]) = d :: rest.
Proof.
  unfold Mongo.sort. rewrite fold_right_app. simpl.
  induction 1 as [|x l Hx Hl IH]; simpl.
  - now exists [].
  - destruct IH as (rest & ->). simpl. rewrite Hx. now eexists.
Qed.

Lemma createdAt_desc_later (x d : MoodLog.t) :
  MoodLog.createdAt x < MoodLog.createdAt d ->
  Mongo.spec_le MoodRoutes.stored [("createdAt", -1)] x d = false.
Proof.
  intros H. unfold Mongo.spec_le. simpl.
  unfold Mongo.directed, Mongo.key_compare. simpl.
  apply Z.compare_lt_iff in H. now rewrite H.
Qed.

(** A mood that was just logged heads the listing: after a POST that
    succeeds at a time later than every stored log, GET /api/moods of the
    caller without parameters (page 1, 20 logs, latest first) answers
    with the created log in the first place, and counts one log more
    than the caller had. *)
Theorem posted_mood_heads_the_listing :
  forall (moodlogs : list MoodLog.t) (user id : string)
         (body : MoodRoutes.Body.t) (now : Z)
         (c : MoodLogRoutes.Created) (moodlogs' : list MoodLog.t),
    MoodLogRoutes.post moodlogs user id body now
    = (MoodLogRoutes.Status201 c, moodlogs') ->
    Forall (fun d => MoodLog.createdAt d < now) moodlogs ->
    exists d rest,
      MoodLogRoutes.get_list moodlogs' user MoodLogRoutes.default_query
      = Ok {| MoodLogRoutes.moodLogs := d :: rest;
              MoodLogRoutes.total_items :=
                1 + Z.of_nat (length (filter (fun x => String.eqb (MoodLog.userId x) user)
                                             moodlogs)) |}
      /\ MoodLog._id d = id
      /\ MoodLog.userId d = user
      /\ MoodLog.createdAt d = now
      /\ MoodLog.mood d = MoodLogRoutes.mood c
      /\ MoodLog.intensity d = MoodLogRoutes.intensity c
      /\ MoodLog.moodScore d = MoodLogRoutes.moodScore c.
Proof.
  intros moodlogs user id body now c moodlogs' Hp Hlater.
  unfold MoodLogRoutes.post in Hp.
  destruct (negb (MoodLogRoutes.validationResult_isEmpty _)); [discriminate|].
  destruct (negb (MoodLogRoutes.schema_valid _)); [discriminate|].
  inversion Hp; subst; clear Hp.
  set (d := MoodLogRoutes.new_MoodLog id user (MoodRoutes.sanitize body) now).
  unfold MoodLogRoutes.get_list.
  assert (Hf : forall x, MoodLogRoutes.list_filter user MoodLogRoutes.default_query x
                         = String.eqb (MoodLog.userId x) user).
  { intros x. unfold MoodLogRoutes.list_filter. simpl.
    now rewrite !andb_true_r. }
  rewrite (filter_ext _ _ Hf), filter_app.
  assert (Hd : filter (fun x => String.eqb (MoodLog.userId x) user) [d] = [d]).
  { simpl. now rewrite String.eqb_refl. }
  rewrite Hd.
  destruct (sort_snoc_head
              (Mongo.spec_le MoodRoutes.stored [("createdAt", -1)])
              (filter (fun x => String.eqb (MoodLog.userId x) user) moodlogs) d)
    as (rest & Hs).
  { apply Forall_forall. intros x Hx. apply filter_In in Hx.
    destruct Hx as [Hx _]. rewrite Forall_forall in Hlater.
    apply createdAt_desc_later. simpl. now apply Hlater. }
  cbn [MoodLogRoutes.page MoodLogRoutes.limit MoodLogRoutes.sort
       MoodLogRoutes.order MoodLogRoutes.default_query].
  change (if String.eqb "desc" "asc" then 1 else -1) with (-1).
  rewrite Hs.
  exists d, (firstn 19 rest).
  split; [|repeat split].
  replace (Z.of_nat (length (filter (fun x => String.eqb (MoodLog.userId x) user)
                                    moodlogs ++ [d])))
    with (1 + Z.of_nat (length (filter (fun x => String.eqb (MoodLog.userId x) user)
                                       moodlogs)))
    by (rewrite length_app; simpl length; lia).
  reflexivity.
Qed.

Lemma posted_mood_heads_the_listing_witness :
  exists c moodlogs' d rest,
    MoodLogRoutes.post Samples.moods "u" "m4" Requests.body (Samples.jan_1_2024 + 3000)
    = (MoodLogRoutes.Status201 c, moodlogs')
    /\ Forall (fun d => MoodLog.createdAt d < Samples.jan_1_2024 + 3000) Samples.moods
    /\ MoodLogRoutes.get_list moodlogs' "u" MoodLogRoutes.default_query
       = Ok {| MoodLogRoutes.moodLogs := d :: rest;
               MoodLogRoutes.total_items := 4 |}
    /\ MoodLog._id d = "m4".
Proof.
  assert (Hp : MoodLogRoutes.post Samples.moods "u" "m4" Requests.body
                 (Samples.jan_1_2024 + 3000)
               = (MoodLogRoutes.Status201
                    {| MoodLogRoutes.id := "m4"; MoodLogRoutes.mood := "happy";
                       MoodLogRoutes.intensity := 7;
                       MoodLogRoutes.context := Some "general";
                       MoodLogRoutes.moodScore := (9 * (7 / 10))%float;
                       MoodLogRoutes.createdAt := Samples.jan_1_2024 + 3000 |},
                  Samples.moods
                  ++ [MoodLogRoutes.new_MoodLog "m4" "u"
                        (MoodRoutes.sanitize Requests.body)
                        (Samples.jan_1_2024 + 3000)]))
    by reflexivity.
  assert (Hl : Forall (fun d => MoodLog.createdAt d < Samples.jan_1_2024 + 3000)
                      Samples.moods)
    by (repeat constructor).
  destruct (posted_mood_heads_the_listing _ _ _ _ _ _ _ Hp Hl)
    as (d & rest & Hg & Hid & _).
  do 2 eexists. exists d, rest.
  split; [exact Hp|]. split; [exact Hl|]. split; [exact Hg|exact Hid].
Defined.
